(** * iSubRip: scraper and playlist downloader

    A shallow embedding of [isubrip/scraper.py] and
    [isubrip/playlist_downloader.py], and the properties of the
    extraction pipeline, the track selector, the segment fetcher and the
    file naming that are proved about it.

    Python values are dynamically typed: JSON documents are embedded as
    the inductive type [json], exceptions as the type [exc], and a
    computation that can raise and that loads playlists over the network
    lives in the monad [M], which records every [m3u8.load] call. *)

From Stdlib Require Import ZArith List String Ascii Bool Lia DecimalString.
From stdpp Require Import base strings gmap.
Import ListNotations.
Set Warnings "-register-all".
Local Open Scope string_scope.
Local Open Scope Z_scope.
Local Open Scope list_scope.

(* ===================================================================== *)
(** ** Python preliminaries *)
(* ===================================================================== *)

Module Py.

(** Exception classes that the two source files raise, catch or can
    receive from the libraries they call. *)
Inductive exc : Type :=
| KeyError | IndexError | TypeError | AttributeError
| ValueError | JSONDecodeError | UnicodeDecodeError | OverflowError
| OSError | URLError | HTTPError
| RequestsHTTPError | RequestsConnectionError | ClientError
| StopIteration | PageLoadError | InvalidURL.

Definition exc_eqb (a b : exc) : bool :=
  match a, b with
  | KeyError, KeyError | IndexError, IndexError | TypeError, TypeError
  | AttributeError, AttributeError | ValueError, ValueError
  | JSONDecodeError, JSONDecodeError
  | UnicodeDecodeError, UnicodeDecodeError
  | OverflowError, OverflowError | OSError, OSError | URLError, URLError
  | HTTPError, HTTPError | RequestsHTTPError, RequestsHTTPError
  | RequestsConnectionError, RequestsConnectionError
  | ClientError, ClientError | StopIteration, StopIteration
  | PageLoadError, PageLoadError
  | InvalidURL, InvalidURL => true
  | _, _ => false
  end.

(** The direct base class, inside this set of classes ([None] stands for a
    base outside of it, such as [Exception] or [LookupError]).
    [json.JSONDecodeError] and [UnicodeDecodeError] derive from
    [ValueError]; [urllib.error.HTTPError] derives from [URLError], which
    derives from [OSError]; the exceptions of [requests] derive from
    [OSError]. *)
Definition base (e : exc) : option exc :=
  match e with
  | JSONDecodeError | UnicodeDecodeError => Some ValueError
  | HTTPError => Some URLError
  | URLError => Some OSError
  | RequestsHTTPError | RequestsConnectionError => Some OSError
  | _ => None
  end.

(** [issubclass e cls]: an [except cls] clause catches [e]. *)
Definition issubclass (e cls : exc) : bool :=
  exc_eqb e cls
  || match base e with
     | Some b => exc_eqb b cls
                 || match base b with
                    | Some b' => exc_eqb b' cls
                    | None => false
                    end
     | None => false
     end.

(** JSON documents as [json.loads] returns them. Numbers are integers:
    no floating point number is modelled. An object keeps its members in
    document order, as a Python [dict] does. *)
Inductive json : Type :=
| JNull
| JBool (b : bool)
| JNum (n : Z)
| JStr (s : string)
| JArr (l : list json)
| JObj (kv : list (string * json)).

(** An event of the log: [m3u8.load(uri)] was called. *)
Inductive event : Type :=
| Load (uri : json).

(** A computation logs its playlist loads, and raises or returns. *)
Definition M (A : Type) : Type := (list event * (exc + A))%type.

Definition ret {A} (a : A) : M A := ([], inr a).
Definition raise {A} (e : exc) : M A := ([], inl e).
Definition bind {A B} (m : M A) (k : A -> M B) : M B :=
  match m with
  | (l, inl e) => (l, inl e)
  | (l, inr a) => let (l', r) := k a in (l ++ l', r)
  end.

Definition log_of {A} (m : M A) : list event := fst m.
Definition outcome {A} (m : M A) : exc + A := snd m.

End Py.
Import Py.

Declare Scope py_scope.
Delimit Scope py_scope with py.
Notation "'let*' x ':=' m 'in' k" := (bind m (fun x => k))
  (at level 10, x pattern, m at level 100, k at level 200) : py_scope.
Local Open Scope py_scope.

(* ===================================================================== *)
(** ** Strings *)
(* ===================================================================== *)

(** A Python [str] is embedded as the Rocq [string] of its UTF-8 bytes.
    [lower] and [upper] are [str.lower] and [str.upper] on the strings of
    ASCII characters, which [is_ascii] recognises: they change the
    letters A to Z and a to z and nothing else. On other strings Python
    also changes the cased letters of the other scripts, which these
    functions leave as they are; a statement that depends on the lower
    case of a string is made for the strings of ASCII characters. *)
Module Str.

(** [s.isascii()]: every byte is below 128. *)
Fixpoint is_ascii (s : string) : bool :=
  match s with
  | EmptyString => true
  | String c r => (N_of_ascii c <? 128)%N && is_ascii r
  end.

Definition lower_ascii (c : ascii) : ascii :=
  let n := N_of_ascii c in
  if ((65 <=? n) && (n <=? 90))%N then ascii_of_N (n + 32) else c.

Definition upper_ascii (c : ascii) : ascii :=
  let n := N_of_ascii c in
  if ((97 <=? n) && (n <=? 122))%N then ascii_of_N (n - 32) else c.

Fixpoint lower (s : string) : string :=
  match s with
  | EmptyString => EmptyString
  | String c r => String (lower_ascii c) (lower r)
  end.

Fixpoint upper (s : string) : string :=
  match s with
  | EmptyString => EmptyString
  | String c r => String (upper_ascii c) (upper r)
  end.

(** [sub in s], Python's substring test. *)
Fixpoint contains (sub s : string) : bool :=
  String.prefix sub s
  || match s with
     | EmptyString => false
     | String _ r => contains sub r
     end.

(** [x in l] for a list of strings. *)
Definition mem (x : string) (l : list string) : bool :=
  existsb (String.eqb x) l.

(** [str(n)] for an integer. *)
Definition of_Z (n : Z) : string := NilZero.string_of_int (Z.to_int n).

(** ASCII white space, which [str.strip] removes at both ends. *)
Definition is_space (c : ascii) : bool :=
  let n := N_of_ascii c in
  ((9 <=? n) && (n <=? 13) || (28 <=? n) && (n <=? 32))%N.

Fixpoint lstrip (s : string) : string :=
  match s with
  | String c r => if is_space c then lstrip r else s
  | EmptyString => EmptyString
  end.

Fixpoint rstrip (s : string) : string :=
  match s with
  | EmptyString => EmptyString
  | String c r =>
      match rstrip r with
      | EmptyString => if is_space c then EmptyString else String c EmptyString
      | r' => String c r'
      end
  end.

Definition strip (s : string) : string := rstrip (lstrip s).

End Str.

(* ===================================================================== *)
(** ** Operations on dynamically typed values *)
(* ===================================================================== *)

Module Dyn.

Fixpoint assoc (k : string) (kv : list (string * json)) : option json :=
  match kv with
  | [] => None
  | (k', v) :: r => if String.eqb k k' then Some v else assoc k r
  end.

(** Python's index into a sequence of length [len]: a negative index
    counts from the end. *)
Definition py_index (i len : Z) : option nat :=
  if (0 <=? i) && (i <? len) then Some (Z.to_nat i)
  else if (i <? 0) && (0 <=? i + len) then Some (Z.to_nat (i + len))
  else None.

Definition char_at (s : string) (n : nat) : option json :=
  match String.get n s with
  | Some c => Some (JStr (String c EmptyString))
  | None => None
  end.

(** [d[k]]. On a dict a missing key raises [KeyError] and an unhashable
    key [TypeError]; on a list or a string the key has to be an integer
    (a [bool] is one) in range; nothing else can be subscripted. *)
Definition getitem (d k : json) : M json :=
  match d with
  | JObj kv =>
      match k with
      | JStr s => match assoc s kv with
                  | Some v => ret v
                  | None => raise KeyError
                  end
      | JArr _ | JObj _ => raise TypeError
      | _ => raise KeyError
      end
  | JArr l =>
      match k with
      | JNum i =>
          match py_index i (Z.of_nat (length l)) with
          | Some n => match nth_error l n with
                      | Some v => ret v
                      | None => raise IndexError
                      end
          | None => raise IndexError
          end
      | JBool b =>
          match nth_error l (if b then 1%nat else 0%nat) with
          | Some v => ret v
          | None => raise IndexError
          end
      | _ => raise TypeError
      end
  | JStr s =>
      match k with
      | JNum i =>
          match py_index i (Z.of_nat (String.length s)) with
          | Some n => match char_at s n with
                      | Some v => ret v
                      | None => raise IndexError
                      end
          | None => raise IndexError
          end
      | JBool b =>
          match char_at s (if b then 1%nat else 0%nat) with
          | Some v => ret v
          | None => raise IndexError
          end
      | _ => raise TypeError
      end
  | _ => raise TypeError
  end.

(** [d.get(k)] for a string [k]: only a dict has the method. *)
Definition get (d : json) (k : string) : M json :=
  match d with
  | JObj kv => ret (match assoc k kv with Some v => v | None => JNull end)
  | _ => raise AttributeError
  end.

Definition is_str (v : json) : bool :=
  match v with JStr _ => true | _ => false end.
Definition is_list (v : json) : bool :=
  match v with JArr _ => true | _ => false end.
Definition is_dict (v : json) : bool :=
  match v with JObj _ => true | _ => false end.

(** [v == s] for a string literal [s]. *)
Definition eq_str (v : json) (s : string) : bool :=
  match v with JStr s' => String.eqb s' s | _ => false end.

(** [len(v)]. *)
Definition len (v : json) : M Z :=
  match v with
  | JArr l => ret (Z.of_nat (length l))
  | JObj kv => ret (Z.of_nat (length kv))
  | JStr s => ret (Z.of_nat (String.length s))
  | _ => raise TypeError
  end.

Fixpoint chars (s : string) : list json :=
  match s with
  | EmptyString => []
  | String c r => JStr (String c EmptyString) :: chars r
  end.

(** The elements that [for x in v] goes through. *)
Definition iter (v : json) : M (list json) :=
  match v with
  | JArr l => ret l
  | JObj kv => ret (map (fun p => JStr (fst p)) kv)
  | JStr s => ret (chars s)
  | _ => raise TypeError
  end.

(** [v.values()]. *)
Definition values (v : json) : M (list json) :=
  match v with
  | JObj kv => ret (map snd kv)
  | _ => raise AttributeError
  end.

(** Truth value of [v] in a condition. *)
Definition truthy (v : json) : bool :=
  match v with
  | JNull => false
  | JBool b => b
  | JNum n => negb (n =? 0)
  | JStr s => negb (String.eqb s "")
  | JArr l => match l with [] => false | _ => true end
  | JObj kv => match kv with [] => false | _ => true end
  end.

(** [hash(v)] succeeds: lists and dicts are unhashable. *)
Definition hashable (v : json) : bool :=
  match v with JArr _ | JObj _ => false | _ => true end.

End Dyn.

(* ===================================================================== *)
(** ** Dates *)
(* ===================================================================== *)

(** The part of Python's [datetime] that the scraper uses: parsing with
    the fixed format ['%Y-%m-%d'], and the year of an instant given in
    seconds from 1970-01-01. *)
Module Datetime.

Definition is_leap (y : Z) : bool :=
  (y mod 4 =? 0) && (negb (y mod 100 =? 0) || (y mod 400 =? 0)).

Definition days_in_month (y m : Z) : Z :=
  if m =? 2 then (if is_leap y then 29 else 28)
  else if (m =? 4) || (m =? 6) || (m =? 9) || (m =? 11) then 30
  else 31.

Definition MINYEAR : Z := 1.
Definition MAXYEAR : Z := 9999.
Definition MAXORDINAL : Z := 3652059.

(** [datetime(1970, 1, 1).toordinal()]. *)
Definition EPOCH_ORDINAL : Z := 719163.

(** The year of [_ord2ymd n]: [n] is a proleptic Gregorian ordinal, day 1
    being 0001-01-01. *)
Definition ord2year (n : Z) : Z :=
  let n := n - 1 in
  let n400 := n / 146097 in
  let n := n mod 146097 in
  let n100 := n / 36524 in
  let n := n mod 36524 in
  let n4 := n / 1461 in
  let n := n mod 1461 in
  let n1 := n / 365 in
  let year := n400 * 400 + 1 + n100 * 100 + n4 * 4 + n1 in
  if (n1 =? 4) || (n100 =? 4) then year - 1 else year.

(** [(datetime(1970, 1, 1) + timedelta(seconds=s)).year]: the delta is
    normalised to whole days and a rest of seconds by floor division, and
    a date outside of years 1 to 9999 raises [OverflowError]. *)
Definition year_of_epoch_delta (s : Z) : M Z :=
  let days := s / 86400 in
  if 999999999 <? Z.abs days then raise OverflowError
  else
    let ordinal := EPOCH_ORDINAL + days in
    if (0 <? ordinal) && (ordinal <=? MAXORDINAL) then ret (ord2year ordinal)
    else raise OverflowError.

(** [datetime.fromtimestamp(t).year]: the year of the local time of the
    instant [t]. The conversion is that of the platform, [localtime t]:
    it gives the offset of the local time zone in force at [t], in
    seconds east of UTC, or it raises ([OverflowError] for an instant
    that does not fit the time type of the platform, [OSError] when the
    function of the C library fails). A local time that the platform has
    given and that is outside of the years 1 to 9999 raises
    [ValueError]. *)
Definition fromtimestamp_year (localtime : Z -> exc + Z) (t : Z) : M Z :=
  match localtime t with
  | inl e => raise e
  | inr offset =>
      let ordinal := EPOCH_ORDINAL + (t + offset) / 86400 in
      if (0 <? ordinal) && (ordinal <=? MAXORDINAL)
      then ret (ord2year ordinal)
      else raise ValueError
  end.

(** A decimal digit. [strptime] also reads the decimal digits of the
    other scripts of Unicode; the parser here is for the dates written
    with ASCII characters, and answers [ValueError] for the others. *)
Definition digit (c : ascii) : option Z :=
  let n := N_of_ascii c in
  if ((48 <=? n) && (n <=? 57))%N then Some (Z.of_N (n - 48)) else None.

Definition in_range (lo hi : Z) (c : ascii) : option Z :=
  match digit c with
  | Some d => if (lo <=? d) && (d <=? hi) then Some d else None
  | None => None
  end.

(** [%Y]: four digits. *)
Definition parse_Y (s : string) : option (Z * string) :=
  match s with
  | String a (String b (String c (String d r))) =>
      match digit a, digit b, digit c, digit d with
      | Some a, Some b, Some c, Some d =>
          Some (a * 1000 + b * 100 + c * 10 + d, r)
      | _, _, _, _ => None
      end
  | _ => None
  end.

(** [%m]: the alternatives [1[0-2]], [0[1-9]], [[1-9]], in this order. *)
Definition parse_m (s : string) : option (Z * string) :=
  match s with
  | String a r =>
      let two :=
        match r with
        | String b r' =>
            if Ascii.eqb a "1" then
              match in_range 0 2 b with
              | Some d => Some (10 + d, r')
              | None => None
              end
            else if Ascii.eqb a "0" then
              match in_range 1 9 b with
              | Some d => Some (d, r')
              | None => None
              end
            else None
        | EmptyString => None
        end in
      match two with
      | Some res => Some res
      | None => match in_range 1 9 a with
                | Some d => Some (d, r)
                | None => None
                end
      end
  | EmptyString => None
  end.

(** [%d]: the alternatives [3[0-1]], [[1-2]\d], [0[1-9]], [[1-9]] and
    [ [1-9]], in this order. *)
Definition parse_d (s : string) : option (Z * string) :=
  match s with
  | String a r =>
      let two :=
        match r with
        | String b r' =>
            if Ascii.eqb a "3" then
              match in_range 0 1 b with
              | Some d => Some (30 + d, r')
              | None => None
              end
            else if Ascii.eqb a "1" || Ascii.eqb a "2" then
              match digit a, digit b with
              | Some t, Some d => Some (t * 10 + d, r')
              | _, _ => None
              end
            else if Ascii.eqb a "0" || Ascii.eqb a " " then
              match in_range 1 9 b with
              | Some d => Some (d, r')
              | None => None
              end
            else None
        | EmptyString => None
        end in
      match two with
      | Some res => Some res
      | None => match in_range 1 9 a with
                | Some d => Some (d, r)
                | None => None
                end
      end
  | EmptyString => None
  end.

Definition expect (c : ascii) (s : string) : option string :=
  match s with
  | String a r => if Ascii.eqb a c then Some r else None
  | EmptyString => None
  end.

(** [datetime.strptime(v, '%Y-%m-%d').year]. A value that is not a string
    raises [TypeError]; a string that does not match the format, has text
    left over, or names no day of the calendar, raises [ValueError]. *)
Definition strptime_year (v : json) : M Z :=
  match v with
  | JStr s =>
      match parse_Y s with
      | Some (y, s1) =>
          match expect "-" s1 with
          | Some s2 =>
              match parse_m s2 with
              | Some (m, s3) =>
                  match expect "-" s3 with
                  | Some s4 =>
                      match parse_d s4 with
                      | Some (d, EmptyString) =>
                          if (MINYEAR <=? y) && (d <=? days_in_month y m)
                          then ret y
                          else raise ValueError
                      | _ => raise ValueError
                      end
                  | None => raise ValueError
                  end
              | None => raise ValueError
              end
          | None => raise ValueError
          end
      | None => raise ValueError
      end
  | _ => raise TypeError
  end.

(** [_days_before_year]: the number of days before the first of January
    of [year], in the proleptic Gregorian calendar. *)
Definition days_before_year (year : Z) : Z :=
  let y := year - 1 in
  y * 365 + y / 4 - y / 100 + y / 400.

(** [_days_before_month]: the number of days of [year] before the first
    day of [month]. *)
Definition days_before_month (year month : Z) : Z :=
  (if month =? 1 then 0 else if month =? 2 then 31
   else if month =? 3 then 59 else if month =? 4 then 90
   else if month =? 5 then 120 else if month =? 6 then 151
   else if month =? 7 then 181 else if month =? 8 then 212
   else if month =? 9 then 243 else if month =? 10 then 273
   else if month =? 11 then 304 else 334)
  + (if (2 <? month) && is_leap year then 1 else 0).

(** [_ymd2ord], and [date.toordinal]: the ordinal of a day of the
    calendar. *)
Definition ymd2ord (year month day : Z) : Z :=
  days_before_year year + days_before_month year month + day.

(** [calendar.timegm]: the seconds from 1970-01-01 at 00:00 to the given
    second of the given day. *)
Definition timegm (year month day second : Z) : Z :=
  (ymd2ord year month day - EPOCH_ORDINAL) * 86400 + second.

Definition digit_char (d : Z) : ascii := ascii_of_N (48 + Z.to_N d).

Definition two_digits (n : Z) (rest : string) : string :=
  String (digit_char (n / 10)) (String (digit_char (n mod 10)) rest).

(** [date(y, m, d).isoformat()]: the date as YYYY-MM-DD. *)
Definition isoformat (y m d : Z) : string :=
  String (digit_char (y / 1000))
    (String (digit_char (y / 100 mod 10))
       (two_digits (y mod 100)
          (String "-" (two_digits m (String "-" (two_digits d ""))))))%char.

End Datetime.

(* ===================================================================== *)
(** ** The environment of the scraper *)
(* ===================================================================== *)

(** [isubrip.enums.DataSource]. *)
Inductive DataSource : Type := ITUNES | APPLETV.

(** [isubrip.enums.SubtitlesType]. *)
Inductive SubtitlesType : Type := NORMAL | FORCED | CC.

(** [isubrip.enums.SubtitlesFormat]. *)
Inductive SubtitlesFormat : Type := VTT | SRT.

(** [isubrip.namedtuples.PlaylistData]. *)
Record PlaylistData : Type := mkPlaylistData {
  itunes_id : json;
  url : json
}.

(** [isubrip.namedtuples.MovieData]. *)
Record MovieData : Type := mkMovieData {
  data_source : DataSource;
  name : json;
  release_year : Z;
  playlists : list PlaylistData
}.

(** [isubrip.namedtuples.SubtitlesData]. *)
Record SubtitlesData : Type := mkSubtitlesData {
  language_code : option string;
  language_name : option string;
  subtitles_type : SubtitlesType;
  playlist_url : option string
}.

(** A response of [requests.get]. *)
Record Response : Type := mkResponse {
  status_code : Z;
  content_type : option string;
  content : string
}.

(** A tag of a parsed HTML page, and the page as the document order list
    of its tags. *)
Record Tag : Type := mkTag {
  tag_name : string;
  attrs : list (string * string);
  contents : list string
}.
Definition Soup : Type := list Tag.

(** What the scraper reads from outside: the constants of
    [isubrip.constants], the network and the parsers of the libraries. *)
Record World : Type := mkWorld {
  (** group 1 of [re.fullmatch(ITUNES_URL_REGEX, url)] *)
  itunes_fullmatch : string -> option string;
  (** groups 2 and 3 of [re.fullmatch(APPLETV_URL_REGEX, url)] *)
  appletv_fullmatch : string -> option (string * string);
  APPLETV_MOVIE_API_URL : string;
  APPLETV_API_BASE_PARAMS : list (string * json);
  (** [json.load] of the file at [APPLETV_STOREFRONTS_PATH] *)
  atv_storefronts : exc + json;
  (** [requests.get(url, headers=headers, params=params)] *)
  requests_get :
    string -> option (list (string * string)) -> list (string * json) ->
    exc + Response;
  (** [json.loads]; [None] when the text is not JSON *)
  json_loads : string -> option json;
  (** the exception that [json.loads] raises for the bytes of a response
      that it does not read: [UnicodeDecodeError] when the bytes do not
      decode, [JSONDecodeError] when the text is not JSON *)
  json_loads_error : string -> exc;
  (** [BeautifulSoup(content, "lxml")] *)
  BeautifulSoup : string -> Soup;
  (** [m3u8.load(uri)]: [None] when the playlist loads and parses, the
      exception otherwise *)
  m3u8_load : json -> option exc;
  (** the local time of the platform, for [datetime.fromtimestamp]: the
      offset of the local time zone in force at an instant, in seconds
      east of UTC, or the exception for an instant that the platform
      does not convert *)
  localtime : Z -> exc + Z
}.

(* ===================================================================== *)
(** ** [scraper.py] *)
(* ===================================================================== *)

Module Scraper.
Import Dyn.

Section WithWorld.

Variable w : World.

(** [d["k"]] for a string literal. *)
Definition item (d : json) (k : string) : M json := getitem d (JStr k).

(** The call [m3u8.load(uri)], logged. *)
Definition load (uri : json) : M unit :=
  ([Load uri],
   match m3u8_load w uri with
   | Some e => inl e
   | None => inr tt
   end).

(** [try: body / except classes: handler]. *)
Definition try_except {A} (body : M A) (classes : list exc) (handler : M A)
  : M A :=
  match body with
  | (l, inl e) =>
      if existsb (issubclass e) classes
      then let (l', r) := handler in (l ++ l', r)
      else (l, inl e)
  | (l, inr a) => (l, inr a)
  end.

(** The validation of a candidate playlist, as the three strategies write
    it: [try: m3u8.load(playlist_url)] with [continue] in the handlers of
    [ValueError] and [HTTPError]. The result is [false] when the loop
    goes on to the next candidate. *)
Definition try_load (playlist_url : json) : M bool :=
  try_except (let* _ := load playlist_url in ret true)
             [ValueError; HTTPError]
             (ret false).

(** *** [_find_playlist_data_itunes_json_] *)

(** The loop [for asset in offer["assets"]], lines 113 to 127. [Some] is
    the [return] inside of the loop. *)
Fixpoint itunes_json_assets (movie_title : json) (movie_release_year : Z)
    (id : json) (assets : list json) : M (option MovieData) :=
  match assets with
  | [] => ret None
  | asset :: rest =>
      let* playlist_url := item asset "hlsUrl" in
      let* valid := try_load playlist_url in
      if valid
      then ret (Some (mkMovieData ITUNES movie_title movie_release_year
                        [mkPlaylistData id playlist_url]))
      else itunes_json_assets movie_title movie_release_year id rest
  end.

(** The conditions of lines 111 and 112. *)
Definition itunes_json_offer_type_ok (offer : json) : M bool :=
  let* t := get offer "type" in
  if is_str t
  then let* t := item offer "type" in
       ret (eq_str t "buy" || eq_str t "rent")
  else ret false.

Definition itunes_json_offer_assets_ok (offer : json) : M bool :=
  let* a := get offer "assets" in
  if is_list a
  then let* a := item offer "assets" in
       let* n := len a in
       ret (0 <? n)
  else ret false.

(** The body of the loop over the offers, lines 111 to 127. *)
Definition itunes_json_offer (movie_title : json) (movie_release_year : Z)
    (id : json) (offer : json) : M (option MovieData) :=
  let* type_ok := itunes_json_offer_type_ok offer in
  if type_ok then
    let* assets_ok := itunes_json_offer_assets_ok offer in
    if assets_ok then
      let* a := item offer "assets" in
      let* assets := iter a in
      itunes_json_assets movie_title movie_release_year id assets
    else ret None
  else ret None.

Fixpoint itunes_json_offers (movie_title : json) (movie_release_year : Z)
    (id : json) (offers : list json) : M (option MovieData) :=
  match offers with
  | [] => ret None
  | offer :: rest =>
      let* r := itunes_json_offer movie_title movie_release_year id offer in
      match r with
      | Some md => ret (Some md)
      | None => itunes_json_offers movie_title movie_release_year id rest
      end
  end.

(** Lines 103 to 110: the fields read before the loops. *)
Definition itunes_json_header (json_data : json)
  : M (json * json * Z * list json) :=
  let* page_data := item json_data "pageData" in
  let* id := item page_data "id" in
  let* store := item json_data "storePlatformData" in
  let* product := item store "product-dv" in
  let* results := item product "results" in
  let* movie_data := getitem results id in
  let* movie_title := item movie_data "nameRaw" in
  let* release_date := item movie_data "releaseDate" in
  let* movie_release_year := Datetime.strptime_year release_date in
  let* o := item movie_data "offers" in
  let* offers := iter o in
  ret (id, movie_title, movie_release_year, offers).

Definition _find_playlist_data_itunes_json_ (json_data : json)
  : M MovieData :=
  let* h := itunes_json_header json_data in
  let '(id, movie_title, movie_release_year, offers) := h in
  let* r := itunes_json_offers movie_title movie_release_year id offers in
  match r with
  | Some md => ret md
  | None => ret (mkMovieData ITUNES movie_title movie_release_year [])
  end.

(** *** [_find_playlist_data_itunes_html_] *)

Fixpoint assoc_str (k : string) (kv : list (string * string))
  : option string :=
  match kv with
  | [] => None
  | (k', v) :: r => if String.eqb k k' then Some v else assoc_str k r
  end.

Definition has_attrs (want : list (string * string)) (t : Tag) : bool :=
  forallb (fun kv => match assoc_str (fst kv) (attrs t) with
                     | Some v => String.eqb v (snd kv)
                     | None => false
                     end) want.

(** [html_data.find(name, attrs=want)]: the first such tag, or [None]. *)
Definition find (html_data : Soup) (name : string)
    (want : list (string * string)) : option Tag :=
  List.find (fun t => String.eqb (tag_name t) name && has_attrs want t)
            html_data.

(** The condition of line 177. *)
Definition itunes_html_asset_ok (asset : json) : M bool :=
  if is_dict asset
  then let* h := get asset "hlsUrl" in ret (is_str h)
  else ret false.

(** [item["attributes"]["assets"][0]["hlsUrl"]], line 178. *)
Definition first_hls_url (it : json) : M json :=
  let* attributes := item it "attributes" in
  let* all := item attributes "assets" in
  let* first := getitem all (JNum 0) in
  item first "hlsUrl".

(** The loop [for asset in item["attributes"]["assets"]], lines 176 to
    188; [it] is the offer item of the outer loop. *)
Fixpoint itunes_html_assets (movie_title : json) (movie_release_year : Z)
    (id : json) (it : json) (assets : list json) : M (option MovieData) :=
  match assets with
  | [] => ret None
  | asset :: rest =>
      let* ok := itunes_html_asset_ok asset in
      if ok then
        let* playlist_url := first_hls_url it in
        let* valid := try_load playlist_url in
        if valid
        then ret (Some (mkMovieData ITUNES movie_title movie_release_year
                          [mkPlaylistData id playlist_url]))
        else itunes_html_assets movie_title movie_release_year id it rest
      else itunes_html_assets movie_title movie_release_year id it rest
  end.

(** The conditions of lines 171 to 174. *)
Definition itunes_html_item_is_offer (it : json) : M bool :=
  let* t := get it "type" in
  if is_str t
  then let* t := item it "type" in ret (eq_str t "offer")
  else ret false.

Definition itunes_html_item_assets_ok (it : json) : M bool :=
  let* a := get it "attributes" in
  if is_dict a then
    let* a := item it "attributes" in
    let* l := get a "assets" in
    if is_list l then
      let* a := item it "attributes" in
      let* l := item a "assets" in
      let* n := len l in
      ret (0 <? n)
    else ret false
  else ret false.

(** The body of the loop over [movie_data["included"]], lines 171 to
    188. *)
Definition itunes_html_item (movie_title : json) (movie_release_year : Z)
    (id : json) (it : json) : M (option MovieData) :=
  let* is_offer := itunes_html_item_is_offer it in
  if is_offer then
    let* assets_ok := itunes_html_item_assets_ok it in
    if assets_ok then
      let* attributes := item it "attributes" in
      let* a := item attributes "assets" in
      let* assets := iter a in
      itunes_html_assets movie_title movie_release_year id it assets
    else ret None
  else ret None.

Fixpoint itunes_html_items (movie_title : json) (movie_release_year : Z)
    (id : json) (items : list json) : M (option MovieData) :=
  match items with
  | [] => ret None
  | it :: rest =>
      let* r := itunes_html_item movie_title movie_release_year id it in
      match r with
      | Some md => ret (Some md)
      | None => itunes_html_items movie_title movie_release_year id rest
      end
  end.

Definition _find_playlist_data_itunes_html_ (html_data : Soup)
  : M MovieData :=
  match find html_data "meta" [("name", "apple:content_id")] with
  | None => raise PageLoadError
  | Some itunes_id_tag =>
      match assoc_str "content" (attrs itunes_id_tag) with
      | None => raise KeyError
      | Some id =>
          match find html_data "script"
                  [("id", "shoebox-ember-data-store");
                   ("type", "fastboot/shoebox")] with
          | None => raise PageLoadError
          | Some shoebox_data_tag =>
              match contents shoebox_data_tag with
              | [] => raise IndexError
              | text :: _ =>
                  match json_loads w (Str.strip text) with
                  | None => raise JSONDecodeError
                  | Some shoebox_data =>
                      let* entry := getitem shoebox_data (JStr id) in
                      let* included := get entry "included" in
                      if is_list included then
                        let* movie_data := getitem shoebox_data (JStr id) in
                        let* d := item movie_data "data" in
                        let* a := item d "attributes" in
                        let* movie_title := item a "name" in
                        let* d := item movie_data "data" in
                        let* a := item d "attributes" in
                        let* release_date := item a "releaseDate" in
                        let* movie_release_year :=
                          Datetime.strptime_year release_date in
                        let* inc := item movie_data "included" in
                        let* items := iter inc in
                        let* r := itunes_html_items movie_title
                                    movie_release_year (JStr id) items in
                        match r with
                        | Some md => ret md
                        | None => ret (mkMovieData ITUNES movie_title
                                         movie_release_year [])
                        end
                      else raise PageLoadError
                  end
              end
          end
      end
  end.

(** *** [_find_playlist_data_appletv_json_] *)

(** [v // d] for an integer [d]: floor division; a [bool] is an integer. *)
Definition floordiv (v : json) (d : Z) : M Z :=
  match v with
  | JNum n => ret (n / d)
  | JBool b => ret (Z.b2z b / d)
  | _ => raise TypeError
  end.

(** Equality of two hashable values, with [True == 1] and [False == 0]. *)
Definition atom_eqb (a b : json) : bool :=
  match a, b with
  | JNull, JNull => true
  | JBool x, JBool y => Bool.eqb x y
  | JBool x, JNum n | JNum n, JBool x => n =? Z.b2z x
  | JNum x, JNum y => x =? y
  | JStr x, JStr y => String.eqb x y
  | _, _ => false
  end.

(** [x not in s] for a set [s]: [x] is hashed first. *)
Definition not_in_set (x : json) (s : list json) : M bool :=
  if hashable x then ret (negb (existsb (atom_eqb x) s))
  else raise TypeError.

(** Lines 209 to 216. *)
Definition appletv_release_year (release_date : json) : M Z :=
  let* release_epoch := floordiv release_date 1000 in
  if 0 <? release_epoch
  then Datetime.fromtimestamp_year (localtime w) release_epoch
  else Datetime.year_of_epoch_delta release_epoch.

(** The loop [for offer in playable["itunesMediaApiData"]["offers"]],
    lines 228 to 240. [Some] is the [append] followed by [break]. *)
Fixpoint appletv_offers (id : json) (offers : list json)
  : M (option PlaylistData) :=
  match offers with
  | [] => ret None
  | offer :: rest =>
      let* playlist_url := item offer "hlsUrl" in
      let* valid := try_load playlist_url in
      if valid then ret (Some (mkPlaylistData id playlist_url))
      else appletv_offers id rest
  end.

(** The loop [for playable in playables_data.values()], lines 222 to 240,
    with the two local variables it reads and writes. Nothing in the loop
    adds to [itunes_ids_set]: it is passed on as it is. *)
Fixpoint appletv_playables (playables : list json)
    (playlists : list PlaylistData) (itunes_ids_set : list json)
  : M (list PlaylistData) :=
  match playables with
  | [] => ret playlists
  | playable :: rest =>
      let* is_itunes := item playable "isItunes" in
      if truthy is_itunes then
        let* id := item playable "externalId" in
        let* fresh := not_in_set id itunes_ids_set in
        if fresh then
          let* api := item playable "itunesMediaApiData" in
          let* o := item api "offers" in
          let* offers := iter o in
          let* r := appletv_offers id offers in
          match r with
          | Some p => appletv_playables rest (playlists ++ [p]) itunes_ids_set
          | None => appletv_playables rest playlists itunes_ids_set
          end
        else appletv_playables rest playlists itunes_ids_set
      else appletv_playables rest playlists itunes_ids_set
  end.

(** Lines 208 to 218 and the call of [values] of line 222. *)
Definition appletv_json_header (json_data : json)
  : M (json * Z * list json) :=
  let* d := item json_data "data" in
  let* c := item d "content" in
  let* movie_title := item c "title" in
  let* d := item json_data "data" in
  let* c := item d "content" in
  let* release_date := item c "releaseDate" in
  let* movie_release_year := appletv_release_year release_date in
  let* d := item json_data "data" in
  let* playables_data := item d "playables" in
  let* playables := values playables_data in
  ret (movie_title, movie_release_year, playables).

Definition _find_playlist_data_appletv_json_ (json_data : json)
  : M MovieData :=
  let* h := appletv_json_header json_data in
  let '(movie_title, movie_release_year, playables) := h in
  let* playlists := appletv_playables playables [] [] in
  ret (mkMovieData APPLETV movie_title movie_release_year playlists).

(** *** [_find_playlist_data_appletv_html_] *)

(** Lines 268 and 269, the body of the [try]. *)
Definition appletv_html_shoebox (text : string) : M json :=
  match json_loads w text with
  | None => raise JSONDecodeError
  | Some outer =>
      let* vs := values outer in
      match vs with
      | [] => raise StopIteration
      | JStr inner :: _ =>
          match json_loads w inner with
          | None => raise JSONDecodeError
          | Some shoebox_data => item shoebox_data "d"
          end
      | _ :: _ => raise TypeError
      end
  end.

Definition _find_playlist_data_appletv_html_ (html_data : Soup)
  : M MovieData :=
  match find html_data "script"
          [("id", "shoebox-uts-api"); ("type", "fastboot/shoebox")] with
  | None => raise PageLoadError
  | Some shoebox_data_tag =>
      match contents shoebox_data_tag with
      | [] => raise IndexError
      | text :: _ =>
          let* json_data :=
            try_except (appletv_html_shoebox text) [KeyError; TypeError]
                       (raise PageLoadError) in
          _find_playlist_data_appletv_json_ json_data
      end
  end.

(** *** [get_movie_data] *)

Definition lift {A} (r : exc + A) : M A := ([], r).

(** [request.raise_for_status()]. *)
Definition raise_for_status (request : Response) : M unit :=
  if (400 <=? status_code request) && (status_code request <? 600)
  then raise RequestsHTTPError
  else ret tt.

(** [request.headers['content-type']]. *)
Definition header_content_type (request : Response) : M string :=
  match content_type request with
  | Some v => ret v
  | None => raise KeyError
  end.

(** [d[k] = v] on a dict. *)
Fixpoint setitem (kv : list (string * json)) (k : string) (v : json)
  : list (string * json) :=
  match kv with
  | [] => [(k, v)]
  | (k', v') :: r =>
      if String.eqb k k' then (k, v) :: r else (k', v') :: setitem r k v
  end.

(** [json.loads(request.content)], line 55: the content is bytes, which
    [json.loads] decodes before it parses. *)
Definition json_loads_bytes (content : string) : M json :=
  match json_loads w content with
  | Some json_data => ret json_data
  | None => raise (json_loads_error w content)
  end.

(** The class attribute [_atv_storefronts] caches the storefronts file;
    the file is taken not to change, so every call sees
    [atv_storefronts w]. *)
Definition get_movie_data (movie_url : string)
    (headers : option (list (string * string))) : M MovieData :=
  match itunes_fullmatch w movie_url, appletv_fullmatch w movie_url with
  | Some group1, _ =>
      let* request := lift (requests_get w group1 headers []) in
      let* _ := raise_for_status request in
      let* ct := header_content_type request in
      if Str.contains "application/json" ct then
        let* json_data :=
          try_except (json_loads_bytes (content request)) [JSONDecodeError]
                     (raise PageLoadError) in
        _find_playlist_data_itunes_json_ json_data
      else
        let* ct := header_content_type request in
        if Str.contains "text/html" ct && negb (status_code request =? 404)
        then _find_playlist_data_itunes_html_
               (BeautifulSoup w (content request))
        else raise PageLoadError
  | None, Some (group2, group3) =>
      let* storefronts := lift (atv_storefronts w) in
      let* sf := getitem storefronts (JStr (Str.upper group2)) in
      let request_params := setitem (APPLETV_API_BASE_PARAMS w) "sf" sf in
      let* request :=
        lift (requests_get w (APPLETV_MOVIE_API_URL w +:+ group3) headers
                request_params) in
      let* _ := raise_for_status request in
      match json_loads w (content request) with
      | None => raise JSONDecodeError
      | Some json_data => _find_playlist_data_appletv_json_ json_data
      end
  | None, None => raise InvalidURL
  end.

(** *** [get_movie_data] and what its calls share *)

(** The objects that the calls of [get_movie_data] share: the class
    attribute [_atv_storefronts], [None] at first, which caches the table
    of the storefronts, and the dict [APPLETV_API_BASE_PARAMS], to which
    line 80 writes the key ["sf"]. *)
Record Shared : Type := mkShared {
  storefronts_cache : option json;
  api_params : list (string * json)
}.

Definition initial_shared : Shared :=
  mkShared None (APPLETV_API_BASE_PARAMS w).

(** Lines 73 to 75: the table is read when the attribute is not true. *)
Definition load_storefronts (st : Shared) : exc + json :=
  match storefronts_cache st with
  | Some cached => if truthy cached then inr cached else atv_storefronts w
  | None => atv_storefronts w
  end.

(** [get_movie_data] with the shared objects before and after the call.
    For an iTunes URL and for a URL that is refused they are not used;
    lines 73 to 86 read and write them. *)
Definition get_movie_data_shared (st : Shared) (movie_url : string)
    (headers : option (list (string * string))) : Shared * M MovieData :=
  match itunes_fullmatch w movie_url, appletv_fullmatch w movie_url with
  | Some _, _ => (st, get_movie_data movie_url headers)
  | None, Some (group2, group3) =>
      match load_storefronts st with
      | inl e => (st, raise e)
      | inr storefronts =>
          let st := mkShared (Some storefronts) (api_params st) in
          match outcome (getitem storefronts (JStr (Str.upper group2))) with
          | inl e => (st, raise e)
          | inr sf =>
              let request_params := setitem (api_params st) "sf" sf in
              (mkShared (Some storefronts) request_params,
               let* request :=
                 lift (requests_get w (APPLETV_MOVIE_API_URL w +:+ group3)
                         headers request_params) in
               let* _ := raise_for_status request in
               match json_loads w (content request) with
               | None => raise JSONDecodeError
               | Some json_data => _find_playlist_data_appletv_json_ json_data
               end)
          end
      end
  | None, None => (st, raise InvalidURL)
  end.

(** The shared objects as calls leave them: the cache is empty or holds
    the table of the file, and the parameters are those of the constant,
    with or without a value for ["sf"]. *)
Definition shared_ok (st : Shared) : Prop :=
  (storefronts_cache st = None
   \/ exists table, storefronts_cache st = Some table
                     /\ atv_storefronts w = inr table)
  /\ (api_params st = APPLETV_API_BASE_PARAMS w
      \/ exists v,
           api_params st = setitem (APPLETV_API_BASE_PARAMS w) "sf" v).

(** A sequence of calls, from the first to the last, and the results. *)
Fixpoint calls (st : Shared)
    (requests : list (string * option (list (string * string))))
  : list (M MovieData) :=
  match requests with
  | [] => []
  | (movie_url, headers) :: rest =>
      let (st', r) := get_movie_data_shared st movie_url headers in
      r :: calls st' rest
  end.

End WithWorld.

(** *** [find_subtitles] *)

(** An [m3u8.model.Media] entry of the main playlist; an attribute that
    the playlist does not give is [None]. *)
Record Media : Type := mkMedia {
  type : option string;
  group_id : option string;
  language : option string;
  media_name : option string;
  forced : option string;
  characteristics : option string;
  uri : option string
}.

Definition opt_eq_str (v : option string) (s : string) : bool :=
  match v with Some s' => String.eqb s' s | None => false end.

(** The condition of line 297. *)
Definition is_subtitles_playlist (playlist : Media) : bool :=
  opt_eq_str (type playlist) "SUBTITLES"
  && (opt_eq_str (group_id playlist) "subtitles_ak"
      || opt_eq_str (group_id playlist) "subtitles_vod-ak-amt.tv.apple.com").

(** The condition [language_code.lower() in subtitles_filter or
    language_name in subtitles_filter] of line 304, for a filter that is
    already in lower case. [None] has no method [lower]. *)
Definition matches_filter (language_code language_name : option string)
    (subtitles_filter : list string) : exc + bool :=
  match language_code with
  | None => inl AttributeError
  | Some code =>
      inr (Str.mem (Str.lower code) subtitles_filter
           || match language_name with
              | Some n => Str.mem n subtitles_filter
              | None => false
              end)
  end.

(** Lines 308 to 312. *)
Definition classify (playlist : Media) : SubtitlesType :=
  if opt_eq_str (forced playlist) "YES" then FORCED
  else match characteristics playlist with
       | Some c => if Str.contains "public.accessibility" c then CC else NORMAL
       | None => NORMAL
       end.

(** The loop of the generator: the values it yields, in order, and the
    exception that ends it, if one does. *)
Fixpoint find_subtitles_loop (media : list Media)
    (subtitles_filter : option (list string))
  : list SubtitlesData * option exc :=
  match media with
  | [] => ([], None)
  | playlist :: rest =>
      if is_subtitles_playlist playlist then
        let language_code := language playlist in
        let language_name := media_name playlist in
        let skip :=
          match subtitles_filter with
          | None => inr false
          | Some f =>
              match matches_filter language_code language_name f with
              | inl e => inl e
              | inr m => inr (negb m)
              end
          end in
        match skip with
        | inl e => ([], Some e)
        | inr true => find_subtitles_loop rest subtitles_filter
        | inr false =>
            let (ys, e) := find_subtitles_loop rest subtitles_filter in
            (mkSubtitlesData language_code language_name (classify playlist)
               (uri playlist) :: ys, e)
        end
      else find_subtitles_loop rest subtitles_filter
  end.

Definition find_subtitles (main_playlist_media : list Media)
    (subtitles_filter : option (list string))
  : list SubtitlesData * option exc :=
  find_subtitles_loop main_playlist_media
    (match subtitles_filter with
     | Some f => Some (map Str.lower f)
     | None => None
     end).


(** *** Candidates and well-formed responses *)

(** The exceptions that the validation of a candidate catches. *)
Definition caught (e : exc) : bool :=
  issubclass e ValueError || issubclass e HTTPError.

(** The candidate playlist at [uri] fails its validation. *)
Definition invalid (w : World) (uri : json) : bool :=
  match m3u8_load w uri with
  | Some e => caught e
  | None => false
  end.

Definition has_url (a : json) : bool :=
  match outcome (item a "hlsUrl") with
  | inr _ => true
  | inl _ => false
  end.

(** The values of ["hlsUrl"] of the candidates of a list, in order. *)
Fixpoint hls_urls (l : list json) : list json :=
  match l with
  | [] => []
  | a :: r =>
      match outcome (item a "hlsUrl") with
      | inr u => u :: hls_urls r
      | inl _ => hls_urls r
      end
  end.

(** An offer of an iTunes JSON response that the loop of lines 110 to 127
    reads without an error: a dict, of which every asset has an
    ["hlsUrl"] when the offer is one that the loop scans. *)
Definition itunes_offer_well_formed (offer : json) : bool :=
  match offer with
  | JObj kv =>
      match assoc "type" kv, assoc "assets" kv with
      | Some (JStr t), Some (JArr l) =>
          if String.eqb t "buy" || String.eqb t "rent"
          then forallb has_url l
          else true
      | _, _ => true
      end
  | _ => false
  end.

(** A playable of an AppleTV JSON response that the loop of lines 222 to
    240 reads without an error. *)
Definition appletv_playable_well_formed (playable : json) : bool :=
  match outcome (item playable "isItunes") with
  | inr b =>
      if truthy b then
        match outcome (item playable "externalId"),
              outcome (item playable "itunesMediaApiData") with
        | inr id, inr api =>
            hashable id
            && match outcome (item api "offers") with
               | inr (JArr offers) => forallb has_url offers
               | _ => false
               end
        | _, _ => false
        end
      else true
  | inl _ => false
  end.

(** The playlists that the loops of lines 110 to 127 come to validate for
    an offer, when none of them loads. *)
Definition itunes_offer_candidates (offer : json) : list json :=
  match offer with
  | JObj kv =>
      match assoc "type" kv, assoc "assets" kv with
      | Some (JStr t), Some (JArr l) =>
          if String.eqb t "buy" || String.eqb t "rent"
          then hls_urls l
          else []
      | _, _ => []
      end
  | _ => []
  end.

(** The playlists that the loops of lines 222 to 240 come to validate for
    a playable, when none of them loads. *)
Definition appletv_playable_candidates (playable : json) : list json :=
  match outcome (item playable "isItunes") with
  | inr b =>
      if truthy b then
        match outcome (item playable "itunesMediaApiData") with
        | inr api =>
            match outcome (item api "offers") with
            | inr (JArr offers) => hls_urls offers
            | _ => []
            end
        | inl _ => []
        end
      else []
  | inl _ => []
  end.

(** The playlist of an entry has been loaded in the call, of which [log]
    is the log, and it loads. *)
Definition validated (w : World) (log : list event) (p : PlaylistData)
  : Prop :=
  m3u8_load w (url p) = None /\ In (Load (url p)) log.

(** A record that a loop over candidates returns: one entry, of which
    the playlist is validated. *)
Definition one_validated_entry (w : World) (log : list event)
    (title : json) (year : Z) (id : json) (md : MovieData) : Prop :=
  exists u,
    md = mkMovieData ITUNES title year [mkPlaylistData id u]
    /\ m3u8_load w u = None /\ In (Load u) log.

(** The value that the generator yields for a playlist, line 314. *)
Definition data_of (playlist : Media) : SubtitlesData :=
  mkSubtitlesData (language playlist) (media_name playlist)
                  (classify playlist) (uri playlist).

(** The playlist has a language code that equals an entry of the filter up
    to the case of the ASCII letters. *)
Definition code_matches (subtitles_filter : list string) (playlist : Media)
  : Prop :=
  exists code entry,
    language playlist = Some code
    /\ In entry subtitles_filter
    /\ Str.lower entry = Str.lower code.

(** The playlist has a name that is an entry of the filter put in lower
    case. *)
Definition name_matches (subtitles_filter : list string) (playlist : Media)
  : Prop :=
  exists n entry,
    media_name playlist = Some n
    /\ In entry subtitles_filter
    /\ Str.lower entry = n.

(** The first playlist of a list that loads. *)
Fixpoint first_loading (w : World) (urls : list json) : option json :=
  match urls with
  | [] => None
  | u :: rest =>
      match m3u8_load w u with
      | None => Some u
      | Some _ => first_loading w rest
      end
  end.

(** The playlist at [uri] loads, or its load raises an exception that the
    validation catches. *)
Definition loads_or_invalid (w : World) (uri : json) : bool :=
  match m3u8_load w uri with
  | Some e => caught e
  | None => true
  end.

(** The exception that ends a scan of candidates of which none loads:
    that of the first load that raises an exception that the validation
    does not catch. *)
Fixpoint first_uncaught (w : World) (urls : list json) : option exc :=
  match urls with
  | [] => None
  | u :: rest =>
      match m3u8_load w u with
      | Some e => if caught e then first_uncaught w rest else Some e
      | None => None
      end
  end.

(** The entry of a playable: its external id with the first of its
    playlists that loads, if one does. *)
Definition appletv_playable_entry (w : World) (playable : json)
  : list PlaylistData :=
  match first_loading w (appletv_playable_candidates playable),
        outcome (item playable "externalId") with
  | Some u, inr id => [mkPlaylistData id u]
  | _, _ => []
  end.

(** The asset passes the test of line 177: a dict with a string under
    ["hlsUrl"]. *)
Definition html_asset_usable (asset : json) : bool :=
  match asset with
  | JObj kv => match assoc "hlsUrl" kv with
               | Some (JStr _) => true
               | _ => false
               end
  | _ => false
  end.

End Scraper.

(* ===================================================================== *)
(** ** [playlist_downloader.py] *)
(* ===================================================================== *)

Module PlaylistDownloader.

(** *** Decoding *)

Definition continuation (b : N) : bool := ((128 <=? b) && (b <=? 191))%N.

(** Well-formed UTF-8, as the strict decoder of [bytes.decode('utf-8')]
    accepts it: shortest forms only, no surrogate, nothing above
    U+10FFFF. *)
Fixpoint utf8_valid (l : list N) : bool :=
  match l with
  | [] => true
  | b0 :: r0 =>
      if (b0 <? 128)%N then utf8_valid r0
      else if ((194 <=? b0) && (b0 <=? 223))%N then
        match r0 with
        | b1 :: r1 => continuation b1 && utf8_valid r1
        | _ => false
        end
      else if ((224 <=? b0) && (b0 <=? 239))%N then
        match r0 with
        | b1 :: b2 :: r2 =>
            (if (b0 =? 224)%N then ((160 <=? b1) && (b1 <=? 191))%N
             else if (b0 =? 237)%N then ((128 <=? b1) && (b1 <=? 159))%N
             else continuation b1)
            && continuation b2 && utf8_valid r2
        | _ => false
        end
      else if ((240 <=? b0) && (b0 <=? 244))%N then
        match r0 with
        | b1 :: b2 :: b3 :: r3 =>
            (if (b0 =? 240)%N then ((144 <=? b1) && (b1 <=? 191))%N
             else if (b0 =? 244)%N then ((128 <=? b1) && (b1 <=? 143))%N
             else continuation b1)
            && continuation b2 && continuation b3 && utf8_valid r3
        | _ => false
        end
      else false
  end.

(** [content.decode('utf-8')]. *)
Definition decode (content : list Byte.byte) : exc + string :=
  if utf8_valid (map Byte.to_N content)
  then inr (string_of_list_byte content)
  else inl UnicodeDecodeError.

(** *** The network *)

(** The response that [session.get] resolves to: its status, and what
    [data.read()] gives. The session is created by [ClientSession()]
    with no argument, and no line of the downloader looks at [status]. *)
Record ClientResponse : Type := mkClientResponse {
  status : Z;
  read : exc + list Byte.byte
}.

Record Net : Type := mkNet {
  (** [m3u8.load(playlist_url).segments], as their absolute URIs *)
  playlist_segments : option string -> exc + list string;
  (** [await session.get(segment_url)] *)
  session_get : string -> exc + ClientResponse;
  (** [open(path, 'w')] succeeds *)
  can_open : string -> bool
}.

(** The network [net] with the status of every response replaced: the
    response of [segment_url] gets the status [f segment_url]. *)
Definition with_status (f : string -> Z) (net : Net) : Net :=
  {| playlist_segments := playlist_segments net;
     session_get :=
       fun segment_url =>
         match session_get net segment_url with
         | inl e => inl e
         | inr data => inr (mkClientResponse (f segment_url) (read data))
         end;
     can_open := can_open net |}.

(** [isubrip.subtitles.Subtitles], of which the downloader uses the
    constructor, [loads], [append_subtitles] and [dumps]. *)
Record SubtitlesClass : Type := mkSubtitlesClass {
  Subtitles : Type;
  init : option string -> Subtitles;
  loads : string -> exc + Subtitles;
  append_subtitles : Subtitles -> Subtitles -> exc + Subtitles;
  dumps : Subtitles -> SubtitlesFormat -> exc + string
}.

(** *** [_format_file_name] *)

Definition SubtitlesType_name (t : SubtitlesType) : string :=
  match t with NORMAL => "NORMAL" | FORCED => "FORCED" | CC => "CC" end.

Definition SubtitlesFormat_name (f : SubtitlesFormat) : string :=
  match f with VTT => "VTT" | SRT => "SRT" end.

Definition is_NORMAL (t : SubtitlesType) : bool :=
  match t with NORMAL => true | _ => false end.

Section FileName.

(** [isubrip.utils.format_title]. *)
Variable format_title : string -> string.

Definition _format_file_name (movie_title : string) (release_year : Z)
    (language_code : string) (subtitles_type : SubtitlesType)
    (file_format : SubtitlesFormat) : string :=
  let movie_release_year_str :=
    if negb (Str.contains (Str.of_Z release_year) movie_title)
    then "." +:+ Str.of_Z release_year
    else "" in
  let file_name :=
    format_title movie_title +:+ movie_release_year_str +:+ ".iT.WEB."
    +:+ language_code in
  let file_name :=
    if negb (is_NORMAL subtitles_type)
    then file_name +:+ "." +:+ Str.lower (SubtitlesType_name subtitles_type)
    else file_name in
  file_name +:+ "." +:+ Str.lower (SubtitlesFormat_name file_format).

End FileName.

(** *** The segment fetcher *)

(** The schedule that runs [n] tasks one after the other, from the task
    at position [first]: each is resumed twice. *)
Fixpoint in_turn (first n : nat) : list nat :=
  match n with
  | O => []
  | S n => first :: first :: in_turn (S first) n
  end.

Section WithNet.

Variable net : Net.
Variable cls : SubtitlesClass.
Variable format_title : string -> string.

(** [_download_segment], run from start to end. *)
Definition _download_segment (segment_url : string) : exc + string :=
  match session_get net segment_url with
  | inl e => inl e
  | inr data =>
      match read data with
      | inl e => inl e
      | inr content => decode content
      end
  end.

(** A task running [_download_segment]: it is suspended at one of the two
    [await], or it has finished. *)
Inductive task : Type :=
| Requesting (segment_url : string)
| Reading (data : ClientResponse)
| Finished (r : exc + string).

(** The task runs up to its next [await], or to its end. *)
Definition step (t : task) : task :=
  match t with
  | Requesting segment_url =>
      match session_get net segment_url with
      | inl e => Finished (inl e)
      | inr data => Reading data
      end
  | Reading data =>
      match read data with
      | inl e => Finished (inl e)
      | inr content => Finished (decode content)
      end
  | Finished r => Finished r
  end.

(** The event loop resumes the task at position [i]. *)
Fixpoint step_at (i : nat) (tasks : list task) : list task :=
  match tasks, i with
  | [], _ => []
  | t :: r, O => step t :: r
  | t :: r, S i => t :: step_at i r
  end.

Fixpoint first_exception (tasks : list task) : option exc :=
  match tasks with
  | [] => None
  | Finished (inl e) :: _ => Some e
  | _ :: r => first_exception r
  end.

(** The results in the order of the tasks, once all have finished. *)
Fixpoint results (tasks : list task) : option (list string) :=
  match tasks with
  | [] => Some []
  | Finished (inr s) :: r =>
      match results r with
      | Some l => Some (s :: l)
      | None => None
      end
  | _ :: _ => None
  end.

(** The future of [asyncio.gather] over the tasks: it fails as soon as a
    task has failed, and succeeds with the list of the results, in the
    order of [tasks], when all have finished. *)
Definition gather (tasks : list task) : option (exc + list string) :=
  match first_exception tasks with
  | Some e => Some (inl e)
  | None =>
      match results tasks with
      | Some l => Some (inr l)
      | None => None
      end
  end.

(** [run_until_complete] of that future under a schedule: the list of the
    tasks that the loop resumes, in order. [None]: the schedule ends
    before the future is done. *)
Fixpoint run_until_complete (schedule : list nat) (tasks : list task)
  : option (exc + list string) :=
  match gather tasks with
  | Some r => Some r
  | None =>
      match schedule with
      | [] => None
      | i :: rest => run_until_complete rest (step_at i tasks)
      end
  end.

(** Tasks that have finished with the given texts. *)
Definition finished_ok (texts : list string) : list task :=
  map (fun s => Finished (inr s)) texts.

(** The downloads of the segments one after the other, up to the first
    that raises. *)
Fixpoint download_all (uris : list string) : exc + list string :=
  match uris with
  | [] => inr []
  | segment_url :: rest =>
      match _download_segment segment_url with
      | inl e => inl e
      | inr text =>
          match download_all rest with
          | inl e => inl e
          | inr texts => inr (text :: texts)
          end
      end
  end.

(** What a task finishes with, from where it stands. *)
Definition result_of (t : task) : exc + string :=
  match t with
  | Requesting segment_url => _download_segment segment_url
  | Reading data =>
      match read data with
      | inl e => inl e
      | inr content => decode content
      end
  | Finished r => r
  end.

(** The tasks after the loop has resumed those of a schedule. *)
Definition resume_all (schedule : list nat) (tasks : list task)
  : list task :=
  fold_left (fun ts i => step_at i ts) schedule tasks.

(** The loop of lines 95 and 96. *)
Fixpoint merge (subtitles : Subtitles cls) (segments : list string)
  : exc + Subtitles cls :=
  match segments with
  | [] => inr subtitles
  | segment :: rest =>
      match loads cls segment with
      | inl e => inl e
      | inr parsed =>
          match append_subtitles cls subtitles parsed with
          | inl e => inl e
          | inr subtitles' => merge subtitles' rest
          end
      end
  end.

Definition get_subtitles (schedule : list nat)
    (subtitles_data : SubtitlesData) : option (exc + Subtitles cls) :=
  let subtitles := init cls (language_code subtitles_data) in
  match playlist_segments net (playlist_url subtitles_data) with
  | inl e => Some (inl e)
  | inr uris =>
      let async_tasks := map Requesting uris in
      match run_until_complete schedule async_tasks with
      | None => None
      | Some (inl e) => Some (inl e)
      | Some (inr segments) => Some (merge subtitles segments)
      end
  end.

(** *** [download_subtitles] *)

(** [os.path.join(a, b)] on POSIX. *)
Definition os_path_join (a b : string) : string :=
  if String.prefix "/" b then b
  else if String.eqb a "" || String.prefix "/" (String.rev a) then a +:+ b
  else a +:+ "/" +:+ b.

(** [f"{v}"] for a value that can be [None]. *)
Definition format_opt (v : option string) : string :=
  match v with Some s => s | None => "None" end.

(** The files are a map from paths to contents. [open(path, 'w')] creates
    the file or truncates it, before [get_subtitles] is called; when the
    block is left with an exception the file is closed as it is.
    A title that is not a string raises before the file is opened: the
    test [in] of line 61 raises [TypeError] for [None], a number or a
    truth value; a list or a dict passes the test and is given to
    [format_title] of [isubrip.utils], which is taken to call a method
    of [str] on it, an [AttributeError]. *)
Definition download_subtitles (schedule : list nat)
    (files : gmap string string) (movie_data : MovieData)
    (subtitles_data : SubtitlesData) (output_dir : string)
    (file_format : SubtitlesFormat)
  : option (gmap string string * (exc + string)) :=
  match name movie_data with
  | JStr movie_title =>
      let file_name :=
        _format_file_name format_title movie_title (release_year movie_data)
          (format_opt (language_code subtitles_data))
          (subtitles_type subtitles_data) file_format in
      let path := os_path_join output_dir file_name in
      if can_open net path then
        let files := <[path := ""]> files in
        match get_subtitles schedule subtitles_data with
        | None => None
        | Some (inl e) => Some (files, inl e)
        | Some (inr subtitles) =>
            match dumps cls subtitles file_format with
            | inl e => Some (files, inl e)
            | inr text => Some (<[path := text]> files, inr path)
            end
        end
      else Some (files, inl OSError)
  | JArr _ | JObj _ => Some (files, inl AttributeError)
  | JNull | JBool _ | JNum _ => Some (files, inl TypeError)
  end.

End WithNet.

End PlaylistDownloader.

(* ===================================================================== *)
(** ** The modules that are not in the two files *)
(* ===================================================================== *)

Module Model.

Definition newline : ascii := ascii_of_N 10.

(** Modelled from the spec: [isubrip.utils.format_title] is missing. The
    spec calls its result the slugified title, and gives the title
    "Example Movie" the slug "example.movie": lower case, with a dot for
    every space. *)
Fixpoint format_title (title : string) : string :=
  match title with
  | EmptyString => EmptyString
  | String c r =>
      String (if Ascii.eqb c " " then "."%char else Str.lower_ascii c)
             (format_title r)
  end.

Fixpoint lines (s : string) : list string :=
  match s with
  | EmptyString => [EmptyString]
  | String c r =>
      match lines r with
      | [] => [String c EmptyString]
      | l :: ls =>
          if Ascii.eqb c newline then EmptyString :: l :: ls
          else String c l :: ls
      end
  end.

Fixpoint blocks (ls : list string) : list (list string) :=
  match ls with
  | [] => [[]]
  | l :: r =>
      match blocks r with
      | [] => [[l]]
      | b :: bs => if String.eqb l "" then [] :: b :: bs else (l :: b) :: bs
      end
  end.

(** A cue: the lines of a block that has a time code range. *)
Definition is_cue (block : list string) : bool :=
  existsb (Str.contains "-->") block.

Fixpoint join_lines (ls : list string) : string :=
  match ls with
  | [] => ""
  | l :: r => l +:+ String newline (join_lines r)
  end.

Fixpoint dump_vtt (cues : list (list string)) : string :=
  match cues with
  | [] => ""
  | c :: r => String newline (join_lines c) +:+ dump_vtt r
  end.

Fixpoint dump_srt (n : Z) (cues : list (list string)) : string :=
  match cues with
  | [] => ""
  | c :: r =>
      Str.of_Z n +:+ String newline (join_lines c)
      +:+ String newline (dump_srt (n + 1) r)
  end.

(** Modelled from the spec: [isubrip.subtitles.Subtitles] is missing. The
    merger parses the text of a segment as cues and appends them to a
    running ordered list, in segment order, with no sorting, no removal of
    duplicates and no change of time codes; the formatter is a pure
    function of the list of cues. A cue is a block of lines, separated
    from the next by an empty line, that has a time code range. *)
Definition subtitles : PlaylistDownloader.SubtitlesClass :=
  {| PlaylistDownloader.Subtitles := list (list string);
     PlaylistDownloader.init := fun _ => [];
     PlaylistDownloader.loads :=
       fun text => inr (filter is_cue (blocks (lines text)));
     PlaylistDownloader.append_subtitles := fun a b => inr (a ++ b);
     PlaylistDownloader.dumps :=
       fun cues f =>
         inr (match f with
              | VTT => "WEBVTT" +:+ String newline (dump_vtt cues)
              | SRT => dump_srt 1 cues
              end) |}.

End Model.

(* ===================================================================== *)
(** ** Concrete responses and worlds *)
(* ===================================================================== *)

Module Examples.
Import Scraper PlaylistDownloader.

(** The class of the exception of [json.loads] for a body with no byte
    order mark and no NUL byte, which is read as UTF-8. *)
Definition loads_error (body : string) : exc :=
  match decode (list_byte_of_string body) with
  | inl e => e
  | inr _ => JSONDecodeError
  end.

(** A world around one response: every recognised URL gets [response],
    [BeautifulSoup] parses its content as [soup], [loads] is [json.loads]
    and [load] says how each playlist loads. The local time is UTC. *)
Definition world (load : json -> option exc) (response : Response)
    (loads : string -> option json) (soup : Soup) : World :=
  {| itunes_fullmatch :=
       fun u => if String.prefix "https://itunes.apple.com/" u
                then Some u else None;
     appletv_fullmatch :=
       fun u => if String.prefix "https://tv.apple.com/" u
                then Some ("us", "umc.cmc.example") else None;
     APPLETV_MOVIE_API_URL := "https://tv.apple.com/api/uts/v3/movies/";
     APPLETV_API_BASE_PARAMS := [("utscf", JStr "OjAAAAAAAAA~")];
     atv_storefronts := inr (JObj [("US", JStr "143441")]);
     requests_get := fun _ _ _ => inr response;
     json_loads := loads;
     json_loads_error := loads_error;
     BeautifulSoup := fun _ => soup;
     m3u8_load := load;
     localtime := fun _ => inr 0 |}.

Definition json_response : Response :=
  mkResponse 200 (Some "application/json; charset=utf-8") "{}".

(** Every playlist loads. *)
Definition all_valid : json -> option exc := fun _ => None.

(** An AppleTV JSON response for the movie "Example Movie", released at
    the instant 1625788800000 in milliseconds, which is 2021-07-09 at
    00:00 UTC, with the given playables. *)
Definition appletv_page (playables : list (string * json)) : json :=
  JObj [("data",
         JObj [("content",
                JObj [("title", JStr "Example Movie");
                      ("releaseDate", JNum 1625788800000)]);
               ("playables", JObj playables)])].

(** Two playables of an AppleTV response with the same external id, each
    with one offer. *)
Definition playable (id playlist : string) : json :=
  JObj [("isItunes", JBool true);
        ("externalId", JStr id);
        ("itunesMediaApiData",
         JObj [("offers", JArr [JObj [("hlsUrl", JStr playlist)]])])].

Definition appletv_same_id_twice : json :=
  appletv_page
    [("tvs.sbd.9001:123", playable "123" "https://play.example/a.m3u8");
     ("tvs.sbd.9001:123b", playable "123" "https://play.example/b.m3u8")].

(** A subtitles track named "English", of language code "en". *)
Definition english_track : Media :=
  mkMedia (Some "SUBTITLES") (Some "subtitles_ak") (Some "en")
          (Some "English") (Some "NO") None (Some "en/prog_index.m3u8").


(** An offer item of an iTunes page with two assets: the playlist of the
    first does not load, the playlist of the second does. *)
Definition offer_item_two_assets : json :=
  JObj [("type", JStr "offer");
        ("attributes",
         JObj [("assets",
                JArr
                  [JObj [("hlsUrl", JStr "https://play.example/dead.m3u8")];
                   JObj [("hlsUrl", JStr "https://play.example/live.m3u8")]])])].

Definition only_live_loads : json -> option exc :=
  fun u => match u with
           | JStr "https://play.example/live.m3u8" => None
           | _ => Some HTTPError
           end.

(** An iTunes JSON response for the movie "Example Movie" of 2021-07-09,
    with the given offers. *)
Definition itunes_page (offers : list json) : json :=
  JObj [("pageData", JObj [("id", JStr "123")]);
        ("storePlatformData",
         JObj [("product-dv",
                JObj [("results",
                       JObj [("123",
                              JObj [("nameRaw", JStr "Example Movie");
                                    ("releaseDate", JStr "2021-07-09");
                                    ("offers", JArr offers)])])])])].

(** The same response with another release date, and with no offer. *)
Definition itunes_page_released (release_date : json) : json :=
  JObj [("pageData", JObj [("id", JStr "123")]);
        ("storePlatformData",
         JObj [("product-dv",
                JObj [("results",
                       JObj [("123",
                              JObj [("nameRaw", JStr "Example Movie");
                                    ("releaseDate", release_date);
                                    ("offers", JArr [])])])])])].

(** An AppleTV JSON response for the movie with the given release date
    and no playable. *)
Definition appletv_page_released (release_date : json) : json :=
  JObj [("data",
         JObj [("content",
                JObj [("title", JStr "Example Movie");
                      ("releaseDate", release_date)]);
               ("playables", JObj [])])].

Definition buy_offer (playlists : list string) : json :=
  JObj [("type", JStr "buy");
        ("assets",
         JArr (map (fun u => JObj [("hlsUrl", JStr u)]) playlists))].

(** No playlist loads: the host cannot be reached, the server answers
    with an error status, the playlist does not parse. *)
Definition unreachable : json -> option exc := fun _ => Some URLError.
Definition all_not_found : json -> option exc := fun _ => Some HTTPError.
Definition all_malformed : json -> option exc := fun _ => Some ValueError.

(** No text is JSON. *)
Definition no_json : string -> option json := fun _ => None.

(** The content ["{}"] of [json_response] is the empty object: it has no
    ["pageData"]. As an HTML page it has no tag. *)
Definition empty_object_loads (text : string) : option json :=
  if String.eqb text "{}" then Some (JObj []) else None.

Definition world_without_page_data : World :=
  world all_valid json_response empty_object_loads [].

(** The shoebox data of an iTunes HTML page for the movie, and a page that
    carries it. *)
Definition shoebox : json :=
  JObj [("123",
         JObj [("data",
                JObj [("attributes",
                       JObj [("name", JStr "Example Movie");
                             ("releaseDate", JStr "2021-07-09")])]);
               ("included",
                JArr
                  [JObj [("type", JStr "offer");
                         ("attributes",
                          JObj [("assets",
                                 JArr
                                   [JObj
                                      [("hlsUrl",
                                        JStr "https://play.example/a.m3u8")]])])]])])].

Definition page_soup : Soup :=
  [mkTag "meta" [("name", "apple:content_id"); ("content", "123")] [];
   mkTag "script"
     [("id", "shoebox-ember-data-store"); ("type", "fastboot/shoebox")]
     [" shoebox "]].

(** A world in which the content of the response, with no ["pageData"]
    as JSON, would also read as that HTML page: [json.loads] reads the
    text of the script tag as [shoebox]. *)
Definition page_loads (text : string) : option json :=
  if String.eqb text "{}" then Some (JObj [])
  else if String.eqb text "shoebox" then Some shoebox
  else None.

Definition world_with_both_readings : World :=
  world all_valid json_response page_loads page_soup.

(** An AppleTV response for a movie released one day before 1970. *)
Definition appletv_old_movie : json :=
  JObj [("data",
         JObj [("content",
                JObj [("title", JStr "Old Movie");
                      ("releaseDate", JNum (-86400000))]);
               ("playables", JObj [])])].

(** A track of three segments. *)
Definition track : SubtitlesData :=
  mkSubtitlesData (Some "en") (Some "English") NORMAL
                  (Some "https://cdn.example/en/prog_index.m3u8").

Definition segment_uris : list string :=
  ["https://cdn.example/en/seg0.webvtt";
   "https://cdn.example/en/seg1.webvtt";
   "https://cdn.example/en/seg2.webvtt"].

Definition body0 : string :=
  "WEBVTT

00:00:01.000 --> 00:00:02.000
Hello".

Definition body1 : string :=
  "WEBVTT

00:00:03.000 --> 00:00:04.000
to you".

Definition body2 : string :=
  "WEBVTT

00:00:05.000 --> 00:00:06.000
Goodbye".

Definition ok_response (body : string) : exc + ClientResponse :=
  inr (mkClientResponse 200 (inr (list_byte_of_string body))).

(** A network around the track: [second] is what the request of the
    segment in the middle resolves to. *)
Definition net_with (second : exc + ClientResponse) : Net :=
  {| playlist_segments :=
       fun u => match u with
                | Some "https://cdn.example/en/prog_index.m3u8" =>
                    inr segment_uris
                | _ => inl HTTPError
                end;
     session_get :=
       fun u =>
         if String.eqb u "https://cdn.example/en/seg0.webvtt"
         then ok_response body0
         else if String.eqb u "https://cdn.example/en/seg1.webvtt"
         then second
         else if String.eqb u "https://cdn.example/en/seg2.webvtt"
         then ok_response body2
         else inl ClientError;
     can_open := fun _ => true |}.

(** All three segments are served. *)
Definition net_ok : Net := net_with (ok_response body1).

(** The segment in the middle is answered with the status 404 and the
    page of the error. *)
Definition net_not_found : Net :=
  net_with (inr (mkClientResponse 404
                   (inr (list_byte_of_string "Not Found")))).

(** The segment in the middle is answered with the status 404 and the
    text of the segment. *)
Definition net_not_found_with_text : Net :=
  net_with (inr (mkClientResponse 404 (inr (list_byte_of_string body1)))).

(** The connection of the segment in the middle fails. *)
Definition net_broken : Net := net_with (inl ClientError).

(** The body of the segment in the middle is not UTF-8. *)
Definition net_not_utf8 : Net :=
  net_with (inr (mkClientResponse 200 (inr [Byte.xc3; Byte.x28]))).

Definition movie : MovieData :=
  mkMovieData ITUNES (JStr "Example Movie") 2021
    [mkPlaylistData (JStr "123") (JStr "https://play.example/a.m3u8")].

Definition in_order : list nat := [0; 0; 1; 1; 2; 2]%nat.
Definition last_first : list nat := [2; 1; 0; 2; 0; 1]%nat.

(** The document of the first and of the last segment of the track. *)
Definition document_without_middle : string :=
  "WEBVTT

00:00:01.000 --> 00:00:02.000
Hello

00:00:05.000 --> 00:00:06.000
Goodbye
".

(** The document of the three segments. *)
Definition whole_document : string :=
  "WEBVTT

00:00:01.000 --> 00:00:02.000
Hello

00:00:03.000 --> 00:00:04.000
to you

00:00:05.000 --> 00:00:06.000
Goodbye
".

Definition output_path : string := "/out/example.movie.2021.iT.WEB.en.vtt".

(** An HTML response, and a response with the status 503. *)
Definition html_response : Response :=
  mkResponse 200 (Some "text/html; charset=utf-8") "<html></html>".

Definition unavailable_response : Response :=
  mkResponse 503 (Some "text/html; charset=utf-8") "<html></html>".

(** A response that is neither JSON nor HTML. *)
Definition xml_response : Response :=
  mkResponse 200 (Some "text/xml") "<Document/>".

(** A response declared as JSON of which the content is not JSON, and one
    of which the two bytes are not UTF-8. *)
Definition not_json_response : Response :=
  mkResponse 200 (Some "application/json; charset=utf-8") "<html></html>".

Definition undecodable_response : Response :=
  mkResponse 200 (Some "application/json; charset=utf-8")
             (string_of_list_byte [Byte.xc3; Byte.x28]).

(** A world of AppleTV URLs: the storefront of the URL is its first path
    segment, as it is written. *)
Definition appletv_world : World :=
  let base := world all_valid json_response no_json [] in
  {| itunes_fullmatch := fun _ => None;
     appletv_fullmatch :=
       fun u =>
         if String.prefix "https://tv.apple.com/us/" u
         then Some ("us", "umc.cmc.example")
         else if String.prefix "https://tv.apple.com/US/" u
         then Some ("US", "umc.cmc.example")
         else if String.prefix "https://tv.apple.com/xx/" u
         then Some ("xx", "umc.cmc.example")
         else None;
     APPLETV_MOVIE_API_URL := APPLETV_MOVIE_API_URL base;
     APPLETV_API_BASE_PARAMS := APPLETV_API_BASE_PARAMS base;
     atv_storefronts := atv_storefronts base;
     requests_get := requests_get base;
     json_loads := fun _ => Some appletv_same_id_twice;
     json_loads_error := json_loads_error base;
     BeautifulSoup := BeautifulSoup base;
     m3u8_load := m3u8_load base;
     localtime := localtime base |}.

(** An iTunes HTML page that has the id of the movie but no shoebox data,
    and a page of which the shoebox data has no list of included items. *)
Definition soup_without_shoebox : Soup :=
  [mkTag "meta" [("name", "apple:content_id"); ("content", "123")] []].

Definition shoebox_without_included : json :=
  JObj [("123",
         JObj [("data",
                JObj [("attributes",
                       JObj [("name", JStr "Example Movie");
                             ("releaseDate", JStr "2021-07-09")])])])].

(** An AppleTV HTML page: the script tag holds an object of which the
    first value is the text of the data. *)
Definition appletv_soup : Soup :=
  [mkTag "script" [("id", "shoebox-uts-api"); ("type", "fastboot/shoebox")]
     ["outer"]].

Definition appletv_loads (data : option json) (text : string)
  : option json :=
  if String.eqb text "outer" then Some (JObj [("key", JStr "inner")])
  else if String.eqb text "inner" then data
  else None.

(** The same page with an empty object in the script tag. *)
Definition appletv_loads_empty (text : string) : option json :=
  if String.eqb text "outer" then Some (JObj []) else None.

(** The tracks of a main playlist: audio, English, forced French, an
    unknown group, and English for the deaf and hard of hearing. *)
Definition audio_track : Media :=
  mkMedia (Some "AUDIO") (Some "audio_ak") (Some "en") (Some "English")
          None None (Some "audio/en.m3u8").

Definition french_forced_track : Media :=
  mkMedia (Some "SUBTITLES") (Some "subtitles_ak") (Some "fr")
          (Some "French") (Some "YES") (Some "public.accessibility")
          (Some "fr/prog_index.m3u8").

Definition other_group_track : Media :=
  mkMedia (Some "SUBTITLES") (Some "subtitles_ap2") (Some "de")
          (Some "Deutsch") (Some "NO") None (Some "de/prog_index.m3u8").

Definition english_cc_track : Media :=
  mkMedia (Some "SUBTITLES") (Some "subtitles_vod-ak-amt.tv.apple.com")
          (Some "en") (Some "English (CC)") (Some "NO")
          (Some "public.accessibility.describes-music-and-sound")
          (Some "en_cc/prog_index.m3u8").

(** A subtitles track with no language attribute. *)
Definition nameless_track : Media :=
  mkMedia (Some "SUBTITLES") (Some "subtitles_ak") None None None None
          (Some "und/prog_index.m3u8").

Definition main_media : list Media :=
  [audio_track; english_track; french_forced_track; other_group_track;
   english_cc_track].

(** The body of the segment in the middle starts with the byte 0xFF. *)
Definition net_bad_first_byte : Net :=
  net_with (inr (mkClientResponse 200 (inr [Byte.xff; Byte.xfe]))).

(** The connection of the first segment fails and the body of the second
    is not UTF-8. *)
Definition net_two_failures : Net :=
  {| playlist_segments := playlist_segments net_ok;
     session_get :=
       fun u =>
         if String.eqb u "https://cdn.example/en/seg0.webvtt"
         then inl ClientError
         else if String.eqb u "https://cdn.example/en/seg1.webvtt"
         then inr (mkClientResponse 200 (inr [Byte.xc3; Byte.x28]))
         else session_get net_ok u;
     can_open := can_open net_ok |}.

(** Only the playlists named [b.m3u8] and [c.m3u8] load; the server
    answers the others with an error status. *)
Definition b_and_c_load : json -> option exc :=
  fun u => match u with
           | JStr "https://play.example/b.m3u8" => None
           | JStr "https://play.example/c.m3u8" => None
           | _ => Some HTTPError
           end.

(** Three playables: one with the playlists a, b and c, one that is not
    of iTunes, and one with the playlist a only. *)
Definition appletv_three_playables : json :=
  appletv_page
    [("p1",
      JObj [("isItunes", JBool true);
            ("externalId", JStr "111");
            ("itunesMediaApiData",
             JObj
               [("offers",
                 JArr
                   [JObj [("hlsUrl", JStr "https://play.example/a.m3u8")];
                    JObj [("hlsUrl", JStr "https://play.example/b.m3u8")];
                    JObj [("hlsUrl", JStr "https://play.example/c.m3u8")]])])]);
     ("p2", JObj [("isItunes", JBool false)]);
     ("p3", playable "333" "https://play.example/a.m3u8")].

End Examples.

(* ===================================================================== *)
(** ** The monad *)
(* ===================================================================== *)

Lemma bind_ret_l {A B} (a : A) (k : A -> M B) : bind (ret a) k = k a.
Proof. unfold bind, ret. destruct (k a); reflexivity. Qed.

Lemma bind_raise {A B} (e : exc) (k : A -> M B) : bind (raise e) k = raise e.
Proof. reflexivity. Qed.

(** A body that returns leaves its [try] with its value. *)
Lemma try_except_ret {A} (a : A) (classes : list exc) (handler : M A) :
  Scraper.try_except (ret a) classes handler = ret a.
Proof. reflexivity. Qed.

(** A body that raises with no load: the handler runs when one of the
    classes catches the exception. *)
Lemma try_except_raise {A} (e : exc) (classes : list exc) (handler : M A) :
  Scraper.try_except (raise e) classes handler
  = if existsb (issubclass e) classes then handler else raise e.
Proof.
  unfold Scraper.try_except, raise.
  destruct (existsb (issubclass e) classes); [| reflexivity].
  now destruct handler.
Qed.

(** A computation that loads nothing: binding it is a case analysis. *)
Lemma bind_pure {A B} (m : M A) (k : A -> M B) :
  log_of m = [] ->
  bind m k = match outcome m with
             | inl e => raise e
             | inr a => k a
             end.
Proof.
  destruct m as [l [e | a]]; simpl; intros ->; [reflexivity |].
  destruct (k a); reflexivity.
Qed.

(* ===================================================================== *)
(** ** Dates *)
(* ===================================================================== *)

Example strptime_leap_day :
  Datetime.strptime_year (JStr "2020-02-29") = ret 2020.
Proof. reflexivity. Qed.

Example strptime_no_such_day :
  Datetime.strptime_year (JStr "2021-02-29") = raise ValueError.
Proof. reflexivity. Qed.

Example strptime_short_fields :
  Datetime.strptime_year (JStr "1999-1-5") = ret 1999.
Proof. reflexivity. Qed.

Example strptime_text_left :
  Datetime.strptime_year (JStr "2021-07-09T00:00") = raise ValueError.
Proof. reflexivity. Qed.

Example year_of_first_day : Datetime.ord2year 1 = 1.
Proof. reflexivity. Qed.

Example year_of_epoch : Datetime.ord2year Datetime.EPOCH_ORDINAL = 1970.
Proof. reflexivity. Qed.

Example year_of_last_day : Datetime.ord2year Datetime.MAXORDINAL = 9999.
Proof. reflexivity. Qed.

(* ===================================================================== *)
(** ** File names *)
(* ===================================================================== *)

Lemma append_assoc (a b c : string) : (a +:+ b) +:+ c = a +:+ (b +:+ c).
Proof.
  induction a as [| x a IH]; [reflexivity |].
  change (String x ((a +:+ b) +:+ c) = String x (a +:+ (b +:+ c))).
  now rewrite IH.
Qed.

Lemma append_empty_r (a : string) : a +:+ "" = a.
Proof.
  induction a as [| x a IH]; [reflexivity |].
  change (String x (a +:+ "") = String x a).
  now rewrite IH.
Qed.

(** C8. The file name is the formatted title, then the year unless the
    title has it already, then ".iT.WEB." and the language code, then the
    type unless it is [NORMAL], then the format. With the slug of the
    spec, "Example Movie" of 2021 in "en" gives
    "example.movie.2021.iT.WEB.en.vtt", the forced track a name that ends
    in ".en.forced.vtt", and "Example Movie 2021" no second year. *)
Theorem format_file_name_pattern :
  (forall (format_title : string -> string) (movie_title : string)
          (release_year : Z) (language_code : string)
          (subtitles_type : SubtitlesType) (file_format : SubtitlesFormat),
      PlaylistDownloader._format_file_name format_title movie_title
        release_year language_code subtitles_type file_format
      = format_title movie_title
        +:+ (if Str.contains (Str.of_Z release_year) movie_title then ""
             else "." +:+ Str.of_Z release_year)
        +:+ ".iT.WEB." +:+ language_code
        +:+ match subtitles_type with
            | NORMAL => ""
            | FORCED => ".forced"
            | CC => ".cc"
            end
        +:+ match file_format with
            | VTT => ".vtt"
            | SRT => ".srt"
            end)
  /\ PlaylistDownloader._format_file_name Model.format_title
       "Example Movie" 2021 "en" NORMAL VTT
     = "example.movie.2021.iT.WEB.en.vtt"
  /\ PlaylistDownloader._format_file_name Model.format_title
       "Example Movie" 2021 "en" FORCED VTT
     = "example.movie.2021.iT.WEB.en.forced.vtt"
  /\ PlaylistDownloader._format_file_name Model.format_title
       "Example Movie 2021" 2021 "en" NORMAL VTT
     = "example.movie.2021.iT.WEB.en.vtt".
Proof.
  split; [| repeat split; reflexivity].
  intros ft title year lang kind fmt.
  unfold PlaylistDownloader._format_file_name.
  destruct (Str.contains (Str.of_Z year) title); simpl negb; cbv iota;
    destruct kind, fmt; simpl;
    rewrite ?append_assoc, ?append_empty_r; simpl; reflexivity.
Qed.

(* ===================================================================== *)
(** ** The track selector *)
(* ===================================================================== *)

(** The language code is compared in lower case on both sides. *)
Lemma find_subtitles_code_any_case (playlist : Scraper.Media)
    (code : string) (entry : string) (subtitles_filter : list string) :
  Scraper.is_subtitles_playlist playlist = true ->
  Scraper.language playlist = Some code ->
  In entry subtitles_filter ->
  Str.lower entry = Str.lower code ->
  Scraper.find_subtitles [playlist] (Some subtitles_filter)
  = ([mkSubtitlesData (Some code) (Scraper.media_name playlist)
        (Scraper.classify playlist) (Scraper.uri playlist)], None).
Proof.
  intros Hsub Hcode Hin Heq.
  unfold Scraper.find_subtitles. simpl. rewrite Hsub, Hcode. simpl.
  assert (Str.mem (Str.lower code) (map Str.lower subtitles_filter) = true)
    as ->; [| reflexivity].
  unfold Str.mem. apply existsb_exists. exists (Str.lower entry). split.
  - now apply in_map.
  - rewrite Heq. apply String.eqb_refl.
Qed.

(** C5. The track named "English" is not selected by the filter entry
    "English": the filter is put in lower case, the name of the track is
    not. *)
Theorem find_subtitles_name_in_upper_case_is_skipped :
  Scraper.find_subtitles [Examples.english_track] (Some ["English"])
  = ([], None)
  /\ Scraper.find_subtitles [Examples.english_track] (Some ["EN"])
     = ([mkSubtitlesData (Some "en") (Some "English") NORMAL
           (Some "en/prog_index.m3u8")], None).
Proof. split; reflexivity. Qed.

(* ===================================================================== *)
(** ** Reading values loads nothing *)
(* ===================================================================== *)

Lemma bind_ok {A B} (l : list event) (a : A) (k : A -> M B) :
  bind (l, inr a) k = (l ++ log_of (k a), outcome (k a)).
Proof. unfold bind. destruct (k a); reflexivity. Qed.

Lemma bind_err {A B} (l : list event) (e : exc) (k : A -> M B) :
  bind (l, inl e) k = (l, inl e).
Proof. reflexivity. Qed.

Lemma pure_eta {A} (m : M A) : log_of m = [] -> m = ([], outcome m).
Proof. destruct m; simpl; now intros ->. Qed.

Lemma bind_pure_log {A B} (m : M A) (k : A -> M B) :
  log_of m = [] -> (forall a, log_of (k a) = []) -> log_of (bind m k) = [].
Proof.
  intros Hm Hk. rewrite (bind_pure _ _ Hm).
  destruct (outcome m); [reflexivity | apply Hk].
Qed.

Lemma getitem_pure (d k : json) : log_of (Dyn.getitem d k) = [].
Proof.
  destruct d as [| b0 | n0 | s | l | kv], k as [| b | i | s1 | l1 | kv1];
    simpl; try reflexivity;
    repeat match goal with
           | |- context [match ?x with _ => _ end] => destruct x
           end; reflexivity.
Qed.

Lemma item_pure (d : json) (k : string) : log_of (Scraper.item d k) = [].
Proof. apply getitem_pure. Qed.

Lemma get_pure (d : json) (k : string) : log_of (Dyn.get d k) = [].
Proof. destruct d; reflexivity. Qed.

Lemma len_pure (v : json) : log_of (Dyn.len v) = [].
Proof. destruct v; reflexivity. Qed.

Lemma iter_pure (v : json) : log_of (Dyn.iter v) = [].
Proof. destruct v; reflexivity. Qed.

Lemma values_pure (v : json) : log_of (Dyn.values v) = [].
Proof. destruct v; reflexivity. Qed.

Lemma ret_pure {A} (a : A) : log_of (ret a) = [].
Proof. reflexivity. Qed.

Lemma raise_pure {A} (e : exc) : log_of (@raise A e) = [].
Proof. reflexivity. Qed.

Create HintDb pure discriminated.
#[export] Hint Resolve getitem_pure item_pure get_pure len_pure iter_pure
  values_pure ret_pure raise_pure : pure.

(** Closes a goal [log_of m = []] for [m] made of reads. *)
Ltac pure :=
  repeat first
    [ solve [auto with pure]
    | apply bind_pure_log; [| intros ?]
    | match goal with
      | |- log_of (if ?b then _ else _) = [] => destruct b
      | |- log_of (match ?x with _ => _ end) = [] => destruct x
      end ].

Lemma first_hls_url_pure (it : json) : log_of (Scraper.first_hls_url it) = [].
Proof. unfold Scraper.first_hls_url. pure. Qed.

Lemma itunes_html_asset_ok_pure (asset : json) :
  log_of (Scraper.itunes_html_asset_ok asset) = [].
Proof. unfold Scraper.itunes_html_asset_ok. pure. Qed.

#[export] Hint Resolve first_hls_url_pure itunes_html_asset_ok_pure : pure.

(* ===================================================================== *)
(** ** The validation of a candidate *)
(* ===================================================================== *)

(** The validation loads the playlist once; it answers [true] when the
    playlist loads, [false] when the load raises an exception of the two
    classes that are caught, and raises every other exception. *)
Lemma try_load_eq (w : World) (u : json) :
  Scraper.try_load w u
  = ([Load u],
     match m3u8_load w u with
     | None => inr true
     | Some e => if Scraper.caught e then inr false else inl e
     end).
Proof.
  unfold Scraper.try_load, Scraper.try_except, Scraper.load, Scraper.caught.
  destruct (m3u8_load w u) as [e |]; simpl; [| reflexivity].
  rewrite orb_false_r.
  destruct (issubclass e ValueError || issubclass e HTTPError); reflexivity.
Qed.

(* ===================================================================== *)
(** ** The iTunes HTML strategy *)
(* ===================================================================== *)

(** One turn of the loop over the assets of an offer item. *)
Lemma itunes_html_assets_cons (w : World) (title : json) (year : Z)
    (id it asset : json) (rest : list json) :
  Scraper.itunes_html_assets w title year id it (asset :: rest)
  = match outcome (Scraper.itunes_html_asset_ok asset) with
    | inl e => raise e
    | inr false => Scraper.itunes_html_assets w title year id it rest
    | inr true =>
        match outcome (Scraper.first_hls_url it) with
        | inl e => raise e
        | inr u =>
            match m3u8_load w u with
            | None =>
                ([Load u],
                 inr (Some (mkMovieData ITUNES title year
                              [mkPlaylistData id u])))
            | Some e =>
                if Scraper.caught e
                then (Load u
                        :: log_of (Scraper.itunes_html_assets w title year
                                     id it rest),
                      outcome (Scraper.itunes_html_assets w title year id
                                 it rest))
                else ([Load u], inl e)
            end
        end
    end.
Proof.
  cbn [Scraper.itunes_html_assets].
  rewrite bind_pure by auto with pure.
  destruct (outcome (Scraper.itunes_html_asset_ok asset)) as [e | [|]];
    try reflexivity.
  rewrite bind_pure by auto with pure.
  destruct (outcome (Scraper.first_hls_url it)) as [e | u]; [reflexivity |].
  rewrite try_load_eq.
  destruct (m3u8_load w u) as [e |]; [| reflexivity].
  destruct (Scraper.caught e); [| reflexivity].
  rewrite bind_ok. reflexivity.
Qed.



(** The second asset of the item has a playlist that loads, and is never
    tried: the playlist of the first asset is loaded twice. *)
Example itunes_html_second_asset_is_not_tried :
  Scraper.itunes_html_item
    (Examples.world Examples.only_live_loads Examples.json_response
       Examples.no_json [])
    (JStr "Example Movie") 2021 (JStr "123") Examples.offer_item_two_assets
  = ([Load (JStr "https://play.example/dead.m3u8");
      Load (JStr "https://play.example/dead.m3u8")], inr None).
Proof. reflexivity. Qed.

(* ===================================================================== *)
(** ** The loops over the candidates of the JSON strategies *)
(* ===================================================================== *)

Lemma itunes_json_assets_cons (w : World) (title : json) (year : Z)
    (id asset : json) (rest : list json) :
  Scraper.itunes_json_assets w title year id (asset :: rest)
  = match outcome (Scraper.item asset "hlsUrl") with
    | inl e => raise e
    | inr u =>
        match m3u8_load w u with
        | None =>
            ([Load u],
             inr (Some (mkMovieData ITUNES title year [mkPlaylistData id u])))
        | Some e =>
            if Scraper.caught e
            then (Load u
                    :: log_of (Scraper.itunes_json_assets w title year id
                                 rest),
                  outcome (Scraper.itunes_json_assets w title year id rest))
            else ([Load u], inl e)
        end
    end.
Proof.
  cbn [Scraper.itunes_json_assets].
  rewrite bind_pure by auto with pure.
  destruct (outcome (Scraper.item asset "hlsUrl")) as [e | u];
    [reflexivity |].
  rewrite try_load_eq.
  destruct (m3u8_load w u) as [e |]; [| reflexivity].
  destruct (Scraper.caught e); [| reflexivity].
  rewrite bind_ok. reflexivity.
Qed.

Lemma appletv_offers_cons (w : World) (id offer : json) (rest : list json) :
  Scraper.appletv_offers w id (offer :: rest)
  = match outcome (Scraper.item offer "hlsUrl") with
    | inl e => raise e
    | inr u =>
        match m3u8_load w u with
        | None => ([Load u], inr (Some (mkPlaylistData id u)))
        | Some e =>
            if Scraper.caught e
            then (Load u :: log_of (Scraper.appletv_offers w id rest),
                  outcome (Scraper.appletv_offers w id rest))
            else ([Load u], inl e)
        end
    end.
Proof.
  cbn [Scraper.appletv_offers].
  rewrite bind_pure by auto with pure.
  destruct (outcome (Scraper.item offer "hlsUrl")) as [e | u];
    [reflexivity |].
  rewrite try_load_eq.
  destruct (m3u8_load w u) as [e |]; [| reflexivity].
  destruct (Scraper.caught e); [| reflexivity].
  rewrite bind_ok. reflexivity.
Qed.

(** When no candidate of the list loads, each is loaded once, in order,
    and the loop ends without a result. *)
Lemma itunes_json_assets_none_valid (w : World) (title : json) (year : Z)
    (id : json) (assets : list json) :
  forallb Scraper.has_url assets = true ->
  (forall u, In u (Scraper.hls_urls assets) -> Scraper.invalid w u = true) ->
  Scraper.itunes_json_assets w title year id assets
  = (map Load (Scraper.hls_urls assets), inr None).
Proof.
  induction assets as [| asset rest IH]; intros Hwf Hinv; [reflexivity |].
  rewrite itunes_json_assets_cons.
  simpl in Hwf, Hinv |- *. apply andb_prop in Hwf as [Hurl Hwf].
  unfold Scraper.has_url in Hurl.
  destruct (outcome (Scraper.item asset "hlsUrl")) as [e | u];
    [discriminate Hurl |].
  pose proof (Hinv u (or_introl eq_refl)) as Hu.
  unfold Scraper.invalid in Hu.
  destruct (m3u8_load w u) as [e |]; [| discriminate Hu].
  rewrite Hu, IH by (try assumption; intros; apply Hinv; now right).
  reflexivity.
Qed.

Lemma appletv_offers_none_valid (w : World) (id : json)
    (offers : list json) :
  forallb Scraper.has_url offers = true ->
  (forall u, In u (Scraper.hls_urls offers) -> Scraper.invalid w u = true) ->
  Scraper.appletv_offers w id offers
  = (map Load (Scraper.hls_urls offers), inr None).
Proof.
  induction offers as [| offer rest IH]; intros Hwf Hinv; [reflexivity |].
  rewrite appletv_offers_cons.
  simpl in Hwf, Hinv |- *. apply andb_prop in Hwf as [Hurl Hwf].
  unfold Scraper.has_url in Hurl.
  destruct (outcome (Scraper.item offer "hlsUrl")) as [e | u];
    [discriminate Hurl |].
  pose proof (Hinv u (or_introl eq_refl)) as Hu.
  unfold Scraper.invalid in Hu.
  destruct (m3u8_load w u) as [e |]; [| discriminate Hu].
  rewrite Hu, IH by (try assumption; intros; apply Hinv; now right).
  reflexivity.
Qed.

(** The scan of the candidates stops at the first that loads: the
    candidates after it are not loaded, and its playlist is the one that
    is kept. *)
Lemma itunes_json_assets_first_valid (w : World) (title : json) (year : Z)
    (id : json) (skipped : list json) (asset : json) (rest : list json)
    (u : json) :
  forallb Scraper.has_url skipped = true ->
  (forall v, In v (Scraper.hls_urls skipped) -> Scraper.invalid w v = true) ->
  Scraper.item asset "hlsUrl" = ret u ->
  m3u8_load w u = None ->
  Scraper.itunes_json_assets w title year id (skipped ++ asset :: rest)
  = (map Load (Scraper.hls_urls skipped) ++ [Load u],
     inr (Some (mkMovieData ITUNES title year [mkPlaylistData id u]))).
Proof.
  intros Hwf Hinv Hu Hload.
  induction skipped as [| a skipped IH]; simpl app.
  - rewrite itunes_json_assets_cons, Hu. cbv [outcome ret snd].
    now rewrite Hload.
  - rewrite itunes_json_assets_cons.
    simpl in Hwf, Hinv |- *. apply andb_prop in Hwf as [Hurl Hwf].
    unfold Scraper.has_url in Hurl.
    destruct (outcome (Scraper.item a "hlsUrl")) as [e | v];
      [discriminate Hurl |].
    pose proof (Hinv v (or_introl eq_refl)) as Hv.
    unfold Scraper.invalid in Hv.
    destruct (m3u8_load w v) as [e |]; [| discriminate Hv].
    rewrite Hv, IH by (try assumption; intros; apply Hinv; now right).
    reflexivity.
Qed.

Lemma appletv_offers_first_valid (w : World) (id : json)
    (skipped : list json) (offer : json) (rest : list json) (u : json) :
  forallb Scraper.has_url skipped = true ->
  (forall v, In v (Scraper.hls_urls skipped) -> Scraper.invalid w v = true) ->
  Scraper.item offer "hlsUrl" = ret u ->
  m3u8_load w u = None ->
  Scraper.appletv_offers w id (skipped ++ offer :: rest)
  = (map Load (Scraper.hls_urls skipped) ++ [Load u],
     inr (Some (mkPlaylistData id u))).
Proof.
  intros Hwf Hinv Hu Hload.
  induction skipped as [| a skipped IH]; simpl app.
  - rewrite appletv_offers_cons, Hu. cbv [outcome ret snd].
    now rewrite Hload.
  - rewrite appletv_offers_cons.
    simpl in Hwf, Hinv |- *. apply andb_prop in Hwf as [Hurl Hwf].
    unfold Scraper.has_url in Hurl.
    destruct (outcome (Scraper.item a "hlsUrl")) as [e | v];
      [discriminate Hurl |].
    pose proof (Hinv v (or_introl eq_refl)) as Hv.
    unfold Scraper.invalid in Hv.
    destruct (m3u8_load w v) as [e |]; [| discriminate Hv].
    rewrite Hv, IH by (try assumption; intros; apply Hinv; now right).
    reflexivity.
Qed.

(** The loads of a loop are those of the first candidates of the list,
    one for each, in order. *)
Lemma itunes_json_assets_log (w : World) (title : json) (year : Z)
    (id : json) (assets : list json) :
  exists n,
    log_of (Scraper.itunes_json_assets w title year id assets)
    = map Load (Scraper.hls_urls (firstn n assets)).
Proof.
  induction assets as [| asset rest [n IH]]; [now exists 0%nat |].
  rewrite itunes_json_assets_cons.
  destruct (outcome (Scraper.item asset "hlsUrl")) as [e | u] eqn:Hu;
    [now exists 0%nat |].
  destruct (m3u8_load w u) as [e |].
  - destruct (Scraper.caught e).
    + exists (S n). simpl. rewrite Hu. simpl. now rewrite IH.
    + exists 1%nat. simpl. now rewrite Hu.
  - exists 1%nat. simpl. now rewrite Hu.
Qed.

Lemma appletv_offers_log (w : World) (id : json) (offers : list json) :
  exists n,
    log_of (Scraper.appletv_offers w id offers)
    = map Load (Scraper.hls_urls (firstn n offers)).
Proof.
  induction offers as [| offer rest [n IH]]; [now exists 0%nat |].
  rewrite appletv_offers_cons.
  destruct (outcome (Scraper.item offer "hlsUrl")) as [e | u] eqn:Hu;
    [now exists 0%nat |].
  destruct (m3u8_load w u) as [e |].
  - destruct (Scraper.caught e).
    + exists (S n). simpl. rewrite Hu. simpl. now rewrite IH.
    + exists 1%nat. simpl. now rewrite Hu.
  - exists 1%nat. simpl. now rewrite Hu.
Qed.

Arguments bind : simpl never.
Arguments ret : simpl never.
Arguments raise : simpl never.

Lemma outcome_bind {A B} (m : M A) (k : A -> M B) :
  outcome (bind m k) = match outcome m with
                       | inl e => inl e
                       | inr a => outcome (k a)
                       end.
Proof.
  destruct m as [l [e | a]]; [reflexivity |]. now rewrite bind_ok.
Qed.

(* ===================================================================== *)
(** ** One entry for an id *)
(* ===================================================================== *)

Lemma itunes_json_assets_one_entry (w : World) (title : json) (year : Z)
    (id : json) (assets : list json) (md : MovieData) :
  outcome (Scraper.itunes_json_assets w title year id assets)
  = inr (Some md) ->
  exists u, md = mkMovieData ITUNES title year [mkPlaylistData id u].
Proof.
  induction assets as [| asset rest IH]; [discriminate |].
  rewrite itunes_json_assets_cons.
  destruct (outcome (Scraper.item asset "hlsUrl")) as [e | u];
    [discriminate |].
  destruct (m3u8_load w u) as [e |].
  - destruct (Scraper.caught e); [exact IH | discriminate].
  - intros [= <-]. now exists u.
Qed.

Lemma itunes_json_offers_one_entry (w : World) (title : json) (year : Z)
    (id : json) (offers : list json) (md : MovieData) :
  outcome (Scraper.itunes_json_offers w title year id offers)
  = inr (Some md) ->
  exists u, md = mkMovieData ITUNES title year [mkPlaylistData id u].
Proof.
  induction offers as [| offer rest IH]; [discriminate |].
  cbn [Scraper.itunes_json_offers]. rewrite outcome_bind.
  destruct (outcome (Scraper.itunes_json_offer w title year id offer))
    as [e | [md' |]] eqn:Hoffer; [discriminate | | exact IH].
  intros [= <-]. revert Hoffer.
  unfold Scraper.itunes_json_offer. rewrite !outcome_bind.
  destruct (outcome (Scraper.itunes_json_offer_type_ok offer))
    as [e | [|]]; try discriminate.
  rewrite outcome_bind.
  destruct (outcome (Scraper.itunes_json_offer_assets_ok offer))
    as [e | [|]]; try discriminate.
  rewrite !outcome_bind.
  destruct (outcome (Scraper.item offer "assets")) as [e | a];
    [discriminate |].
  rewrite outcome_bind.
  destruct (outcome (Dyn.iter a)) as [e | assets]; [discriminate |].
  apply itunes_json_assets_one_entry.
Qed.

(** The iTunes JSON strategy returns at most one entry, and its id is the
    id of the page. *)
Lemma itunes_json_at_most_one_entry (w : World) (json_data : json)
    (md : MovieData) :
  outcome (Scraper._find_playlist_data_itunes_json_ w json_data) = inr md ->
  playlists md = []
  \/ exists id u, playlists md = [mkPlaylistData id u].
Proof.
  unfold Scraper._find_playlist_data_itunes_json_. rewrite outcome_bind.
  destruct (outcome (Scraper.itunes_json_header json_data))
    as [e | [[[id title] year] offers]]; [discriminate |].
  rewrite outcome_bind.
  destruct (outcome (Scraper.itunes_json_offers w title year id offers))
    as [e | [md' |]] eqn:H; [discriminate | |].
  - intros [= <-]. apply itunes_json_offers_one_entry in H as [u ->].
    right. now exists id, u.
  - intros [= <-]. now left.
Qed.

(** C4. Two playables with the external id "123", each with a playlist
    that loads, give two entries with the id "123": the set of the ids
    seen stays empty. *)
Theorem appletv_same_id_is_listed_twice :
  outcome
    (Scraper._find_playlist_data_appletv_json_
       (Examples.world Examples.all_valid Examples.json_response
          Examples.no_json [])
       Examples.appletv_same_id_twice)
  = inr (mkMovieData APPLETV (JStr "Example Movie") 2021
           [mkPlaylistData (JStr "123") (JStr "https://play.example/a.m3u8");
            mkPlaylistData (JStr "123") (JStr "https://play.example/b.m3u8")]).
Proof. reflexivity. Qed.

(* ===================================================================== *)
(** ** What the validation catches *)
(* ===================================================================== *)

(** C6, as the code has it. The validation of a candidate loads its
    playlist once. An exception of the class [ValueError] or [HTTPError]
    is caught and the candidate is skipped: a list of candidates of which
    none loads is gone through once, in order, and gives no exception.
    Any other exception of the load leaves the strategy. In the two JSON
    strategies the loads are those of the first candidates of the list,
    one for each. *)
Theorem validation_catches_value_and_http_errors (w : World) :
  (forall u,
      Scraper.try_load w u
      = ([Load u],
         match m3u8_load w u with
         | None => inr true
         | Some e => if Scraper.caught e then inr false else inl e
         end))
  /\ (forall title year id assets,
         exists n,
           log_of (Scraper.itunes_json_assets w title year id assets)
           = map Load (Scraper.hls_urls (firstn n assets)))
  /\ (forall id offers,
         exists n,
           log_of (Scraper.appletv_offers w id offers)
           = map Load (Scraper.hls_urls (firstn n offers)))
  /\ (forall title year id assets,
         forallb Scraper.has_url assets = true ->
         (forall u, In u (Scraper.hls_urls assets) ->
                    Scraper.invalid w u = true) ->
         Scraper.itunes_json_assets w title year id assets
         = (map Load (Scraper.hls_urls assets), inr None))
  /\ (forall id offers,
         forallb Scraper.has_url offers = true ->
         (forall u, In u (Scraper.hls_urls offers) ->
                    Scraper.invalid w u = true) ->
         Scraper.appletv_offers w id offers
         = (map Load (Scraper.hls_urls offers), inr None))
  /\ (forall title year id asset rest u e,
         Scraper.item asset "hlsUrl" = ret u ->
         m3u8_load w u = Some e ->
         Scraper.caught e = false ->
         Scraper.itunes_json_assets w title year id (asset :: rest)
         = ([Load u], inl e))
  /\ (forall id offer rest u e,
         Scraper.item offer "hlsUrl" = ret u ->
         m3u8_load w u = Some e ->
         Scraper.caught e = false ->
         Scraper.appletv_offers w id (offer :: rest) = ([Load u], inl e)).
Proof.
  repeat split.
  - apply try_load_eq.
  - apply itunes_json_assets_log.
  - apply appletv_offers_log.
  - apply itunes_json_assets_none_valid.
  - apply appletv_offers_none_valid.
  - intros title year id asset rest u e Hu He Hc.
    rewrite itunes_json_assets_cons, Hu. cbv [outcome ret snd].
    now rewrite He, Hc.
  - intros id offer rest u e Hu He Hc.
    rewrite appletv_offers_cons, Hu. cbv [outcome ret snd].
    now rewrite He, Hc.
Qed.

Lemma validation_catches_value_and_http_errors_witness :
  Scraper.itunes_json_assets
    (Examples.world Examples.all_not_found Examples.json_response
       Examples.no_json [])
    (JStr "Example Movie") 2021 (JStr "123")
    [JObj [("hlsUrl", JStr "https://play.example/a.m3u8")];
     JObj [("hlsUrl", JStr "https://play.example/b.m3u8")]]
  = ([Load (JStr "https://play.example/a.m3u8");
      Load (JStr "https://play.example/b.m3u8")], inr None)
  /\ Scraper.appletv_offers
       (Examples.world Examples.unreachable Examples.json_response
       Examples.no_json [])
       (JStr "123")
       [JObj [("hlsUrl", JStr "https://play.example/a.m3u8")];
        JObj [("hlsUrl", JStr "https://play.example/b.m3u8")]]
     = ([Load (JStr "https://play.example/a.m3u8")], inl URLError).
Proof.
  split.
  - apply (proj1 (proj2 (proj2 (proj2
             (validation_catches_value_and_http_errors
                (Examples.world Examples.all_not_found
                   Examples.json_response Examples.no_json [])))))).
    + reflexivity.
    + intros u _. reflexivity.
  - apply (proj2 (proj2 (proj2 (proj2 (proj2 (proj2
             (validation_catches_value_and_http_errors
                (Examples.world Examples.unreachable
                   Examples.json_response Examples.no_json [])))))))).
    + reflexivity.
    + reflexivity.
    + reflexivity.
Defined.

(** A host that cannot be reached makes [m3u8.load] raise [URLError],
    which is neither a [ValueError] nor an [HTTPError]: the exception
    leaves the strategy, after one load. *)
Lemma validation_raises_when_host_is_unreachable :
  Scraper._find_playlist_data_itunes_json_
    (Examples.world Examples.unreachable Examples.json_response
       Examples.no_json [])
    (Examples.itunes_page [Examples.buy_offer ["https://play.example/a.m3u8"]])
  = ([Load (JStr "https://play.example/a.m3u8")], inl URLError).
Proof. reflexivity. Qed.

(* ===================================================================== *)
(** ** One strategy for a response *)
(* ===================================================================== *)

(** C3, as the code has it. The strategy is chosen once, from the kind of
    the URL and the content type of the response. For an iTunes URL and a
    JSON response, the result of the extraction is the result of the JSON
    strategy, with its loads and with its exception if it raises one: a
    response with no ["pageData"] raises [KeyError] at once. For an
    AppleTV URL the result is the result of the AppleTV JSON strategy. *)
Theorem json_response_is_read_by_json_strategy_only (w : World)
    (movie_url : string) (headers : option (list (string * string)))
    (request : Response) (json_data : json) :
  Scraper.raise_for_status request = ret tt ->
  json_loads w (content request) = Some json_data ->
  (forall group1 ct,
      itunes_fullmatch w movie_url = Some group1 ->
      requests_get w group1 headers [] = inr request ->
      content_type request = Some ct ->
      Str.contains "application/json" ct = true ->
      Scraper.get_movie_data w movie_url headers
      = Scraper._find_playlist_data_itunes_json_ w json_data
      /\ (forall kv, json_data = JObj kv ->
                     Dyn.assoc "pageData" kv = None ->
                     Scraper.get_movie_data w movie_url headers
                     = raise KeyError))
  /\ (forall group2 group3 storefronts sf,
         itunes_fullmatch w movie_url = None ->
         appletv_fullmatch w movie_url = Some (group2, group3) ->
         atv_storefronts w = inr storefronts ->
         Dyn.getitem storefronts (JStr (Str.upper group2)) = ret sf ->
         requests_get w (APPLETV_MOVIE_API_URL w +:+ group3) headers
           (Scraper.setitem (APPLETV_API_BASE_PARAMS w) "sf" sf)
         = inr request ->
         Scraper.get_movie_data w movie_url headers
         = Scraper._find_playlist_data_appletv_json_ w json_data).
Proof.
  intros Hstatus Hjson. split.
  - intros group1 ct Hmatch Hget Hct Hkind.
    assert (Scraper.get_movie_data w movie_url headers
            = Scraper._find_playlist_data_itunes_json_ w json_data) as Heq.
    { unfold Scraper.get_movie_data. rewrite Hmatch.
      unfold Scraper.lift, Scraper.header_content_type.
      rewrite Hget.
      change (@pair (list event) (exc + Response) [] (inr request))
        with (ret request).
      rewrite bind_ret_l, Hstatus, bind_ret_l, Hct, bind_ret_l, Hkind.
      unfold Scraper.json_loads_bytes.
      rewrite Hjson, try_except_ret, bind_ret_l. reflexivity. }
    split; [exact Heq |].
    intros kv -> Hmissing. rewrite Heq.
    unfold Scraper._find_playlist_data_itunes_json_,
      Scraper.itunes_json_header, Scraper.item.
    cbn [Dyn.getitem]. rewrite Hmissing. reflexivity.
  - intros group2 group3 storefronts sf Hnot Hmatch Hsf Hitem Hget.
    unfold Scraper.get_movie_data. rewrite Hnot, Hmatch.
    unfold Scraper.lift. rewrite Hsf.
    change (@pair (list event) (exc + json) [] (inr storefronts))
      with (ret storefronts).
    rewrite bind_ret_l, Hitem, bind_ret_l, Hget.
    change (@pair (list event) (exc + Response) [] (inr request))
      with (ret request).
    rewrite bind_ret_l, Hstatus, bind_ret_l, Hjson. reflexivity.
Qed.

Lemma json_response_is_read_by_json_strategy_only_witness :
  Scraper.get_movie_data Examples.world_without_page_data
    "https://itunes.apple.com/us/movie/example/id123" None
  = raise KeyError.
Proof.
  refine (proj2 (proj1 (json_response_is_read_by_json_strategy_only
                          Examples.world_without_page_data
                          "https://itunes.apple.com/us/movie/example/id123"
                          None Examples.json_response (JObj []) _ _)
                   "https://itunes.apple.com/us/movie/example/id123"
                   "application/json; charset=utf-8" _ _ _ _)
            [] _ _);
    reflexivity.
Defined.

(** A JSON response with no ["pageData"]: the extraction raises the
    [KeyError] of the JSON strategy and has loaded no playlist. The HTML
    strategy has not been tried: on this content it raises
    [PageLoadError]. *)
Lemma json_response_without_field_fails_at_once :
  Scraper.get_movie_data Examples.world_without_page_data
    "https://itunes.apple.com/us/movie/example/id123" None
  = ([], inl KeyError)
  /\ Scraper._find_playlist_data_itunes_html_ Examples.world_without_page_data
       (BeautifulSoup Examples.world_without_page_data
          (content Examples.json_response))
     = ([], inl PageLoadError).
Proof. split; reflexivity. Qed.

(** The same, in a world in which the HTML strategy would find the movie
    and a playlist that loads in the content of the response. *)
Example json_response_is_not_read_as_html :
  Scraper.get_movie_data Examples.world_with_both_readings
    "https://itunes.apple.com/us/movie/example/id123" None
  = ([], inl KeyError)
  /\ Scraper._find_playlist_data_itunes_html_
       Examples.world_with_both_readings
       (BeautifulSoup Examples.world_with_both_readings
          (content Examples.json_response))
     = ([Load (JStr "https://play.example/a.m3u8")],
        inr (mkMovieData ITUNES (JStr "Example Movie") 2021
               [mkPlaylistData (JStr "123")
                  (JStr "https://play.example/a.m3u8")])).
Proof. split; reflexivity. Qed.

(* ===================================================================== *)
(** ** The segment fetcher *)
(* ===================================================================== *)

Section Fetcher.

Import PlaylistDownloader.

Variable net : Net.

(** Resuming a task does not change what it finishes with. *)
Lemma result_of_step (t : task) :
  result_of net (step net t) = result_of net t.
Proof.
  destruct t as [u | data | r]; simpl; [| | reflexivity].
  - unfold _download_segment. destruct (session_get net u); reflexivity.
  - destruct (read data); reflexivity.
Qed.

Lemma results_of_step_at (i : nat) (tasks : list task) :
  map (result_of net) (step_at net i tasks) = map (result_of net) tasks.
Proof.
  revert i. induction tasks as [| t r IH]; intros [| i]; simpl;
    try reflexivity.
  - now rewrite result_of_step.
  - now rewrite IH.
Qed.

Lemma results_of_requests (uris : list string) :
  map (result_of net) (map Requesting uris)
  = map (_download_segment net) uris.
Proof. now rewrite map_map. Qed.

Lemma results_sound (tasks : list task) (l : list string) :
  results tasks = Some l -> map (result_of net) tasks = map inr l.
Proof.
  revert l. induction tasks as [| t r IH]; intros l H; simpl in H.
  - now injection H as <-.
  - destruct t as [u | data | [e | s]]; try discriminate H.
    destruct (results r) as [l' |]; [| discriminate H].
    injection H as <-. simpl. now rewrite (IH l').
Qed.

Lemma first_exception_sound (tasks : list task) (e : exc) :
  first_exception tasks = Some e -> In (inl e) (map (result_of net) tasks).
Proof.
  induction tasks as [| t r IH]; intros H; simpl in H; [discriminate H |].
  destruct t as [u | data | [e' | s]]; simpl; try (right; now apply IH).
  injection H as <-. now left.
Qed.

Lemma gather_ok (tasks : list task) (l : list string) :
  gather tasks = Some (inr l) -> map (result_of net) tasks = map inr l.
Proof.
  unfold gather. destruct (first_exception tasks); [discriminate |].
  destruct (results tasks) as [l' |] eqn:H; [| discriminate].
  intros [= <-]. now apply results_sound.
Qed.

Lemma gather_err (tasks : list task) (e : exc) :
  gather tasks = Some (inl e) -> In (inl e) (map (result_of net) tasks).
Proof.
  unfold gather. destruct (first_exception tasks) as [e' |] eqn:H.
  - intros [= <-]. now apply first_exception_sound.
  - destruct (results tasks); discriminate.
Qed.

(** The list that the loop returns is the list of the results of the
    tasks, in the order of the tasks, under every schedule. *)
Lemma run_until_complete_ok (schedule : list nat) (tasks : list task)
    (l : list string) :
  run_until_complete net schedule tasks = Some (inr l) ->
  map (result_of net) tasks = map inr l.
Proof.
  revert tasks. induction schedule as [| i rest IH]; intros tasks H;
    simpl in H; destruct (gather tasks) as [r |] eqn:Hg;
    try discriminate H.
  - injection H as ->. now apply gather_ok.
  - injection H as ->. now apply gather_ok.
  - rewrite <- (results_of_step_at i). now apply IH.
Qed.

(** The exception that the loop raises is the exception of a task. *)
Lemma run_until_complete_err (schedule : list nat) (tasks : list task)
    (e : exc) :
  run_until_complete net schedule tasks = Some (inl e) ->
  In (inl e) (map (result_of net) tasks).
Proof.
  revert tasks. induction schedule as [| i rest IH]; intros tasks H;
    simpl in H; destruct (gather tasks) as [r |] eqn:Hg;
    try discriminate H.
  - injection H as ->. now apply gather_err.
  - injection H as ->. now apply gather_err.
  - rewrite <- (results_of_step_at i). now apply IH.
Qed.

(** A schedule under which the loop does not end leaves a task that has
    not finished. *)
Lemma run_until_complete_none (schedule : list nat) (tasks : list task) :
  run_until_complete net schedule tasks = None ->
  gather (resume_all net schedule tasks) = None.
Proof.
  revert tasks. induction schedule as [| i rest IH]; intros tasks H;
    simpl in H; destruct (gather tasks) as [r |] eqn:Hg;
    try discriminate H.
  - exact Hg.
  - now apply IH.
Qed.

Lemma step_at_app (done : list task) (t : task) (rest : list task) :
  step_at net (length done) (done ++ t :: rest)
  = done ++ step net t :: rest.
Proof. induction done as [| d done IH]; simpl; [| rewrite IH]; reflexivity. Qed.

Lemma resume_all_in_turn (done tasks : list task) :
  resume_all net (in_turn (length done) (length tasks)) (done ++ tasks)
  = done ++ map (fun t => step net (step net t)) tasks.
Proof.
  revert done. induction tasks as [| t rest IH]; intros done;
    [reflexivity |].
  cbn [length in_turn resume_all fold_left].
  rewrite !step_at_app.
  specialize (IH (done ++ [step net (step net t)])).
  rewrite length_app, Nat.add_1_r, <- !app_assoc in IH.
  exact IH.
Qed.

Lemma step_twice_finished (t : task) :
  exists r, step net (step net t) = Finished r.
Proof.
  destruct t as [u | data | r]; simpl; [| | now exists r].
  - destruct (session_get net u) as [e | data]; simpl; [now eexists |].
    destruct (read data); now eexists.
  - destruct (read data); now eexists.
Qed.

Lemma gather_all_finished (tasks : list task) :
  Forall (fun t => exists r, t = Finished r) tasks -> gather tasks <> None.
Proof.
  unfold gather. intros H.
  destruct (first_exception tasks) eqn:He; [discriminate |].
  assert (results tasks <> None) as Hr.
  { induction H as [| t r [[e | s] ->] _ IH]; simpl in *; try discriminate.
    destruct (results r); [discriminate | now apply IH]. }
  destruct (results tasks); [discriminate | contradiction].
Qed.

(** Under the schedule that runs the tasks one after the other, the loop
    ends. *)
Lemma run_until_complete_in_turn (tasks : list task) :
  run_until_complete net (in_turn 0 (length tasks)) tasks <> None.
Proof.
  intros H. apply run_until_complete_none in H. revert H.
  pose proof (resume_all_in_turn [] tasks) as E.
  cbn [length app] in E. rewrite E. apply gather_all_finished.
  apply List.Forall_forall. intros t Ht.
  apply List.in_map_iff in Ht as (t0 & <- & _).
  apply step_twice_finished.
Qed.

End Fetcher.

Section Downloader.

Import PlaylistDownloader.

Variable net : Net.
Variable cls : SubtitlesClass.

(** Two schedules under which the loop returns give the same segments. *)
Lemma run_until_complete_deterministic (s1 s2 : list nat)
    (tasks : list task) (l1 l2 : list string) :
  run_until_complete net s1 tasks = Some (inr l1) ->
  run_until_complete net s2 tasks = Some (inr l2) ->
  l1 = l2.
Proof.
  intros H1 H2.
  apply run_until_complete_ok in H1. apply run_until_complete_ok in H2.
  rewrite H1 in H2. clear H1. revert l2 H2.
  induction l1 as [| a l1 IH]; intros [| b l2] H; try discriminate H;
    [reflexivity |].
  simpl in H. injection H as -> H. f_equal. now apply IH.
Qed.

(** The loop does not return under a schedule and raise under another. *)
Lemma run_until_complete_ok_err (s1 s2 : list nat) (tasks : list task)
    (l : list string) (e : exc) :
  run_until_complete net s1 tasks = Some (inr l) ->
  run_until_complete net s2 tasks = Some (inl e) ->
  False.
Proof.
  intros H1 H2.
  apply run_until_complete_ok in H1. apply run_until_complete_err in H2.
  rewrite H1 in H2. apply List.in_map_iff in H2 as (s & H & _).
  discriminate H.
Qed.

(** C1. The segments that [get_subtitles] merges are the texts of the
    segments of the playlist, in the order of the playlist, under every
    schedule of the downloads. Two schedules give the same document, or
    an exception each; and there is a schedule under which
    [get_subtitles] ends. *)
Theorem get_subtitles_independent_of_completion_order :
  (forall (subtitles_data : SubtitlesData) (uris : list string)
          (schedule : list nat) (segments : list string),
      playlist_segments net (playlist_url subtitles_data) = inr uris ->
      run_until_complete net schedule (map Requesting uris)
      = Some (inr segments) ->
      map (_download_segment net) uris = map inr segments
      /\ get_subtitles net cls schedule subtitles_data
         = Some (merge cls (init cls (language_code subtitles_data))
                   segments))
  /\ (forall (subtitles_data : SubtitlesData) (s1 s2 : list nat)
             (r1 r2 : exc + Subtitles cls),
         get_subtitles net cls s1 subtitles_data = Some r1 ->
         get_subtitles net cls s2 subtitles_data = Some r2 ->
         match r1, r2 with
         | inr d1, inr d2 => d1 = d2
         | inl _, inl _ => True
         | _, _ => False
         end)
  /\ (forall subtitles_data : SubtitlesData,
         exists schedule,
           get_subtitles net cls schedule subtitles_data <> None).
Proof.
  split; [| split].
  - intros data uris schedule segments Hp Hrun. split.
    + rewrite <- results_of_requests.
      now apply run_until_complete_ok with (schedule := schedule).
    + unfold get_subtitles. now rewrite Hp, Hrun.
  - intros data s1 s2 r1 r2. unfold get_subtitles.
    destruct (playlist_segments net (playlist_url data)) as [e | uris].
    + intros [= <-] [= <-]. exact I.
    + destruct (run_until_complete net s1 (map Requesting uris))
        as [[e1 | l1] |] eqn:H1; try discriminate;
        destruct (run_until_complete net s2 (map Requesting uris))
        as [[e2 | l2] |] eqn:H2; try discriminate;
        intros [= <-] [= <-].
      * exact I.
      * destruct (run_until_complete_ok_err _ _ _ _ _ H2 H1).
      * destruct (run_until_complete_ok_err _ _ _ _ _ H1 H2).
      * rewrite (run_until_complete_deterministic _ _ _ _ _ H1 H2).
        destruct (merge cls _ l2); reflexivity.
  - intros data. unfold get_subtitles.
    destruct (playlist_segments net (playlist_url data)) as [e | uris];
      [now exists [] |].
    exists (in_turn 0 (length (map Requesting uris))).
    pose proof (run_until_complete_in_turn net (map Requesting uris)) as H.
    destruct (run_until_complete net _ (map Requesting uris))
      as [[e | l] |]; [discriminate | discriminate | contradiction].
Qed.

End Downloader.

Lemma get_subtitles_independent_of_completion_order_witness :
  exists document,
    PlaylistDownloader.get_subtitles Examples.net_ok Model.subtitles
      Examples.in_order Examples.track = Some (inr document)
    /\ PlaylistDownloader.get_subtitles Examples.net_ok Model.subtitles
         Examples.last_first Examples.track
       = Some (inr [["00:00:01.000 --> 00:00:02.000"; "Hello"];
                    ["00:00:03.000 --> 00:00:04.000"; "to you"];
                    ["00:00:05.000 --> 00:00:06.000"; "Goodbye"]])
    /\ document = [["00:00:01.000 --> 00:00:02.000"; "Hello"];
                   ["00:00:03.000 --> 00:00:04.000"; "to you"];
                   ["00:00:05.000 --> 00:00:06.000"; "Goodbye"]].
Proof.
  eexists. split; [vm_compute; reflexivity |].
  split; [vm_compute; reflexivity |].
  refine (proj1 (proj2 (get_subtitles_independent_of_completion_order
                          Examples.net_ok Model.subtitles))
            Examples.track Examples.in_order Examples.last_first
            (inr _) (inr _) _ _);
    vm_compute; reflexivity.
Defined.

(* ===================================================================== *)
(** ** The status of a response *)
(* ===================================================================== *)

Section Status.

Import PlaylistDownloader.

Variable net : Net.
Variable f : string -> Z.

(** Two tasks that stand at the same place, with the same body to read. *)
Inductive same_task : task -> task -> Prop :=
| same_requesting u : same_task (Requesting u) (Requesting u)
| same_reading d d' : read d = read d' -> same_task (Reading d) (Reading d')
| same_finished r : same_task (Finished r) (Finished r).

Lemma same_task_step (t t' : task) :
  same_task t t' -> same_task (step (with_status f net) t) (step net t').
Proof.
  intros [u | d d' Hd | r]; simpl.
  - destruct (session_get net u); now constructor.
  - rewrite Hd. destruct (read d'); constructor.
  - constructor.
Qed.

Lemma same_task_step_at (i : nat) (ts ts' : list task) :
  Forall2 same_task ts ts' ->
  Forall2 same_task (step_at (with_status f net) i ts) (step_at net i ts').
Proof.
  intros H. revert i.
  induction H as [| t t' ts ts' Ht H IH]; intros [| i]; simpl;
    constructor; auto using same_task_step.
Qed.

Lemma same_task_gather (ts ts' : list task) :
  Forall2 same_task ts ts' -> gather ts = gather ts'.
Proof.
  intros H. unfold gather.
  assert (first_exception ts = first_exception ts') as ->.
  { induction H as [| t t' ts ts' [u | d d' Hd | [e | s]] H IH]; simpl;
      auto. }
  assert (results ts = results ts') as ->; [| reflexivity].
  induction H as [| t t' ts ts' [u | d d' Hd | [e | s]] H IH]; simpl; auto.
  now rewrite IH.
Qed.

Lemma same_task_run (schedule : list nat) (ts ts' : list task) :
  Forall2 same_task ts ts' ->
  run_until_complete (with_status f net) schedule ts
  = run_until_complete net schedule ts'.
Proof.
  revert ts ts'. induction schedule as [| i rest IH]; intros ts ts' H;
    simpl; rewrite (same_task_gather ts ts' H); [reflexivity |].
  destruct (gather ts'); [reflexivity |].
  apply IH. now apply same_task_step_at.
Qed.

Lemma same_task_requests (uris : list string) :
  Forall2 same_task (map Requesting uris) (map Requesting uris).
Proof. induction uris; simpl; constructor; [constructor | assumption]. Qed.

(** No line of the downloader looks at the status of a response: with
    other statuses, [get_subtitles] and [download_subtitles] do the
    same. *)
Lemma get_subtitles_with_status (cls : SubtitlesClass)
    (schedule : list nat) (subtitles_data : SubtitlesData) :
  get_subtitles (with_status f net) cls schedule subtitles_data
  = get_subtitles net cls schedule subtitles_data.
Proof.
  unfold get_subtitles. simpl.
  destruct (playlist_segments net (playlist_url subtitles_data));
    [reflexivity |].
  now rewrite (same_task_run schedule _ _ (same_task_requests _)).
Qed.

Lemma download_subtitles_with_status (cls : SubtitlesClass)
    (format_title : string -> string) (schedule : list nat)
    (files : gmap string string) (movie_data : MovieData)
    (subtitles_data : SubtitlesData) (output_dir : string)
    (file_format : SubtitlesFormat) :
  download_subtitles (with_status f net) cls format_title schedule files
    movie_data subtitles_data output_dir file_format
  = download_subtitles net cls format_title schedule files movie_data
      subtitles_data output_dir file_format.
Proof.
  unfold download_subtitles. rewrite get_subtitles_with_status.
  reflexivity.
Qed.

End Status.

(* ===================================================================== *)
(** ** A download that fails *)
(* ===================================================================== *)

(** C2, as the code has it. When the download of a segment raises, for a
    failure of the transport or of the decoding, [download_subtitles]
    raises under every schedule of the downloads, and writes nothing:
    the file, which is opened before the downloads start, is left empty;
    and there is a schedule under which [download_subtitles] ends. The
    status of a response is not looked at: with any other statuses the
    result and the files are the same. *)
Theorem download_subtitles_fails_when_a_segment_raises
    (net : PlaylistDownloader.Net)
    (cls : PlaylistDownloader.SubtitlesClass) (format_title : string -> string)
    (files : gmap string string) (movie_data : MovieData)
    (subtitles_data : SubtitlesData) (output_dir : string)
    (file_format : SubtitlesFormat) :
  (forall (movie_title : string) (uris : list string)
          (segment_url : string) (e : exc),
      let path :=
        PlaylistDownloader.os_path_join output_dir
          (PlaylistDownloader._format_file_name format_title movie_title
             (release_year movie_data)
             (PlaylistDownloader.format_opt (language_code subtitles_data))
             (subtitles_type subtitles_data) file_format) in
      name movie_data = JStr movie_title ->
      PlaylistDownloader.can_open net path = true ->
      PlaylistDownloader.playlist_segments net (playlist_url subtitles_data)
      = inr uris ->
      In segment_url uris ->
      PlaylistDownloader._download_segment net segment_url = inl e ->
      (forall schedule files' r,
          PlaylistDownloader.download_subtitles net cls format_title schedule
            files movie_data subtitles_data output_dir file_format
          = Some (files', r) ->
          (exists e', r = inl e') /\ files' = <[path := ""]> files)
      /\ (exists schedule,
             PlaylistDownloader.download_subtitles net cls format_title
               schedule files movie_data subtitles_data output_dir
               file_format
             <> None))
  /\ (forall (f : string -> Z) (schedule : list nat),
         PlaylistDownloader.download_subtitles
           (PlaylistDownloader.with_status f net) cls format_title schedule
           files movie_data subtitles_data output_dir file_format
         = PlaylistDownloader.download_subtitles net cls format_title
             schedule files movie_data subtitles_data output_dir
             file_format).
Proof.
  split; [| intros f schedule; apply download_subtitles_with_status].
  intros movie_title uris segment_url e path Hname Hopen Hplaylist Hin Hfail.
  assert (forall schedule l,
             PlaylistDownloader.run_until_complete net schedule
               (map PlaylistDownloader.Requesting uris) <> Some (inr l))
    as Hnever.
  { intros schedule l H. apply run_until_complete_ok in H.
    rewrite results_of_requests in H.
    assert (In (inl e) (map (PlaylistDownloader._download_segment net) uris))
      as Hin' by (rewrite <- Hfail; now apply in_map).
    rewrite H in Hin'. apply List.in_map_iff in Hin' as (s & Hs & _).
    discriminate Hs. }
  unfold PlaylistDownloader.download_subtitles,
    PlaylistDownloader.get_subtitles.
  rewrite Hname. fold path. rewrite Hopen, Hplaylist. split.
  - intros schedule files' r.
    destruct (PlaylistDownloader.run_until_complete net schedule
                (map PlaylistDownloader.Requesting uris))
      as [[e' | l] |] eqn:Hrun.
    + intros [= <- <-]. split; [now exists e' | reflexivity].
    + destruct (Hnever _ _ Hrun).
    + discriminate.
  - exists (PlaylistDownloader.in_turn 0
              (length (map PlaylistDownloader.Requesting uris))).
    pose proof (run_until_complete_in_turn net
                  (map PlaylistDownloader.Requesting uris)) as Hend.
    destruct (PlaylistDownloader.run_until_complete net _
                (map PlaylistDownloader.Requesting uris))
      as [[e' | l] |] eqn:Hrun.
    + discriminate.
    + destruct (Hnever _ _ Hrun).
    + contradiction.
Qed.

Lemma download_subtitles_fails_when_a_segment_raises_witness :
  exists files' r,
    PlaylistDownloader.download_subtitles Examples.net_not_utf8
      Model.subtitles Model.format_title Examples.last_first ∅
      Examples.movie Examples.track "/out" VTT
    = Some (files', r)
    /\ (exists e', r = inl e')
    /\ files' = <[Examples.output_path := ""]> ∅.
Proof.
  exists (<[Examples.output_path := ""]> ∅), (inl UnicodeDecodeError).
  split; [reflexivity |].
  refine (proj1 (proj1 (download_subtitles_fails_when_a_segment_raises
                          Examples.net_not_utf8 Model.subtitles
                          Model.format_title ∅ Examples.movie Examples.track
                          "/out" VTT)
                   "Example Movie" Examples.segment_uris
                   "https://cdn.example/en/seg1.webvtt" UnicodeDecodeError
                   _ _ _ _ _)
            Examples.last_first _ _ _).
  - reflexivity.
  - reflexivity.
  - reflexivity.
  - simpl. right. left. reflexivity.
  - reflexivity.
  - reflexivity.
Defined.

(** The segment in the middle is answered with the status 404. With the
    text of the segment as the body, nothing raises and the file gets the
    whole document; with the page of the error as the body, nothing
    raises and the file gets the document of the two other segments. *)
Lemma download_subtitles_writes_document_after_404 :
  (exists files',
      PlaylistDownloader.download_subtitles Examples.net_not_found_with_text
        Model.subtitles Model.format_title Examples.in_order ∅
        Examples.movie Examples.track "/out" VTT
      = Some (files', inr Examples.output_path)
      /\ files' !! Examples.output_path = Some Examples.whole_document)
  /\ (exists files',
         PlaylistDownloader.download_subtitles Examples.net_not_found
           Model.subtitles Model.format_title Examples.in_order ∅
           Examples.movie Examples.track "/out" VTT
         = Some (files', inr Examples.output_path)
         /\ files' !! Examples.output_path
            = Some Examples.document_without_middle).
Proof.
  split.
  - exists (<[Examples.output_path := Examples.whole_document]>
              (<[Examples.output_path := ""]> ∅)).
    split; [reflexivity | apply lookup_insert_eq].
  - exists (<[Examples.output_path := Examples.document_without_middle]>
              (<[Examples.output_path := ""]> ∅)).
    split; [reflexivity | apply lookup_insert_eq].
Qed.

(** The connection of the segment in the middle fails: the exception of
    the session leaves [download_subtitles], and the file is empty. *)
Example download_subtitles_after_transport_failure :
  PlaylistDownloader.download_subtitles Examples.net_broken Model.subtitles
    Model.format_title Examples.in_order ∅ Examples.movie Examples.track
    "/out" VTT
  = Some (<[Examples.output_path := ""]> ∅, inl ClientError).
Proof. reflexivity. Qed.

(* ===================================================================== *)
(** ** [get_movie_data]: which strategy reads a response *)
(* ===================================================================== *)

Lemma lift_ok {A} (a : A) : Scraper.lift (inr a) = ret a.
Proof. reflexivity. Qed.

Lemma lift_err {A} (e : exc) : @Scraper.lift A (inl e) = raise e.
Proof. reflexivity. Qed.

(** A status that passes [raise_for_status] is not 404. *)
Lemma raise_for_status_ok (request : Response) :
  Scraper.raise_for_status request = ret tt ->
  (status_code request =? 404) = false.
Proof.
  unfold Scraper.raise_for_status. intros H.
  destruct (status_code request =? 404) eqn:E; [| reflexivity].
  apply Z.eqb_eq in E. rewrite E in H. discriminate H.
Qed.

(** X1. For an iTunes URL, a response that passes [raise_for_status] and
    is declared as HTML, and not as JSON, is always read by the HTML
    strategy: the test of the status 404 of line 63 never sends such a
    response to the error of line 70. *)
Theorem html_response_is_read_by_html_strategy (w : World)
    (movie_url group1 ct : string)
    (headers : option (list (string * string))) (request : Response) :
  itunes_fullmatch w movie_url = Some group1 ->
  requests_get w group1 headers [] = inr request ->
  Scraper.raise_for_status request = ret tt ->
  content_type request = Some ct ->
  Str.contains "application/json" ct = false ->
  Str.contains "text/html" ct = true ->
  Scraper.get_movie_data w movie_url headers
  = Scraper._find_playlist_data_itunes_html_ w
      (BeautifulSoup w (content request)).
Proof.
  intros Hmatch Hget Hstatus Hct Hjson Hhtml.
  unfold Scraper.get_movie_data. rewrite Hmatch, Hget, lift_ok, bind_ret_l.
  rewrite Hstatus, bind_ret_l.
  unfold Scraper.header_content_type. rewrite Hct, bind_ret_l, Hjson.
  rewrite bind_ret_l, Hhtml, (raise_for_status_ok _ Hstatus).
  reflexivity.
Qed.

Lemma html_response_is_read_by_html_strategy_witness :
  Scraper.get_movie_data
    (Examples.world Examples.all_valid Examples.html_response
       Examples.page_loads Examples.page_soup)
    "https://itunes.apple.com/us/movie/example/id123" None
  = Scraper._find_playlist_data_itunes_html_
      (Examples.world Examples.all_valid Examples.html_response
         Examples.page_loads Examples.page_soup)
      Examples.page_soup.
Proof.
  apply (html_response_is_read_by_html_strategy
           (Examples.world Examples.all_valid Examples.html_response
              Examples.page_loads Examples.page_soup)
           "https://itunes.apple.com/us/movie/example/id123"
           "https://itunes.apple.com/us/movie/example/id123"
           "text/html; charset=utf-8" None Examples.html_response);
    reflexivity.
Defined.

(** X2. The errors of [get_movie_data] before a strategy runs, none of
    which loads a playlist. A URL that matches neither pattern raises
    [InvalidURL]. For an iTunes URL, an exception of the request leaves
    the function; a status from 400 to 599 raises the [HTTPError] of
    [requests], whatever the content is; a response with no content type
    raises [KeyError]; a response that is neither JSON nor HTML raises
    [PageLoadError]. For a JSON response that [json.loads] does not
    read, the [JSONDecodeError] of a text that is not JSON becomes
    [PageLoadError], and any other exception of [json.loads], such as the
    [UnicodeDecodeError] of bytes that do not decode, leaves the function
    as it is: line 57 catches [json.JSONDecodeError] only. *)
Theorem get_movie_data_errors (w : World) (movie_url : string)
    (headers : option (list (string * string))) :
  (itunes_fullmatch w movie_url = None ->
   appletv_fullmatch w movie_url = None ->
   Scraper.get_movie_data w movie_url headers = raise InvalidURL)
  /\ (forall group1 e,
         itunes_fullmatch w movie_url = Some group1 ->
         requests_get w group1 headers [] = inl e ->
         Scraper.get_movie_data w movie_url headers = raise e)
  /\ (forall group1 request,
         itunes_fullmatch w movie_url = Some group1 ->
         requests_get w group1 headers [] = inr request ->
         400 <= status_code request < 600 ->
         Scraper.get_movie_data w movie_url headers
         = raise RequestsHTTPError)
  /\ (forall group1 request,
         itunes_fullmatch w movie_url = Some group1 ->
         requests_get w group1 headers [] = inr request ->
         Scraper.raise_for_status request = ret tt ->
         content_type request = None ->
         Scraper.get_movie_data w movie_url headers = raise KeyError)
  /\ (forall group1 request ct,
         itunes_fullmatch w movie_url = Some group1 ->
         requests_get w group1 headers [] = inr request ->
         Scraper.raise_for_status request = ret tt ->
         content_type request = Some ct ->
         Str.contains "application/json" ct = true ->
         json_loads w (content request) = None ->
         Scraper.get_movie_data w movie_url headers
         = if issubclass (json_loads_error w (content request))
                         JSONDecodeError
           then raise PageLoadError
           else raise (json_loads_error w (content request)))
  /\ (forall group1 request ct,
         itunes_fullmatch w movie_url = Some group1 ->
         requests_get w group1 headers [] = inr request ->
         Scraper.raise_for_status request = ret tt ->
         content_type request = Some ct ->
         Str.contains "application/json" ct = false ->
         Str.contains "text/html" ct = false ->
         Scraper.get_movie_data w movie_url headers = raise PageLoadError).
Proof.
  unfold Scraper.get_movie_data. repeat split.
  - intros -> ->. reflexivity.
  - intros group1 e -> ->. reflexivity.
  - intros group1 request -> -> Hstatus. rewrite lift_ok, bind_ret_l.
    unfold Scraper.raise_for_status.
    assert ((400 <=? status_code request) && (status_code request <? 600)
            = true) as ->; [| reflexivity].
    apply andb_true_intro. split; [apply Z.leb_le | apply Z.ltb_lt]; lia.
  - intros group1 request -> -> Hstatus Hct.
    rewrite lift_ok, bind_ret_l, Hstatus, bind_ret_l.
    unfold Scraper.header_content_type. rewrite Hct. reflexivity.
  - intros group1 request ct -> -> Hstatus Hct Hjson Hloads.
    rewrite lift_ok, bind_ret_l, Hstatus, bind_ret_l.
    unfold Scraper.header_content_type.
    rewrite Hct, bind_ret_l, Hjson.
    unfold Scraper.json_loads_bytes.
    rewrite Hloads, try_except_raise. cbn [existsb].
    rewrite orb_false_r.
    destruct (issubclass (json_loads_error w (content request))
                         JSONDecodeError); reflexivity.
  - intros group1 request ct -> -> Hstatus Hct Hjson Hhtml.
    rewrite lift_ok, bind_ret_l, Hstatus, bind_ret_l.
    unfold Scraper.header_content_type.
    rewrite Hct, bind_ret_l, Hjson, bind_ret_l, Hhtml. reflexivity.
Qed.

Lemma get_movie_data_errors_witness :
  Scraper.get_movie_data
    (Examples.world Examples.all_valid Examples.json_response
       Examples.no_json [])
    "https://example.org/movie" None
  = raise InvalidURL
  /\ Scraper.get_movie_data
       (Examples.world Examples.all_valid Examples.unavailable_response
          Examples.page_loads Examples.page_soup)
       "https://itunes.apple.com/us/movie/example/id123" None
     = raise RequestsHTTPError
  /\ Scraper.get_movie_data
       (Examples.world Examples.all_valid Examples.not_json_response
          Examples.no_json [])
       "https://itunes.apple.com/us/movie/example/id123" None
     = raise PageLoadError
  /\ Scraper.get_movie_data
       (Examples.world Examples.all_valid Examples.undecodable_response
          Examples.no_json [])
       "https://itunes.apple.com/us/movie/example/id123" None
     = raise UnicodeDecodeError
  /\ Scraper.get_movie_data
       (Examples.world Examples.all_valid Examples.xml_response
          Examples.no_json [])
       "https://itunes.apple.com/us/movie/example/id123" None
     = raise PageLoadError.
Proof.
  split; [| split; [| split; [| split]]].
  - apply (proj1 (get_movie_data_errors
                    (Examples.world Examples.all_valid Examples.json_response
                       Examples.no_json [])
                    "https://example.org/movie" None)); reflexivity.
  - apply (proj1 (proj2 (proj2 (get_movie_data_errors
                    (Examples.world Examples.all_valid
                       Examples.unavailable_response Examples.page_loads
                       Examples.page_soup)
                    "https://itunes.apple.com/us/movie/example/id123" None)))
             "https://itunes.apple.com/us/movie/example/id123"
             Examples.unavailable_response);
      [reflexivity | reflexivity | simpl; lia].
  - apply (proj1 (proj2 (proj2 (proj2 (proj2 (get_movie_data_errors
                    (Examples.world Examples.all_valid
                       Examples.not_json_response Examples.no_json [])
                    "https://itunes.apple.com/us/movie/example/id123"
                    None)))))
             "https://itunes.apple.com/us/movie/example/id123"
             Examples.not_json_response "application/json; charset=utf-8");
      reflexivity.
  - apply (proj1 (proj2 (proj2 (proj2 (proj2 (get_movie_data_errors
                    (Examples.world Examples.all_valid
                       Examples.undecodable_response Examples.no_json [])
                    "https://itunes.apple.com/us/movie/example/id123"
                    None)))))
             "https://itunes.apple.com/us/movie/example/id123"
             Examples.undecodable_response
             "application/json; charset=utf-8");
      reflexivity.
  - apply (proj2 (proj2 (proj2 (proj2 (proj2 (get_movie_data_errors
                    (Examples.world Examples.all_valid Examples.xml_response
                       Examples.no_json [])
                    "https://itunes.apple.com/us/movie/example/id123"
                    None)))))
             "https://itunes.apple.com/us/movie/example/id123"
             Examples.xml_response "text/xml");
      reflexivity.
Defined.

(** X3. For an AppleTV URL the storefront of the URL is looked up in
    upper case: two URLs of which the storefronts differ by letter case
    only give the same result; a storefront that the table does not have
    raises [KeyError], and an exception of the reading of the table
    leaves the function, in both cases before any request. *)
Theorem appletv_storefront_lookup (w : World)
    (headers : option (list (string * string))) :
  (forall url1 url2 group2 group2' group3,
      itunes_fullmatch w url1 = None ->
      itunes_fullmatch w url2 = None ->
      appletv_fullmatch w url1 = Some (group2, group3) ->
      appletv_fullmatch w url2 = Some (group2', group3) ->
      Str.upper group2 = Str.upper group2' ->
      Scraper.get_movie_data w url1 headers
      = Scraper.get_movie_data w url2 headers)
  /\ (forall movie_url group2 group3 table,
         itunes_fullmatch w movie_url = None ->
         appletv_fullmatch w movie_url = Some (group2, group3) ->
         atv_storefronts w = inr (JObj table) ->
         Dyn.assoc (Str.upper group2) table = None ->
         Scraper.get_movie_data w movie_url headers = raise KeyError)
  /\ (forall movie_url groups e,
         itunes_fullmatch w movie_url = None ->
         appletv_fullmatch w movie_url = Some groups ->
         atv_storefronts w = inl e ->
         Scraper.get_movie_data w movie_url headers = raise e).
Proof.
  unfold Scraper.get_movie_data. repeat split.
  - intros url1 url2 group2 group2' group3 -> -> -> -> ->. reflexivity.
  - intros movie_url group2 group3 table -> -> -> Hmissing.
    rewrite lift_ok, bind_ret_l. cbn [Dyn.getitem]. rewrite Hmissing.
    reflexivity.
  - intros movie_url [group2 group3] e -> -> ->. reflexivity.
Qed.

Lemma appletv_storefront_lookup_witness :
  Scraper.get_movie_data Examples.appletv_world
    "https://tv.apple.com/us/movie/example/umc.cmc.example" None
  = Scraper.get_movie_data Examples.appletv_world
      "https://tv.apple.com/US/movie/example/umc.cmc.example" None
  /\ Scraper.get_movie_data Examples.appletv_world
       "https://tv.apple.com/xx/movie/example/umc.cmc.example" None
     = raise KeyError.
Proof.
  split.
  - apply (proj1 (appletv_storefront_lookup Examples.appletv_world None)
             _ _ "us" "US" "umc.cmc.example");
      reflexivity.
  - apply (proj1 (proj2 (appletv_storefront_lookup Examples.appletv_world
                           None))
             _ "xx" "umc.cmc.example" [("US", JStr "143441")]);
      reflexivity.
Defined.

(* ===================================================================== *)
(** ** Every playlist that is returned has been validated *)
(* ===================================================================== *)

Lemma bind_inv {A B} (m : M A) (k : A -> M B) (log : list event) (b : B) :
  bind m k = (log, inr b) ->
  exists l1 a l2, m = (l1, inr a) /\ k a = (l2, inr b) /\ log = l1 ++ l2.
Proof.
  destruct m as [l1 [e | a]]; [discriminate |].
  rewrite bind_ok. destruct (k a) as [l2 r] eqn:Hk. simpl.
  intros [= <- ->]. now exists l1, a, l2.
Qed.

(** The same for a first computation that loads nothing. *)
Lemma bind_pure_inv {A B} (m : M A) (k : A -> M B) (log : list event)
    (b : B) :
  log_of m = [] ->
  bind m k = (log, inr b) ->
  exists a, outcome m = inr a /\ k a = (log, inr b).
Proof.
  intros Hpure H. rewrite (bind_pure _ _ Hpure) in H.
  destruct (outcome m) as [e | a]; [discriminate H | now exists a].
Qed.

Lemma itunes_json_offer_type_ok_pure (offer : json) :
  log_of (Scraper.itunes_json_offer_type_ok offer) = [].
Proof. unfold Scraper.itunes_json_offer_type_ok. pure. Qed.

Lemma itunes_json_offer_assets_ok_pure (offer : json) :
  log_of (Scraper.itunes_json_offer_assets_ok offer) = [].
Proof. unfold Scraper.itunes_json_offer_assets_ok. pure. Qed.

Lemma itunes_html_item_is_offer_pure (it : json) :
  log_of (Scraper.itunes_html_item_is_offer it) = [].
Proof. unfold Scraper.itunes_html_item_is_offer. pure. Qed.

Lemma itunes_html_item_assets_ok_pure (it : json) :
  log_of (Scraper.itunes_html_item_assets_ok it) = [].
Proof. unfold Scraper.itunes_html_item_assets_ok. pure. Qed.

Lemma strptime_year_pure (v : json) :
  log_of (Datetime.strptime_year v) = [].
Proof.
  unfold Datetime.strptime_year.
  repeat match goal with
         | |- log_of (match ?x with _ => _ end) = [] => destruct x
         | |- log_of (if ?b then _ else _) = [] => destruct b
         end; reflexivity.
Qed.

#[export] Hint Resolve itunes_json_offer_type_ok_pure
  itunes_json_offer_assets_ok_pure itunes_html_item_is_offer_pure
  itunes_html_item_assets_ok_pure strptime_year_pure : pure.

Lemma itunes_json_header_pure (json_data : json) :
  log_of (Scraper.itunes_json_header json_data) = [].
Proof. unfold Scraper.itunes_json_header. pure. Qed.

Lemma appletv_release_year_pure (w : World) (v : json) :
  log_of (Scraper.appletv_release_year w v) = [].
Proof.
  unfold Scraper.appletv_release_year, Scraper.floordiv,
    Datetime.fromtimestamp_year, Datetime.year_of_epoch_delta.
  apply bind_pure_log; [destruct v; reflexivity |].
  intros a.
  repeat match goal with
         | |- log_of (if ?b then _ else _) = [] => destruct b
         | |- log_of (match ?x with _ => _ end) = [] => destruct x
         end; reflexivity.
Qed.

#[export] Hint Resolve itunes_json_header_pure appletv_release_year_pure
  : pure.

Lemma appletv_json_header_pure (w : World) (json_data : json) :
  log_of (Scraper.appletv_json_header w json_data) = [].
Proof. unfold Scraper.appletv_json_header. pure. Qed.

#[export] Hint Resolve appletv_json_header_pure : pure.

Lemma one_validated_entry_later (w : World) (ev : event) (log : list event)
    (title : json) (year : Z) (id : json) (md : MovieData) :
  Scraper.one_validated_entry w log title year id md ->
  Scraper.one_validated_entry w (ev :: log) title year id md.
Proof.
  intros (u & H1 & H2 & H3). exists u. repeat split; try assumption.
  now right.
Qed.

Lemma itunes_json_assets_validated (w : World) (title : json) (year : Z)
    (id : json) (assets : list json) (log : list event) (md : MovieData) :
  Scraper.itunes_json_assets w title year id assets = (log, inr (Some md)) ->
  Scraper.one_validated_entry w log title year id md.
Proof.
  revert log. induction assets as [| asset rest IH]; intros log;
    [discriminate |].
  rewrite itunes_json_assets_cons.
  destruct (outcome (Scraper.item asset "hlsUrl")) as [e | u];
    [discriminate |].
  destruct (m3u8_load w u) as [e |] eqn:Hload.
  - destruct (Scraper.caught e); [| discriminate].
    destruct (Scraper.itunes_json_assets w title year id rest) as [l r].
    simpl. intros [= <- ->]. now apply one_validated_entry_later, IH.
  - intros [= <- <-]. exists u. repeat split; [assumption | now left].
Qed.

Lemma itunes_html_assets_validated (w : World) (title : json) (year : Z)
    (id it : json) (assets : list json) (log : list event)
    (md : MovieData) :
  Scraper.itunes_html_assets w title year id it assets
  = (log, inr (Some md)) ->
  Scraper.one_validated_entry w log title year id md.
Proof.
  revert log. induction assets as [| asset rest IH]; intros log;
    [discriminate |].
  rewrite itunes_html_assets_cons.
  destruct (outcome (Scraper.itunes_html_asset_ok asset)) as [e | [|]];
    [discriminate | | apply IH].
  destruct (outcome (Scraper.first_hls_url it)) as [e | u];
    [discriminate |].
  destruct (m3u8_load w u) as [e |] eqn:Hload.
  - destruct (Scraper.caught e); [| discriminate].
    destruct (Scraper.itunes_html_assets w title year id it rest) as [l r].
    simpl. intros [= <- ->]. now apply one_validated_entry_later, IH.
  - intros [= <- <-]. exists u. repeat split; [assumption | now left].
Qed.

Lemma one_validated_entry_app (w : World) (l1 l2 : list event)
    (title : json) (year : Z) (id : json) (md : MovieData) :
  Scraper.one_validated_entry w l2 title year id md ->
  Scraper.one_validated_entry w (l1 ++ l2) title year id md.
Proof.
  intros (u & H1 & H2 & H3). exists u. repeat split; try assumption.
  apply in_or_app. now right.
Qed.

Lemma itunes_json_offer_validated (w : World) (title : json) (year : Z)
    (id offer : json) (log : list event) (md : MovieData) :
  Scraper.itunes_json_offer w title year id offer = (log, inr (Some md)) ->
  Scraper.one_validated_entry w log title year id md.
Proof.
  unfold Scraper.itunes_json_offer. intros H.
  apply bind_pure_inv in H as ([|] & _ & H); [| discriminate H | pure].
  apply bind_pure_inv in H as ([|] & _ & H); [| discriminate H | pure].
  apply bind_pure_inv in H as (a & _ & H); [| pure].
  apply bind_pure_inv in H as (assets & _ & H); [| pure].
  now apply itunes_json_assets_validated in H.
Qed.

Lemma itunes_json_offers_validated (w : World) (title : json) (year : Z)
    (id : json) (offers : list json) (log : list event) (md : MovieData) :
  Scraper.itunes_json_offers w title year id offers = (log, inr (Some md)) ->
  Scraper.one_validated_entry w log title year id md.
Proof.
  revert log. induction offers as [| offer rest IH]; intros log;
    [discriminate |].
  cbn [Scraper.itunes_json_offers]. intros H.
  apply bind_inv in H as (l1 & r & l2 & H1 & H2 & ->).
  destruct r as [md' |].
  - injection H2 as <- <-. rewrite app_nil_r.
    now apply itunes_json_offer_validated in H1.
  - now apply one_validated_entry_app, IH.
Qed.

Lemma itunes_html_item_validated (w : World) (title : json) (year : Z)
    (id it : json) (log : list event) (md : MovieData) :
  Scraper.itunes_html_item w title year id it = (log, inr (Some md)) ->
  Scraper.one_validated_entry w log title year id md.
Proof.
  unfold Scraper.itunes_html_item. intros H.
  apply bind_pure_inv in H as ([|] & _ & H); [| discriminate H | pure].
  apply bind_pure_inv in H as ([|] & _ & H); [| discriminate H | pure].
  apply bind_pure_inv in H as (a & _ & H); [| pure].
  apply bind_pure_inv in H as (a' & _ & H); [| pure].
  apply bind_pure_inv in H as (assets & _ & H); [| pure].
  now apply itunes_html_assets_validated in H.
Qed.

Lemma itunes_html_items_validated (w : World) (title : json) (year : Z)
    (id : json) (items : list json) (log : list event) (md : MovieData) :
  Scraper.itunes_html_items w title year id items = (log, inr (Some md)) ->
  Scraper.one_validated_entry w log title year id md.
Proof.
  revert log. induction items as [| it rest IH]; intros log;
    [discriminate |].
  cbn [Scraper.itunes_html_items]. intros H.
  apply bind_inv in H as (l1 & r & l2 & H1 & H2 & ->).
  destruct r as [md' |].
  - injection H2 as <- <-. rewrite app_nil_r.
    now apply itunes_html_item_validated in H1.
  - now apply one_validated_entry_app, IH.
Qed.

Lemma appletv_offers_validated (w : World) (id : json) (offers : list json)
    (log : list event) (p : PlaylistData) :
  Scraper.appletv_offers w id offers = (log, inr (Some p)) ->
  itunes_id p = id /\ Scraper.validated w log p.
Proof.
  revert log. induction offers as [| offer rest IH]; intros log;
    [discriminate |].
  rewrite appletv_offers_cons.
  destruct (outcome (Scraper.item offer "hlsUrl")) as [e | u];
    [discriminate |].
  destruct (m3u8_load w u) as [e |] eqn:Hload.
  - destruct (Scraper.caught e); [| discriminate].
    destruct (Scraper.appletv_offers w id rest) as [l r].
    simpl. intros [= <- ->].
    destruct (IH l eq_refl) as (Hid & Hv & Hin).
    repeat split; try assumption. now right.
  - intros [= <- <-]. repeat split; [assumption | now left].
Qed.

Lemma validated_app_l (w : World) (l1 l2 : list event) (p : PlaylistData) :
  Scraper.validated w l1 p -> Scraper.validated w (l1 ++ l2) p.
Proof. intros [H1 H2]. split; [assumption | apply in_or_app; now left]. Qed.

Lemma validated_app_r (w : World) (l1 l2 : list event) (p : PlaylistData) :
  Scraper.validated w l2 p -> Scraper.validated w (l1 ++ l2) p.
Proof. intros [H1 H2]. split; [assumption | apply in_or_app; now right]. Qed.

(** The loop over the playables adds validated entries to the list, at
    most one for a playable, and keeps the entries that the list has. *)
Lemma appletv_playables_validated (w : World) (playables : list json)
    (acc : list PlaylistData) (ids : list json) (log : list event)
    (res : list PlaylistData) :
  Scraper.appletv_playables w playables acc ids = (log, inr res) ->
  exists new,
    res = acc ++ new
    /\ List.Forall (Scraper.validated w log) new
    /\ (length new <= length playables)%nat.
Proof.
  revert acc log. induction playables as [| playable rest IH];
    intros acc log.
  - intros [= <- <-]. exists []. rewrite app_nil_r.
    repeat split; [constructor | simpl; lia].
  - cbn [Scraper.appletv_playables]. intros H.
    assert (forall acc' l1 l2,
               Scraper.appletv_playables w rest acc' ids = (l2, inr res) ->
               (exists new', acc' = acc ++ new'
                             /\ List.Forall (Scraper.validated w l1) new'
                             /\ (length new' <= 1)%nat) ->
               exists new,
                 res = acc ++ new
                 /\ List.Forall (Scraper.validated w (l1 ++ l2)) new
                 /\ (length new <= length (playable :: rest))%nat) as Hstep.
    { intros acc' l1 l2 Hrest (new' & -> & Hnew' & Hlen').
      destruct (IH _ _ Hrest) as (new & -> & Hnew & Hlen).
      exists (new' ++ new). rewrite <- app_assoc. repeat split.
      - apply List.Forall_app. split.
        + eapply List.Forall_impl; [| exact Hnew'].
          intros p. apply validated_app_l.
        + eapply List.Forall_impl; [| exact Hnew].
          intros p. apply validated_app_r.
      - rewrite length_app. simpl. lia. }
    assert (Scraper.appletv_playables w rest acc ids = (log, inr res) ->
            exists new,
              res = acc ++ new
              /\ List.Forall (Scraper.validated w log) new
              /\ (length new <= length (playable :: rest))%nat) as Hskip.
    { intros Hrest. apply (Hstep acc [] log Hrest).
      exists []. rewrite app_nil_r. repeat split; [constructor | simpl; lia]. }
    apply bind_pure_inv in H as (b & _ & H); [| pure].
    destruct (Dyn.truthy b); [| now apply Hskip].
    apply bind_pure_inv in H as (id & _ & H); [| pure].
    apply bind_pure_inv in H as (fresh & _ & H);
      [| unfold Scraper.not_in_set; destruct (Dyn.hashable id); reflexivity].
    destruct fresh; [| now apply Hskip].
    apply bind_pure_inv in H as (api & _ & H); [| pure].
    apply bind_pure_inv in H as (o & _ & H); [| pure].
    apply bind_pure_inv in H as (offers & _ & H); [| pure].
    apply bind_inv in H as (l1 & r & l2 & Hoffers & Hrest & ->).
    destruct r as [p |].
    + apply (Hstep _ _ _ Hrest). exists [p]. repeat split.
      * constructor; [| constructor].
        now apply appletv_offers_validated in Hoffers.
      * simpl. lia.
    + apply (Hstep _ _ _ Hrest). exists []. rewrite app_nil_r.
      repeat split; [constructor | simpl; lia].
Qed.

Lemma itunes_json_strategy_validated (w : World) (json_data : json)
    (log : list event) (md : MovieData) :
  Scraper._find_playlist_data_itunes_json_ w json_data = (log, inr md) ->
  data_source md = ITUNES
  /\ List.Forall (Scraper.validated w log) (playlists md)
  /\ (length (playlists md) <= 1)%nat.
Proof.
  unfold Scraper._find_playlist_data_itunes_json_. intros H.
  apply bind_pure_inv in H as ([[[id title] year] offers] & _ & H);
    [| pure].
  apply bind_inv in H as (l1 & r & l2 & H1 & H2 & ->).
  destruct r as [md' |]; injection H2 as <- <-.
  - apply itunes_json_offers_validated in H1 as (u & -> & Hload & Hin).
    rewrite app_nil_r. simpl. repeat split; [| lia].
    constructor; [| constructor]. now split.
  - simpl. repeat split; [constructor | lia].
Qed.

Lemma itunes_html_strategy_validated (w : World) (html_data : Soup)
    (log : list event) (md : MovieData) :
  Scraper._find_playlist_data_itunes_html_ w html_data = (log, inr md) ->
  data_source md = ITUNES
  /\ List.Forall (Scraper.validated w log) (playlists md)
  /\ (length (playlists md) <= 1)%nat.
Proof.
  unfold Scraper._find_playlist_data_itunes_html_. intros H.
  destruct (Scraper.find html_data "meta" _) as [tag |]; [| discriminate H].
  destruct (Scraper.assoc_str "content" (attrs tag)) as [id |];
    [| discriminate H].
  destruct (Scraper.find html_data "script" _) as [script |];
    [| discriminate H].
  destruct (contents script) as [| text rest]; [discriminate H |].
  destruct (json_loads w (Str.strip text)) as [shoebox_data |];
    [| discriminate H].
  apply bind_pure_inv in H as (entry & _ & H); [| pure].
  apply bind_pure_inv in H as (included & _ & H); [| pure].
  destruct (Dyn.is_list included); [| discriminate H].
  apply bind_pure_inv in H as (movie_data & _ & H); [| pure].
  apply bind_pure_inv in H as (d1 & _ & H); [| pure].
  apply bind_pure_inv in H as (a1 & _ & H); [| pure].
  apply bind_pure_inv in H as (title & _ & H); [| pure].
  apply bind_pure_inv in H as (d2 & _ & H); [| pure].
  apply bind_pure_inv in H as (a2 & _ & H); [| pure].
  apply bind_pure_inv in H as (release_date & _ & H); [| pure].
  apply bind_pure_inv in H as (year & _ & H); [| pure].
  apply bind_pure_inv in H as (inc & _ & H); [| pure].
  apply bind_pure_inv in H as (items & _ & H); [| pure].
  apply bind_inv in H as (l1 & r & l2 & H1 & H2 & ->).
  destruct r as [md' |]; injection H2 as <- <-.
  - apply itunes_html_items_validated in H1 as (u & -> & Hload & Hin).
    rewrite app_nil_r. simpl. repeat split; [| lia].
    constructor; [| constructor]. now split.
  - simpl. repeat split; [constructor | lia].
Qed.

Lemma appletv_json_strategy_validated (w : World) (json_data : json)
    (log : list event) (md : MovieData) :
  Scraper._find_playlist_data_appletv_json_ w json_data = (log, inr md) ->
  data_source md = APPLETV
  /\ List.Forall (Scraper.validated w log) (playlists md).
Proof.
  unfold Scraper._find_playlist_data_appletv_json_. intros H.
  apply bind_pure_inv in H as ([[title year] playables] & _ & H); [| pure].
  apply bind_inv in H as (l1 & res & l2 & H1 & H2 & ->).
  injection H2 as <- <-. rewrite app_nil_r.
  apply appletv_playables_validated in H1 as (new & -> & Hnew & _).
  simpl. now split.
Qed.

(** X4. Whatever the URL and the response are, every playlist of the
    record that [get_movie_data] returns has been loaded by [m3u8.load]
    in the call, and the load has succeeded; a record of an iTunes page
    has at most one playlist. *)
Theorem returned_playlists_have_been_validated (w : World)
    (movie_url : string) (headers : option (list (string * string)))
    (log : list event) (md : MovieData) :
  Scraper.get_movie_data w movie_url headers = (log, inr md) ->
  List.Forall (Scraper.validated w log) (playlists md)
  /\ (data_source md = ITUNES -> (length (playlists md) <= 1)%nat).
Proof.
  unfold Scraper.get_movie_data. intros H.
  destruct (itunes_fullmatch w movie_url) as [group1 |].
  - apply bind_pure_inv in H as (request & _ & H); [| reflexivity].
    apply bind_pure_inv in H as (u & _ & H);
      [| unfold Scraper.raise_for_status;
         destruct (_ && _); reflexivity].
    apply bind_pure_inv in H as (ct & _ & H);
      [| unfold Scraper.header_content_type;
         destruct (content_type request); reflexivity].
    destruct (Str.contains "application/json" ct).
    + unfold Scraper.json_loads_bytes in H.
      destruct (json_loads w (content request)) as [json_data |].
      * rewrite try_except_ret, bind_ret_l in H.
        apply itunes_json_strategy_validated in H as (_ & Hv & Hlen).
        now split.
      * rewrite try_except_raise in H.
        destruct (existsb _ _); discriminate H.
    + apply bind_pure_inv in H as (ct' & _ & H);
        [| unfold Scraper.header_content_type;
           destruct (content_type request); reflexivity].
      destruct (_ && _); [| discriminate H].
      apply itunes_html_strategy_validated in H as (_ & Hv & Hlen).
      now split.
  - destruct (appletv_fullmatch w movie_url) as [[group2 group3] |];
      [| discriminate H].
    apply bind_pure_inv in H as (storefronts & _ & H); [| reflexivity].
    apply bind_pure_inv in H as (sf & _ & H); [| pure].
    apply bind_pure_inv in H as (request & _ & H); [| reflexivity].
    apply bind_pure_inv in H as (u & _ & H);
      [| unfold Scraper.raise_for_status;
         destruct (_ && _); reflexivity].
    destruct (json_loads w (content request)) as [json_data |];
      [| discriminate H].
    apply appletv_json_strategy_validated in H as (Hsrc & Hv).
    split; [assumption |]. rewrite Hsrc. discriminate.
Qed.

Lemma returned_playlists_have_been_validated_witness :
  List.Forall
    (Scraper.validated
       (Examples.world Examples.all_valid Examples.html_response
          Examples.page_loads Examples.page_soup)
       [Load (JStr "https://play.example/a.m3u8")])
    [mkPlaylistData (JStr "123") (JStr "https://play.example/a.m3u8")].
Proof.
  apply (proj1 (returned_playlists_have_been_validated
                  (Examples.world Examples.all_valid Examples.html_response
                     Examples.page_loads Examples.page_soup)
                  "https://itunes.apple.com/us/movie/example/id123" None
                  [Load (JStr "https://play.example/a.m3u8")]
                  (mkMovieData ITUNES (JStr "Example Movie") 2021
                     [mkPlaylistData (JStr "123")
                        (JStr "https://play.example/a.m3u8")])
                  eq_refl)).
Defined.

(* ===================================================================== *)
(** ** The pages that the HTML strategies refuse *)
(* ===================================================================== *)

(** X5. The iTunes HTML strategy raises [PageLoadError], with no playlist
    loaded, for a page with no meta tag of the content id, for a page
    with no script tag of the shoebox data, and for shoebox data of which
    the entry of the movie has no list under ["included"]. A meta tag
    with no ["content"] and shoebox data with no entry for the id raise
    [KeyError]. *)
Theorem itunes_html_page_errors (w : World) (html_data : Soup) :
  (Scraper.find html_data "meta" [("name", "apple:content_id")] = None ->
   Scraper._find_playlist_data_itunes_html_ w html_data
   = raise PageLoadError)
  /\ (forall tag,
         Scraper.find html_data "meta" [("name", "apple:content_id")]
         = Some tag ->
         Scraper.assoc_str "content" (attrs tag) = None ->
         Scraper._find_playlist_data_itunes_html_ w html_data
         = raise KeyError)
  /\ (forall tag id,
         Scraper.find html_data "meta" [("name", "apple:content_id")]
         = Some tag ->
         Scraper.assoc_str "content" (attrs tag) = Some id ->
         Scraper.find html_data "script"
           [("id", "shoebox-ember-data-store"); ("type", "fastboot/shoebox")]
         = None ->
         Scraper._find_playlist_data_itunes_html_ w html_data
         = raise PageLoadError)
  /\ (forall tag id script text rest shoebox_data,
         Scraper.find html_data "meta" [("name", "apple:content_id")]
         = Some tag ->
         Scraper.assoc_str "content" (attrs tag) = Some id ->
         Scraper.find html_data "script"
           [("id", "shoebox-ember-data-store"); ("type", "fastboot/shoebox")]
         = Some script ->
         contents script = text :: rest ->
         json_loads w (Str.strip text) = Some (JObj shoebox_data) ->
         (Dyn.assoc id shoebox_data = None ->
          Scraper._find_playlist_data_itunes_html_ w html_data
          = raise KeyError)
         /\ (forall entry,
                Dyn.assoc id shoebox_data = Some (JObj entry) ->
                (forall l, Dyn.assoc "included" entry <> Some (JArr l)) ->
                Scraper._find_playlist_data_itunes_html_ w html_data
                = raise PageLoadError)).
Proof.
  unfold Scraper._find_playlist_data_itunes_html_.
  split; [| split; [| split]].
  - intros ->. reflexivity.
  - intros tag -> ->. reflexivity.
  - intros tag id -> -> ->. reflexivity.
  - intros tag id script text rest shoebox_data -> -> -> -> ->.
    cbn [Dyn.getitem]. split.
    + intros ->. reflexivity.
    + intros entry -> Hincluded. rewrite bind_ret_l.
      cbn [Dyn.get]. rewrite bind_ret_l.
      destruct (Dyn.assoc "included" entry) as [[| | | | l |] |];
        try reflexivity.
      destruct (Hincluded l eq_refl).
Qed.

Lemma itunes_html_page_errors_witness :
  Scraper._find_playlist_data_itunes_html_
    (Examples.world Examples.all_valid Examples.html_response
       Examples.page_loads [])
    []
  = raise PageLoadError
  /\ Scraper._find_playlist_data_itunes_html_
       (Examples.world Examples.all_valid Examples.html_response
          Examples.page_loads Examples.soup_without_shoebox)
       Examples.soup_without_shoebox
     = raise PageLoadError
  /\ Scraper._find_playlist_data_itunes_html_
       (Examples.world Examples.all_valid Examples.html_response
          (fun _ => Some Examples.shoebox_without_included)
          Examples.page_soup)
       Examples.page_soup
     = raise PageLoadError.
Proof.
  split; [| split].
  - apply (proj1 (itunes_html_page_errors _ [])). reflexivity.
  - apply (proj1 (proj2 (proj2 (itunes_html_page_errors _
                                  Examples.soup_without_shoebox)))
             (mkTag "meta" [("name", "apple:content_id"); ("content", "123")]
                [])
             "123");
      reflexivity.
  - pose proof (proj2 (proj2 (proj2 (itunes_html_page_errors
                  (Examples.world Examples.all_valid Examples.html_response
                     (fun _ => Some Examples.shoebox_without_included)
                     Examples.page_soup)
                  Examples.page_soup)))) as H.
    specialize (H (mkTag "meta"
                     [("name", "apple:content_id"); ("content", "123")] [])
                  "123"
                  (mkTag "script"
                     [("id", "shoebox-ember-data-store");
                      ("type", "fastboot/shoebox")] [" shoebox "])
                  " shoebox " [] _ eq_refl eq_refl eq_refl eq_refl eq_refl).
    apply (proj2 H _ eq_refl). intros l Hl. discriminate Hl.
Defined.

(** X6. The AppleTV HTML strategy reads the data of the page from the
    first value of the object in the script tag and hands it to the
    AppleTV JSON strategy. A page with no script tag of the data, a first
    value that is not a string and data with no ["d"] raise
    [PageLoadError]; an empty object in the script tag raises
    [StopIteration], which no handler catches. *)
Theorem appletv_html_strategy (w : World) (html_data : Soup) :
  (Scraper.find html_data "script"
     [("id", "shoebox-uts-api"); ("type", "fastboot/shoebox")] = None ->
   Scraper._find_playlist_data_appletv_html_ w html_data
   = raise PageLoadError)
  /\ (forall script text rest outer,
         Scraper.find html_data "script"
           [("id", "shoebox-uts-api"); ("type", "fastboot/shoebox")]
         = Some script ->
         contents script = text :: rest ->
         json_loads w text = Some (JObj outer) ->
         (outer = [] ->
          Scraper._find_playlist_data_appletv_html_ w html_data
          = raise StopIteration)
         /\ (forall k v others,
                outer = (k, v) :: others ->
                Dyn.is_str v = false ->
                Scraper._find_playlist_data_appletv_html_ w html_data
                = raise PageLoadError)
         /\ (forall k inner others shoebox_data,
                outer = (k, JStr inner) :: others ->
                json_loads w inner = Some (JObj shoebox_data) ->
                (Dyn.assoc "d" shoebox_data = None ->
                 Scraper._find_playlist_data_appletv_html_ w html_data
                 = raise PageLoadError)
                /\ (forall json_data,
                       Dyn.assoc "d" shoebox_data = Some json_data ->
                       Scraper._find_playlist_data_appletv_html_ w html_data
                       = Scraper._find_playlist_data_appletv_json_ w
                           json_data))).
Proof.
  unfold Scraper._find_playlist_data_appletv_html_. split.
  { intros ->. reflexivity. }
  intros script text rest outer -> -> Hloads.
  unfold Scraper.appletv_html_shoebox. rewrite Hloads.
  cbn [Dyn.values]. rewrite bind_ret_l. split; [| split].
  - intros ->. reflexivity.
  - intros k v others -> Hv. cbn [map snd].
    destruct v; try discriminate Hv; reflexivity.
  - intros k inner others shoebox_data -> Hinner. cbn [map snd].
    rewrite Hinner. unfold Scraper.item. cbn [Dyn.getitem]. split.
    + intros ->. reflexivity.
    + intros json_data ->.
      unfold Scraper.try_except, ret. rewrite bind_ok.
      destruct (Scraper._find_playlist_data_appletv_json_ w json_data).
      reflexivity.
Qed.

Lemma appletv_html_strategy_witness :
  Scraper._find_playlist_data_appletv_html_
    (Examples.world Examples.all_valid Examples.html_response
       (Examples.appletv_loads
          (Some (JObj [("d", Examples.appletv_same_id_twice)])))
       Examples.appletv_soup)
    Examples.appletv_soup
  = Scraper._find_playlist_data_appletv_json_
      (Examples.world Examples.all_valid Examples.html_response
         (Examples.appletv_loads
            (Some (JObj [("d", Examples.appletv_same_id_twice)])))
         Examples.appletv_soup)
      Examples.appletv_same_id_twice
  /\ Scraper._find_playlist_data_appletv_html_
       (Examples.world Examples.all_valid Examples.html_response
          Examples.appletv_loads_empty Examples.appletv_soup)
       Examples.appletv_soup
     = raise StopIteration.
Proof.
  split.
  - pose proof (proj2 (appletv_html_strategy
                  (Examples.world Examples.all_valid Examples.html_response
                     (Examples.appletv_loads
                        (Some (JObj [("d", Examples.appletv_same_id_twice)])))
                     Examples.appletv_soup)
                  Examples.appletv_soup)
                  _ "outer" [] [("key", JStr "inner")]
                  eq_refl eq_refl eq_refl) as H.
    exact (proj2 (proj2 (proj2 H) "key" "inner" []
                    [("d", Examples.appletv_same_id_twice)]
                    eq_refl eq_refl)
             _ eq_refl).
  - pose proof (proj2 (appletv_html_strategy
                  (Examples.world Examples.all_valid Examples.html_response
                     Examples.appletv_loads_empty Examples.appletv_soup)
                  Examples.appletv_soup)
                  _ "outer" [] [] eq_refl eq_refl eq_refl) as H.
    exact (proj1 H eq_refl).
Defined.

(* ===================================================================== *)
(** ** The track selector on a whole playlist *)
(* ===================================================================== *)

(** X7. With no filter, [find_subtitles] yields one value for every
    playlist of type SUBTITLES in one of the two groups of line 297, in
    the order of the main playlist, and raises nothing. *)
Theorem find_subtitles_without_filter (media : list Scraper.Media) :
  Scraper.find_subtitles media None
  = (map Scraper.data_of (List.filter Scraper.is_subtitles_playlist media),
     None).
Proof.
  unfold Scraper.find_subtitles.
  induction media as [| playlist rest IH]; [reflexivity |].
  cbn [Scraper.find_subtitles_loop List.filter].
  destruct (Scraper.is_subtitles_playlist playlist); [| exact IH].
  rewrite IH. reflexivity.
Qed.

(** The generator on two lists in a row: the values of the first, then,
    unless the first has raised, those of the second. *)
Lemma find_subtitles_loop_app (a b : list Scraper.Media)
    (f : option (list string)) :
  Scraper.find_subtitles_loop (a ++ b) f
  = match snd (Scraper.find_subtitles_loop a f) with
    | Some e => Scraper.find_subtitles_loop a f
    | None =>
        (fst (Scraper.find_subtitles_loop a f)
           ++ fst (Scraper.find_subtitles_loop b f),
         snd (Scraper.find_subtitles_loop b f))
    end.
Proof.
  induction a as [| playlist rest IH].
  - simpl. now destruct (Scraper.find_subtitles_loop b f).
  - cbn [app Scraper.find_subtitles_loop].
    destruct (Scraper.is_subtitles_playlist playlist); [| exact IH].
    destruct (match f with
              | Some f0 =>
                  match Scraper.matches_filter (Scraper.language playlist)
                          (Scraper.media_name playlist) f0 with
                  | inl e => inl e
                  | inr m => inr (negb m)
                  end
              | None => inr false
              end) as [e | [|]]; [reflexivity | exact IH |].
    rewrite IH.
    destruct (Scraper.find_subtitles_loop rest f) as [ys [e |]];
      reflexivity.
Qed.

(** X8. Whatever the filter is, the values that [find_subtitles] yields
    are values of playlists of type SUBTITLES of the two groups, in the
    order of the main playlist: the filter only leaves values out. *)
Theorem find_subtitles_keeps_order (media : list Scraper.Media)
    (subtitles_filter : option (list string)) :
  sublist (fst (Scraper.find_subtitles media subtitles_filter))
          (map Scraper.data_of
             (List.filter Scraper.is_subtitles_playlist media)).
Proof.
  unfold Scraper.find_subtitles.
  generalize (match subtitles_filter with
              | Some f => Some (map Str.lower f)
              | None => None
              end) as f.
  intros f. induction media as [| playlist rest IH]; [constructor |].
  cbn [Scraper.find_subtitles_loop List.filter].
  destruct (Scraper.is_subtitles_playlist playlist); [| exact IH].
  destruct (match f with
            | Some f0 =>
                match Scraper.matches_filter (Scraper.language playlist)
                        (Scraper.media_name playlist) f0 with
                | inl e => inl e
                | inr m => inr (negb m)
                end
            | None => inr false
            end) as [e | [|]].
  - apply sublist_nil_l.
  - now apply sublist_cons.
  - destruct (Scraper.find_subtitles_loop rest f) as [ys e].
    now apply sublist_skip.
Qed.

Lemma mem_lower_filter (x : string) (subtitles_filter : list string) :
  Str.mem x (map Str.lower subtitles_filter) = true
  <-> exists entry, In entry subtitles_filter /\ Str.lower entry = x.
Proof.
  unfold Str.mem. rewrite existsb_exists. split.
  - intros (y & Hy & Heq). apply List.in_map_iff in Hy as (entry & <- & Hin).
    apply String.eqb_eq in Heq. now exists entry.
  - intros (entry & Hin & <-). exists (Str.lower entry).
    split; [now apply in_map | apply String.eqb_refl].
Qed.

Lemma matches_filter_true (playlist : Scraper.Media) (code : string)
    (subtitles_filter : list string) :
  Scraper.language playlist = Some code ->
  exists b,
    Scraper.matches_filter (Scraper.language playlist)
      (Scraper.media_name playlist) (map Str.lower subtitles_filter)
    = inr b
    /\ (b = true <-> Scraper.code_matches subtitles_filter playlist
                     \/ Scraper.name_matches subtitles_filter playlist).
Proof.
  intros Hcode. rewrite Hcode. unfold Scraper.matches_filter.
  eexists. split; [reflexivity |].
  rewrite orb_true_iff, mem_lower_filter. split.
  - intros [(entry & Hin & Heq) | Hname].
    + left. now exists code, entry.
    + right. destruct (Scraper.media_name playlist) as [n |] eqn:Hn;
        [| discriminate Hname].
      apply mem_lower_filter in Hname as (entry & Hin & Heq).
      now exists n, entry.
  - intros [(code' & entry & Hc & Hin & Heq) | (n & entry & Hn & Hin & Heq)].
    + left. rewrite Hcode in Hc. injection Hc as <-. now exists entry.
    + right. rewrite Hn. apply mem_lower_filter. now exists entry.
Qed.

(** X9. With a filter of which the entries are written with ASCII
    characters, and when every subtitles playlist has a language code
    that is written with ASCII characters, [find_subtitles] raises
    nothing and yields the value of a playlist exactly when the playlist
    is of type SUBTITLES in one of the two groups and either its language
    code equals an entry of the filter up to the case of the letters, or
    its name is an entry of the filter put in lower case. *)
Theorem find_subtitles_with_filter (media : list Scraper.Media)
    (subtitles_filter : list string) :
  forallb Str.is_ascii subtitles_filter = true ->
  (forall p, In p media -> Scraper.is_subtitles_playlist p = true ->
             exists code,
               Scraper.language p = Some code
               /\ Str.is_ascii code = true) ->
  snd (Scraper.find_subtitles media (Some subtitles_filter)) = None
  /\ forall d,
       In d (fst (Scraper.find_subtitles media (Some subtitles_filter)))
       <-> exists p,
             In p media
             /\ Scraper.is_subtitles_playlist p = true
             /\ d = Scraper.data_of p
             /\ (Scraper.code_matches subtitles_filter p
                 \/ Scraper.name_matches subtitles_filter p).
Proof.
  unfold Scraper.find_subtitles. intros _.
  induction media as [| playlist rest IH]; intros Hlang.
  - split; [reflexivity |]. intros d. split; [intros [] |].
    intros (p & [] & _).
  - destruct IH as [IHe IHd];
      [intros p Hp; apply Hlang; now right |].
    cbn [Scraper.find_subtitles_loop].
    destruct (Scraper.is_subtitles_playlist playlist) eqn:Hsub.
    + destruct (Hlang playlist (or_introl eq_refl) Hsub)
        as (code & Hcode & _).
      destruct (matches_filter_true playlist code subtitles_filter Hcode)
        as (b & Hb & Hiff).
      rewrite Hcode in Hb |- *. rewrite Hb.
      destruct b; cbn [negb].
      * destruct (Scraper.find_subtitles_loop rest
                    (Some (map Str.lower subtitles_filter))) as [ys e].
        simpl in IHe, IHd |- *. split; [assumption |].
        intros d. split.
        -- intros [<- | Hin].
           ++ exists playlist. repeat split; try assumption;
                [now left | unfold Scraper.data_of; now rewrite Hcode
                | now apply Hiff].
           ++ apply IHd in Hin as (p & Hp & H).
              exists p. split; [now right | assumption].
        -- intros (p & [<- | Hp] & Hs & -> & Hm).
           ++ left. unfold Scraper.data_of. now rewrite Hcode.
           ++ right. apply IHd. now exists p.
      * split; [assumption |]. intros d. split.
        -- intros Hin. apply IHd in Hin as (p & Hp & H).
           exists p. split; [now right | assumption].
        -- intros (p & [<- | Hp] & Hs & -> & Hm).
           ++ apply Hiff in Hm. discriminate Hm.
           ++ apply IHd. now exists p.
    + split; [assumption |]. intros d. split.
      * intros Hin. apply IHd in Hin as (p & Hp & H).
        exists p. split; [now right | assumption].
      * intros (p & [<- | Hp] & Hs & -> & Hm).
        -- rewrite Hsub in Hs. discriminate Hs.
        -- apply IHd. now exists p.
Qed.

Lemma find_subtitles_with_filter_witness :
  In (Scraper.data_of Examples.french_forced_track)
     (fst (Scraper.find_subtitles Examples.main_media (Some ["FR"]))).
Proof.
  assert (forall p, In p Examples.main_media ->
                    Scraper.is_subtitles_playlist p = true ->
                    exists code,
                      Scraper.language p = Some code
                      /\ Str.is_ascii code = true) as Hlang.
  { intros p Hp _. simpl in Hp.
    destruct Hp as [<- | [<- | [<- | [<- | [<- | []]]]]];
      eexists; split; reflexivity. }
  apply (proj2 (find_subtitles_with_filter Examples.main_media ["FR"]
                  eq_refl Hlang)).
  exists Examples.french_forced_track. repeat split.
  - simpl. tauto.
  - left. exists "fr", "FR". repeat split. now left.
Defined.

(** X10. An empty list as the filter selects nothing: no value is
    yielded, whatever the main playlist is. *)
Theorem find_subtitles_empty_filter (media : list Scraper.Media) :
  fst (Scraper.find_subtitles media (Some [])) = [].
Proof.
  unfold Scraper.find_subtitles. simpl map.
  induction media as [| playlist rest IH]; [reflexivity |].
  cbn [Scraper.find_subtitles_loop].
  destruct (Scraper.is_subtitles_playlist playlist); [| exact IH].
  destruct (Scraper.language playlist) as [code |]; [| reflexivity].
  simpl. destruct (Scraper.media_name playlist); simpl; exact IH.
Qed.

(** X11. With a filter, a subtitles playlist with no language attribute
    ends the generator with [AttributeError]: the values of the playlists
    before it are yielded, those of the playlists after it are not. *)
Theorem find_subtitles_without_language (before after : list Scraper.Media)
    (playlist : Scraper.Media) (subtitles_filter : list string) :
  snd (Scraper.find_subtitles before (Some subtitles_filter)) = None ->
  Scraper.is_subtitles_playlist playlist = true ->
  Scraper.language playlist = None ->
  Scraper.find_subtitles (before ++ playlist :: after)
    (Some subtitles_filter)
  = (fst (Scraper.find_subtitles before (Some subtitles_filter)),
     Some AttributeError).
Proof.
  unfold Scraper.find_subtitles. intros Hbefore Hsub Hlang.
  rewrite find_subtitles_loop_app, Hbefore.
  cbn [Scraper.find_subtitles_loop]. rewrite Hsub, Hlang. simpl.
  now rewrite app_nil_r.
Qed.

Lemma find_subtitles_without_language_witness :
  Scraper.find_subtitles
    ([Examples.english_track; Examples.french_forced_track]
       ++ Examples.nameless_track :: [Examples.english_cc_track])
    (Some ["en"; "fr"])
  = ([Scraper.data_of Examples.english_track;
      Scraper.data_of Examples.french_forced_track],
     Some AttributeError).
Proof.
  apply (find_subtitles_without_language
           [Examples.english_track; Examples.french_forced_track]
           [Examples.english_cc_track] Examples.nameless_track
           ["en"; "fr"]);
    reflexivity.
Defined.

(* ===================================================================== *)
(** ** What [download_subtitles] leaves in the files *)
(* ===================================================================== *)

(** X12. Whatever happens, [download_subtitles] leaves the files in one
    of three states. When the title is no string or the file cannot be
    opened, an exception is raised and the files are as they were. When
    an exception is raised later, the file of the output path is empty,
    whatever it held before, and no other file has changed. When the path
    is returned, the file of that path holds the whole text that [dumps]
    gives for the document of [get_subtitles], and no other file has
    changed. *)
Theorem download_subtitles_outcomes (net : PlaylistDownloader.Net)
    (cls : PlaylistDownloader.SubtitlesClass)
    (format_title : string -> string) (schedule : list nat)
    (files files' : gmap string string) (movie_data : MovieData)
    (subtitles_data : SubtitlesData) (output_dir : string)
    (file_format : SubtitlesFormat) (r : exc + string) :
  PlaylistDownloader.download_subtitles net cls format_title schedule files
    movie_data subtitles_data output_dir file_format
  = Some (files', r) ->
  ((exists e, r = inl e) /\ files' = files)
  \/ (exists movie_title,
         name movie_data = JStr movie_title
         /\ let path :=
              PlaylistDownloader.os_path_join output_dir
                (PlaylistDownloader._format_file_name format_title
                   movie_title (release_year movie_data)
                   (PlaylistDownloader.format_opt
                      (language_code subtitles_data))
                   (subtitles_type subtitles_data) file_format) in
            ((exists e, r = inl e) /\ files' = <[path := ""]> files)
            \/ (exists subtitles text,
                   PlaylistDownloader.get_subtitles net cls schedule
                     subtitles_data = Some (inr subtitles)
                   /\ PlaylistDownloader.dumps cls subtitles file_format
                      = inr text
                   /\ r = inr path
                   /\ files' = <[path := text]> files)).
Proof.
  unfold PlaylistDownloader.download_subtitles.
  destruct (name movie_data) as [| | | movie_title | |];
    try (intros [= <- <-]; left; split; [now eexists | reflexivity]).
  set (path := PlaylistDownloader.os_path_join output_dir _).
  destruct (PlaylistDownloader.can_open net path);
    [| intros [= <- <-]; left; split; [now eexists | reflexivity]].
  intros H. right. exists movie_title. split; [reflexivity |].
  fold path. cbv zeta.
  destruct (PlaylistDownloader.get_subtitles net cls schedule subtitles_data)
    as [[e | subtitles] |]; [| | discriminate H].
  - injection H as <- <-. left. split; [now exists e | reflexivity].
  - destruct (PlaylistDownloader.dumps cls subtitles file_format)
      as [e | text] eqn:Hdumps; injection H as <- <-.
    + left. split; [now exists e | reflexivity].
    + right. exists subtitles, text. repeat split; try assumption.
      apply insert_insert_eq.
Qed.

Lemma download_subtitles_outcomes_witness :
  let files : gmap string string :=
    <[Examples.output_path := "an older document"]> ∅ in
  let files' : gmap string string := <[Examples.output_path := ""]> files in
  let r : exc + string := inl UnicodeDecodeError in
  ((exists e, r = inl e) /\ files' = files)
  \/ (exists movie_title,
         name Examples.movie = JStr movie_title
         /\ let path :=
              PlaylistDownloader.os_path_join "/out"
                (PlaylistDownloader._format_file_name Model.format_title
                   movie_title (release_year Examples.movie)
                   (PlaylistDownloader.format_opt
                      (language_code Examples.track))
                   (subtitles_type Examples.track) VTT) in
            ((exists e, r = inl e) /\ files' = <[path := ""]> files)
            \/ (exists subtitles text,
                   PlaylistDownloader.get_subtitles Examples.net_not_utf8
                     Model.subtitles Examples.in_order Examples.track
                   = Some (inr subtitles)
                   /\ PlaylistDownloader.dumps Model.subtitles subtitles VTT
                      = inr text
                   /\ r = inr path
                   /\ files' = <[path := text]> files)).
Proof.
  intros files files' r.
  apply (download_subtitles_outcomes Examples.net_not_utf8 Model.subtitles
           Model.format_title Examples.in_order files files' Examples.movie
           Examples.track "/out" VTT r).
  reflexivity.
Defined.

(* ===================================================================== *)
(** ** The text of a segment *)
(* ===================================================================== *)

Lemma utf8_valid_ascii (l : list N) :
  List.Forall (fun b => (b < 128)%N) l ->
  PlaylistDownloader.utf8_valid l = true.
Proof.
  induction 1 as [| b l Hb _ IH]; [reflexivity |].
  cbn [PlaylistDownloader.utf8_valid].
  apply N.ltb_lt in Hb. now rewrite Hb.
Qed.

(** X13. The text that [_download_segment] returns is the body of the
    response, byte for byte. A body of ASCII bytes is always returned; a
    body that starts with a byte from 0x80 to 0xC1, or from 0xF5 on,
    raises [UnicodeDecodeError]; an exception of the request or of the
    reading of the body leaves the function. *)
Theorem download_segment_returns_the_body (net : PlaylistDownloader.Net)
    (segment_url : string) :
  (forall e,
      PlaylistDownloader.session_get net segment_url = inl e ->
      PlaylistDownloader._download_segment net segment_url = inl e)
  /\ (forall data,
         PlaylistDownloader.session_get net segment_url = inr data ->
         (forall e,
             PlaylistDownloader.read data = inl e ->
             PlaylistDownloader._download_segment net segment_url = inl e)
         /\ (forall content,
                PlaylistDownloader.read data = inr content ->
                (forall text,
                    PlaylistDownloader._download_segment net segment_url
                    = inr text ->
                    list_byte_of_string text = content)
                /\ (List.Forall (fun b => (Byte.to_N b < 128)%N) content ->
                    PlaylistDownloader._download_segment net segment_url
                    = inr (string_of_list_byte content))
                /\ (forall b rest,
                       content = b :: rest ->
                       (128 <= Byte.to_N b < 194)%N
                       \/ (245 <= Byte.to_N b)%N ->
                       PlaylistDownloader._download_segment net segment_url
                       = inl UnicodeDecodeError))).
Proof.
  unfold PlaylistDownloader._download_segment. split.
  { intros e ->. reflexivity. }
  intros data ->. split.
  { intros e ->. reflexivity. }
  intros content ->. unfold PlaylistDownloader.decode. split; [| split].
  - intros text.
    destruct (PlaylistDownloader.utf8_valid (map Byte.to_N content));
      [| discriminate].
    intros [= <-]. apply list_byte_of_string_of_list_byte.
  - intros Hascii. rewrite utf8_valid_ascii; [reflexivity |].
    now apply List.Forall_map.
  - intros b rest -> Hb. cbn [map PlaylistDownloader.utf8_valid].
    assert ((Byte.to_N b <? 128)%N = false) as -> by (apply N.ltb_ge; lia).
    destruct Hb as [[H1 H2] | H].
    + assert ((194 <=? Byte.to_N b)%N = false) as ->
          by (apply N.leb_gt; lia).
      assert ((224 <=? Byte.to_N b)%N = false) as ->
          by (apply N.leb_gt; lia).
      assert ((240 <=? Byte.to_N b)%N = false) as ->
          by (apply N.leb_gt; lia).
      reflexivity.
    + assert ((Byte.to_N b <=? 223)%N = false) as ->
          by (apply N.leb_gt; lia).
      assert ((Byte.to_N b <=? 239)%N = false) as ->
          by (apply N.leb_gt; lia).
      assert ((Byte.to_N b <=? 244)%N = false) as ->
          by (apply N.leb_gt; lia).
      rewrite !andb_false_r. reflexivity.
Qed.

Lemma download_segment_returns_the_body_witness :
  PlaylistDownloader._download_segment Examples.net_ok
    "https://cdn.example/en/seg0.webvtt"
  = inr (string_of_list_byte (list_byte_of_string Examples.body0))
  /\ PlaylistDownloader._download_segment Examples.net_bad_first_byte
       "https://cdn.example/en/seg1.webvtt"
     = inl UnicodeDecodeError.
Proof.
  split.
  - refine (proj1 (proj2 (proj2 (proj2 (download_segment_returns_the_body
                                          Examples.net_ok
                                          "https://cdn.example/en/seg0.webvtt")
                                   _ eq_refl)
                            _ eq_refl)) _).
    repeat constructor.
  - refine (proj2 (proj2 (proj2 (proj2 (download_segment_returns_the_body
                                          Examples.net_bad_first_byte
                                          "https://cdn.example/en/seg1.webvtt")
                                   _ eq_refl)
                            _ eq_refl)) Byte.xff [Byte.xfe] eq_refl _).
    right. vm_compute. discriminate.
Defined.

(* ===================================================================== *)
(** ** File names that do not collide *)
(* ===================================================================== *)

Lemma append_cancel_l (p a b : string) : p +:+ a = p +:+ b -> a = b.
Proof.
  induction p as [| c p IH]; [trivial |].
  change (String c (p +:+ a) = String c (p +:+ b) -> a = b).
  intros [= H]. now apply IH.
Qed.

(** X14. For a title, a year and a language code, the file names of two
    tracks are the same only when the types and the formats are the same:
    the normal, the forced and the closed captions track of a language,
    in either format, do not overwrite one another. *)
Theorem format_file_name_keeps_types_apart
    (format_title : string -> string) (movie_title : string)
    (release_year : Z) (language_code : string)
    (type1 type2 : SubtitlesType) (format1 format2 : SubtitlesFormat) :
  PlaylistDownloader._format_file_name format_title movie_title
    release_year language_code type1 format1
  = PlaylistDownloader._format_file_name format_title movie_title
      release_year language_code type2 format2 ->
  type1 = type2 /\ format1 = format2.
Proof.
  unfold PlaylistDownloader._format_file_name.
  set (prefix := format_title movie_title +:+ _ +:+ ".iT.WEB."
                 +:+ language_code).
  destruct type1, type2, format1, format2;
    cbn [negb PlaylistDownloader.is_NORMAL];
    cbv iota; rewrite ?append_assoc; intros H;
    try (split; reflexivity);
    try (apply append_cancel_l in H; discriminate H);
    exfalso;
    try (apply (append_cancel_l prefix ".vtt") in H; discriminate H);
    try (apply (append_cancel_l prefix ".srt") in H; discriminate H);
    try (rewrite <- (append_empty_r prefix) in H at 1;
         rewrite append_assoc in H; apply append_cancel_l in H;
         discriminate H);
    try (rewrite <- (append_empty_r prefix) in H at 2;
         rewrite append_assoc in H; apply append_cancel_l in H;
         discriminate H).
Qed.

Lemma format_file_name_keeps_types_apart_witness :
  FORCED = FORCED /\ SRT = SRT.
Proof.
  apply (format_file_name_keeps_types_apart Model.format_title
           "Example Movie" 2021 "en" FORCED FORCED SRT SRT).
  reflexivity.
Defined.

(* ===================================================================== *)
(** ** The downloads one after the other *)
(* ===================================================================== *)

Section InTurn.

Import PlaylistDownloader.

Variable net : Net.

Lemma first_exception_finished_ok (texts : list string) (l : list task) :
  first_exception (finished_ok texts ++ l) = first_exception l.
Proof. induction texts as [| s r IH]; simpl; [reflexivity | exact IH]. Qed.

Lemma results_finished_ok (texts : list string) (l : list task) :
  results (finished_ok texts ++ l)
  = match results l with
    | Some r => Some (texts ++ r)
    | None => None
    end.
Proof.
  induction texts as [| s r IH]; simpl.
  - now destruct (results l).
  - rewrite IH. now destruct (results l).
Qed.

Lemma first_exception_requests (uris : list string) :
  first_exception (map Requesting uris) = None.
Proof. induction uris; simpl; [reflexivity | assumption]. Qed.

(** While a task is not finished and none has failed, the future is not
    done. *)
Lemma gather_pending (texts : list string) (t : task) (uris : list string) :
  (forall r, t <> Finished r) ->
  gather (finished_ok texts ++ t :: map Requesting uris) = None.
Proof.
  intros Ht. unfold gather.
  rewrite first_exception_finished_ok, results_finished_ok.
  destruct t as [u | d | r]; simpl.
  - now rewrite first_exception_requests.
  - now rewrite first_exception_requests.
  - destruct (Ht r eq_refl).
Qed.

Lemma gather_failed (texts : list string) (e : exc) (l : list task) :
  gather (finished_ok texts ++ Finished (inl e) :: l) = Some (inl e).
Proof.
  unfold gather. now rewrite first_exception_finished_ok.
Qed.

Lemma gather_finished_ok (texts : list string) :
  gather (finished_ok texts) = Some (inr texts).
Proof.
  unfold gather.
  rewrite <- (app_nil_r (finished_ok texts)).
  rewrite first_exception_finished_ok, results_finished_ok. simpl.
  now rewrite app_nil_r.
Qed.

Lemma run_until_complete_done (schedule : list nat) (tasks : list task)
    (r : exc + list string) :
  gather tasks = Some r -> run_until_complete net schedule tasks = Some r.
Proof. intros H. destruct schedule; simpl; now rewrite H. Qed.

Lemma length_finished_ok (texts : list string) :
  length (finished_ok texts) = length texts.
Proof. apply length_map. Qed.

Lemma step_at_finished_ok (texts : list string) (t : task)
    (rest : list task) :
  step_at net (length texts) (finished_ok texts ++ t :: rest)
  = finished_ok texts ++ step net t :: rest.
Proof.
  rewrite <- (length_finished_ok texts). apply step_at_app.
Qed.

Lemma run_until_complete_cons (i : nat) (schedule : list nat)
    (tasks : list task) :
  run_until_complete net (i :: schedule) tasks
  = match gather tasks with
    | Some r => Some r
    | None => run_until_complete net schedule (step_at net i tasks)
    end.
Proof. reflexivity. Qed.

(** Under the schedule that runs the tasks one after the other, the loop
    gives what the downloads give one after the other. *)
Lemma run_until_complete_in_turn_eq (texts : list string)
    (uris : list string) :
  run_until_complete net (in_turn (length texts) (length uris))
    (finished_ok texts ++ map Requesting uris)
  = Some match download_all net uris with
         | inl e => inl e
         | inr l => inr (texts ++ l)
         end.
Proof.
  revert texts. induction uris as [| u rest IH]; intros texts.
  - simpl. rewrite !app_nil_r. now rewrite gather_finished_ok.
  - cbn [length in_turn map download_all].
    rewrite run_until_complete_cons, gather_pending by discriminate.
    rewrite step_at_finished_ok. cbn [step]. unfold _download_segment.
    destruct (session_get net u) as [e | data].
    { apply run_until_complete_done, gather_failed. }
    rewrite run_until_complete_cons, gather_pending by discriminate.
    rewrite step_at_finished_ok. cbn [step].
    destruct (read data) as [e | content].
    { apply run_until_complete_done, gather_failed. }
    destruct (decode content) as [e | text].
    { apply run_until_complete_done, gather_failed. }
    specialize (IH (texts ++ [text])).
    unfold finished_ok in IH |- *.
    rewrite map_app, <- app_assoc, length_app, Nat.add_1_r in IH.
    simpl in IH. rewrite IH.
    destruct (download_all net rest); [reflexivity |].
    now rewrite <- app_assoc.
Qed.

End InTurn.

(** X15. Under the schedule that runs the downloads one after the other,
    [get_subtitles] gives what the sequential program gives: the
    exception of the load of the playlist; or the exception of the first
    segment, in the order of the playlist, of which the download raises;
    or the merge of the texts of all the segments. *)
Theorem get_subtitles_in_turn (net : PlaylistDownloader.Net)
    (cls : PlaylistDownloader.SubtitlesClass)
    (subtitles_data : SubtitlesData) :
  (forall e,
      PlaylistDownloader.playlist_segments net (playlist_url subtitles_data)
      = inl e ->
      forall schedule,
        PlaylistDownloader.get_subtitles net cls schedule subtitles_data
        = Some (inl e))
  /\ (forall uris,
         PlaylistDownloader.playlist_segments net
           (playlist_url subtitles_data) = inr uris ->
         PlaylistDownloader.get_subtitles net cls
           (PlaylistDownloader.in_turn 0 (length uris)) subtitles_data
         = Some match PlaylistDownloader.download_all net uris with
                | inl e => inl e
                | inr texts =>
                    PlaylistDownloader.merge cls
                      (PlaylistDownloader.init cls
                         (language_code subtitles_data)) texts
                end).
Proof.
  unfold PlaylistDownloader.get_subtitles. split.
  - intros e -> schedule. reflexivity.
  - intros uris ->.
    pose proof (run_until_complete_in_turn_eq net [] uris) as H.
    simpl in H. rewrite H.
    now destruct (PlaylistDownloader.download_all net uris).
Qed.

Lemma get_subtitles_in_turn_witness :
  PlaylistDownloader.get_subtitles Examples.net_broken Model.subtitles
    (PlaylistDownloader.in_turn 0 3) Examples.track
  = Some (inl ClientError).
Proof.
  apply (proj2 (get_subtitles_in_turn Examples.net_broken Model.subtitles
                  Examples.track) Examples.segment_uris).
  reflexivity.
Defined.

(** X16. When the download of a segment raises, [get_subtitles] raises
    under every schedule under which it ends, and the exception is that
    of a segment of the playlist of which the download raises: the first
    of them to finish, which depends on the schedule. *)
Theorem get_subtitles_raises_exception_of_a_segment
    (net : PlaylistDownloader.Net) (cls : PlaylistDownloader.SubtitlesClass)
    (subtitles_data : SubtitlesData) (uris : list string)
    (segment_url : string) (e0 : exc) (schedule : list nat)
    (r : exc + PlaylistDownloader.Subtitles cls) :
  PlaylistDownloader.playlist_segments net (playlist_url subtitles_data)
  = inr uris ->
  In segment_url uris ->
  PlaylistDownloader._download_segment net segment_url = inl e0 ->
  PlaylistDownloader.get_subtitles net cls schedule subtitles_data
  = Some r ->
  exists u e,
    In u uris
    /\ PlaylistDownloader._download_segment net u = inl e
    /\ r = inl e.
Proof.
  intros Hplaylist Hin Hfail. unfold PlaylistDownloader.get_subtitles.
  rewrite Hplaylist.
  destruct (PlaylistDownloader.run_until_complete net schedule
              (map PlaylistDownloader.Requesting uris))
    as [[e | texts] |] eqn:Hrun; [| | discriminate].
  - intros [= <-]. apply run_until_complete_err in Hrun.
    rewrite results_of_requests in Hrun.
    apply List.in_map_iff in Hrun as (u & Hu & Hin').
    now exists u, e.
  - apply run_until_complete_ok in Hrun.
    rewrite results_of_requests in Hrun.
    assert (In (inl e0) (map (PlaylistDownloader._download_segment net) uris))
      as Hin' by (rewrite <- Hfail; now apply in_map).
    rewrite Hrun in Hin'. apply List.in_map_iff in Hin' as (s & Hs & _).
    discriminate Hs.
Qed.

Lemma get_subtitles_raises_exception_of_a_segment_witness :
  (exists u e,
      In u Examples.segment_uris
      /\ PlaylistDownloader._download_segment Examples.net_two_failures u
         = inl e
      /\ @inl exc (list (list string)) UnicodeDecodeError = inl e)
  /\ PlaylistDownloader.get_subtitles Examples.net_two_failures
       Model.subtitles [1; 1; 0; 0]%nat Examples.track
     = Some (inl UnicodeDecodeError)
  /\ PlaylistDownloader.get_subtitles Examples.net_two_failures
       Model.subtitles [0; 1; 1]%nat Examples.track
     = Some (inl ClientError).
Proof.
  split; [| split; reflexivity].
  apply (get_subtitles_raises_exception_of_a_segment
           Examples.net_two_failures Model.subtitles Examples.track
           Examples.segment_uris "https://cdn.example/en/seg0.webvtt"
           ClientError [1; 1; 0; 0]%nat (inl UnicodeDecodeError)).
  - reflexivity.
  - now left.
  - reflexivity.
  - reflexivity.
Defined.

(* ===================================================================== *)
(** ** Which playlists the JSON strategies return *)
(* ===================================================================== *)

Lemma first_loading_app (w : World) (a b : list json) :
  Scraper.first_loading w (a ++ b)
  = match Scraper.first_loading w a with
    | Some u => Some u
    | None => Scraper.first_loading w b
    end.
Proof.
  induction a as [| u a IH]; [reflexivity |].
  simpl. now destruct (m3u8_load w u).
Qed.

Lemma itunes_json_assets_first_loading (w : World) (title : json) (year : Z)
    (id : json) (assets : list json) :
  forallb Scraper.has_url assets = true ->
  (forall u, In u (Scraper.hls_urls assets) ->
             Scraper.loads_or_invalid w u = true) ->
  outcome (Scraper.itunes_json_assets w title year id assets)
  = inr (option_map
           (fun u => mkMovieData ITUNES title year [mkPlaylistData id u])
           (Scraper.first_loading w (Scraper.hls_urls assets))).
Proof.
  induction assets as [| asset rest IH]; intros Hwf Hload; [reflexivity |].
  rewrite itunes_json_assets_cons.
  simpl in Hwf, Hload |- *. apply andb_prop in Hwf as [Hurl Hwf].
  unfold Scraper.has_url in Hurl.
  destruct (outcome (Scraper.item asset "hlsUrl")) as [e | u];
    [discriminate Hurl |].
  pose proof (Hload u (or_introl eq_refl)) as Hu.
  unfold Scraper.loads_or_invalid in Hu. simpl.
  destruct (m3u8_load w u) as [e |]; [| reflexivity].
  rewrite Hu. simpl. apply IH; [assumption |].
  intros v Hv. apply Hload. now right.
Qed.

Lemma appletv_offers_first_loading (w : World) (id : json)
    (offers : list json) :
  forallb Scraper.has_url offers = true ->
  (forall u, In u (Scraper.hls_urls offers) ->
             Scraper.loads_or_invalid w u = true) ->
  outcome (Scraper.appletv_offers w id offers)
  = inr (option_map (mkPlaylistData id)
           (Scraper.first_loading w (Scraper.hls_urls offers))).
Proof.
  induction offers as [| offer rest IH]; intros Hwf Hload; [reflexivity |].
  rewrite appletv_offers_cons.
  simpl in Hwf, Hload |- *. apply andb_prop in Hwf as [Hurl Hwf].
  unfold Scraper.has_url in Hurl.
  destruct (outcome (Scraper.item offer "hlsUrl")) as [e | u];
    [discriminate Hurl |].
  pose proof (Hload u (or_introl eq_refl)) as Hu.
  unfold Scraper.loads_or_invalid in Hu. simpl.
  destruct (m3u8_load w u) as [e |]; [| reflexivity].
  rewrite Hu. simpl. apply IH; [assumption |].
  intros v Hv. apply Hload. now right.
Qed.

Lemma itunes_json_offer_first_loading (w : World) (title : json) (year : Z)
    (id offer : json) :
  Scraper.itunes_offer_well_formed offer = true ->
  (forall u, In u (Scraper.itunes_offer_candidates offer) ->
             Scraper.loads_or_invalid w u = true) ->
  outcome (Scraper.itunes_json_offer w title year id offer)
  = inr (option_map
           (fun u => mkMovieData ITUNES title year [mkPlaylistData id u])
           (Scraper.first_loading w (Scraper.itunes_offer_candidates offer))).
Proof.
  intros Hwf Hload.
  destruct offer as [| | | | | kv]; try discriminate Hwf.
  unfold Scraper.itunes_json_offer, Scraper.itunes_json_offer_type_ok,
    Scraper.itunes_json_offer_assets_ok, Scraper.item.
  simpl in *.
  destruct (Dyn.assoc "type" kv) as [[| | | t | |] |]; simpl;
    rewrite ?bind_ret_l; try reflexivity.
  unfold Dyn.eq_str.
  destruct (String.eqb t "buy" || String.eqb t "rent").
  - destruct (Dyn.assoc "assets" kv) as [[| | | | l |] |]; simpl;
      rewrite ?bind_ret_l; try reflexivity.
    destruct l as [| a l]; [reflexivity |].
    cbn [Dyn.len Dyn.iter]. rewrite !bind_ret_l.
    change (0 <? Z.of_nat (length (a :: l))) with true. cbv iota.
    rewrite ?bind_ret_l.
    now apply itunes_json_assets_first_loading.
  - destruct (Dyn.assoc "assets" kv) as [[| | | | l |] |]; reflexivity.
Qed.

Lemma itunes_json_offers_first_loading (w : World) (title : json) (year : Z)
    (id : json) (offers : list json) :
  forallb Scraper.itunes_offer_well_formed offers = true ->
  (forall u, In u (flat_map Scraper.itunes_offer_candidates offers) ->
             Scraper.loads_or_invalid w u = true) ->
  outcome (Scraper.itunes_json_offers w title year id offers)
  = inr (option_map
           (fun u => mkMovieData ITUNES title year [mkPlaylistData id u])
           (Scraper.first_loading w
              (flat_map Scraper.itunes_offer_candidates offers))).
Proof.
  induction offers as [| offer rest IH]; intros Hwf Hload; [reflexivity |].
  simpl in Hwf, Hload. apply andb_prop in Hwf as [Hwf1 Hwf2].
  cbn [Scraper.itunes_json_offers flat_map].
  rewrite outcome_bind, first_loading_app.
  rewrite itunes_json_offer_first_loading;
    [| assumption | intros u Hu; apply Hload, in_or_app; now left].
  destruct (Scraper.first_loading w (Scraper.itunes_offer_candidates offer));
    [reflexivity |].
  simpl. apply IH; [assumption |].
  intros u Hu. apply Hload, in_or_app. now right.
Qed.

(** X17. For an iTunes JSON response of which the fields and the offers
    are well formed, and of which every candidate playlist either loads
    or fails its validation, the record has the title and the year of the
    response and, as its only playlist, the first playlist that loads, in
    the order of the offers and of their assets; it has no playlist when
    none loads. *)
Theorem itunes_json_returns_first_loading_playlist (w : World)
    (json_data id title : json) (year : Z) (offers : list json) :
  Scraper.itunes_json_header json_data = ret (id, title, year, offers) ->
  forallb Scraper.itunes_offer_well_formed offers = true ->
  (forall u, In u (flat_map Scraper.itunes_offer_candidates offers) ->
             Scraper.loads_or_invalid w u = true) ->
  outcome (Scraper._find_playlist_data_itunes_json_ w json_data)
  = inr (mkMovieData ITUNES title year
           match Scraper.first_loading w
                   (flat_map Scraper.itunes_offer_candidates offers) with
           | Some u => [mkPlaylistData id u]
           | None => []
           end).
Proof.
  intros Hhead Hwf Hload.
  unfold Scraper._find_playlist_data_itunes_json_.
  rewrite Hhead, bind_ret_l, outcome_bind.
  rewrite itunes_json_offers_first_loading by assumption.
  now destruct (Scraper.first_loading w _).
Qed.

Lemma itunes_json_returns_first_loading_playlist_witness :
  outcome
    (Scraper._find_playlist_data_itunes_json_
       (Examples.world Examples.b_and_c_load Examples.json_response
          Examples.no_json [])
       (Examples.itunes_page
          [Examples.buy_offer ["https://play.example/a.m3u8"];
           Examples.buy_offer ["https://play.example/a.m3u8";
                               "https://play.example/c.m3u8";
                               "https://play.example/b.m3u8"]]))
  = inr (mkMovieData ITUNES (JStr "Example Movie") 2021
           [mkPlaylistData (JStr "123") (JStr "https://play.example/c.m3u8")]).
Proof.
  apply (itunes_json_returns_first_loading_playlist
           (Examples.world Examples.b_and_c_load Examples.json_response
              Examples.no_json [])
           _ (JStr "123") (JStr "Example Movie") 2021
           [Examples.buy_offer ["https://play.example/a.m3u8"];
            Examples.buy_offer ["https://play.example/a.m3u8";
                                "https://play.example/c.m3u8";
                                "https://play.example/b.m3u8"]]).
  - reflexivity.
  - reflexivity.
  - intros u Hu. simpl in Hu.
    destruct Hu as [<- | [<- | [<- | [<- | []]]]]; reflexivity.
Defined.

Lemma appletv_playables_entries (w : World) (playables : list json)
    (acc : list PlaylistData) :
  forallb Scraper.appletv_playable_well_formed playables = true ->
  (forall u, In u (flat_map Scraper.appletv_playable_candidates playables) ->
             Scraper.loads_or_invalid w u = true) ->
  outcome (Scraper.appletv_playables w playables acc [])
  = inr (acc ++ flat_map (Scraper.appletv_playable_entry w) playables).
Proof.
  revert acc. induction playables as [| playable rest IH];
    intros acc Hwf Hload.
  - simpl. now rewrite app_nil_r.
  - simpl in Hwf, Hload. apply andb_prop in Hwf as [Hwf1 Hwf2].
    assert (forall u, In u (Scraper.appletv_playable_candidates playable) ->
                      Scraper.loads_or_invalid w u = true) as Hload1
        by (intros u Hu; apply Hload, in_or_app; now left).
    assert (forall acc',
               outcome (Scraper.appletv_playables w rest acc' [])
               = inr (acc' ++ flat_map (Scraper.appletv_playable_entry w)
                                rest)) as Hrest
        by (intros acc'; apply IH; [assumption |];
            intros u Hu; apply Hload, in_or_app; now right).
    clear IH Hload Hwf2.
    cbn [Scraper.appletv_playables flat_map].
    unfold Scraper.appletv_playable_well_formed in Hwf1.
    unfold Scraper.appletv_playable_candidates in Hload1.
    unfold Scraper.appletv_playable_entry,
      Scraper.appletv_playable_candidates.
    rewrite bind_pure by auto with pure.
    destruct (outcome (Scraper.item playable "isItunes")) as [e | b];
      [discriminate Hwf1 |].
    destruct (Dyn.truthy b); [| apply Hrest].
    rewrite bind_pure by auto with pure.
    destruct (outcome (Scraper.item playable "externalId")) as [e | pid];
      [discriminate Hwf1 |].
    rewrite (bind_pure (Scraper.item playable "itunesMediaApiData"))
      by auto with pure.
    destruct (outcome (Scraper.item playable "itunesMediaApiData"))
      as [e | api]; [discriminate Hwf1 |].
    apply andb_prop in Hwf1 as [Hhash Hoffers].
    unfold Scraper.not_in_set. rewrite Hhash, bind_ret_l.
    cbn [existsb negb].
    rewrite bind_pure by auto with pure.
    destruct (outcome (Scraper.item api "offers"))
      as [e | [| | | | offers |]]; try discriminate Hoffers.
    cbn [Dyn.iter]. rewrite bind_ret_l, outcome_bind.
    rewrite (appletv_offers_first_loading w pid offers Hoffers Hload1).
    destruct (Scraper.first_loading w (Scraper.hls_urls offers)) as [u |];
      simpl; rewrite Hrest; [now rewrite <- app_assoc | reflexivity].
Qed.

(** X18. For an AppleTV JSON response of which the fields and the
    playables are well formed, and of which every candidate playlist
    either loads or fails its validation, the record lists, in the order
    of the playables, one entry for every iTunes playable that has a
    playlist that loads: its external id with the first of its playlists
    that loads. *)
Theorem appletv_json_returns_first_loading_playlists (w : World)
    (json_data title : json) (year : Z) (playables : list json) :
  Scraper.appletv_json_header w json_data = ret (title, year, playables) ->
  forallb Scraper.appletv_playable_well_formed playables = true ->
  (forall u, In u (flat_map Scraper.appletv_playable_candidates playables) ->
             Scraper.loads_or_invalid w u = true) ->
  outcome (Scraper._find_playlist_data_appletv_json_ w json_data)
  = inr (mkMovieData APPLETV title year
           (flat_map (Scraper.appletv_playable_entry w) playables)).
Proof.
  intros Hhead Hwf Hload.
  unfold Scraper._find_playlist_data_appletv_json_.
  rewrite Hhead, bind_ret_l, outcome_bind.
  now rewrite appletv_playables_entries.
Qed.

Lemma appletv_json_returns_first_loading_playlists_witness :
  outcome
    (Scraper._find_playlist_data_appletv_json_
       (Examples.world Examples.b_and_c_load Examples.json_response
          Examples.no_json [])
       Examples.appletv_three_playables)
  = inr (mkMovieData APPLETV (JStr "Example Movie") 2021
           [mkPlaylistData (JStr "111") (JStr "https://play.example/b.m3u8")]).
Proof.
  apply (appletv_json_returns_first_loading_playlists
           (Examples.world Examples.b_and_c_load Examples.json_response
              Examples.no_json [])
           Examples.appletv_three_playables (JStr "Example Movie") 2021
           [JObj [("isItunes", JBool true);
                  ("externalId", JStr "111");
                  ("itunesMediaApiData",
                   JObj [("offers",
                          JArr
                            [JObj [("hlsUrl",
                                    JStr "https://play.example/a.m3u8")];
                             JObj [("hlsUrl",
                                    JStr "https://play.example/b.m3u8")];
                             JObj [("hlsUrl",
                                    JStr "https://play.example/c.m3u8")]])])];
            JObj [("isItunes", JBool false)];
            Examples.playable "333" "https://play.example/a.m3u8"]).
  - reflexivity.
  - reflexivity.
  - intros u Hu. simpl in Hu.
    destruct Hu as [<- | [<- | [<- | [<- | []]]]]; reflexivity.
Defined.

(* ===================================================================== *)
(** ** No valid asset *)
(* ===================================================================== *)

Lemma first_loading_none_app (w : World) (a b : list json) :
  Scraper.first_loading w (a ++ b) = None ->
  Scraper.first_loading w a = None /\ Scraper.first_loading w b = None.
Proof.
  rewrite first_loading_app.
  destruct (Scraper.first_loading w a); [discriminate | now split].
Qed.

Lemma first_uncaught_app (w : World) (a b : list json) :
  Scraper.first_loading w a = None ->
  Scraper.first_uncaught w (a ++ b)
  = match Scraper.first_uncaught w a with
    | Some e => Some e
    | None => Scraper.first_uncaught w b
    end.
Proof.
  induction a as [| u a IH]; [reflexivity |].
  simpl. destruct (m3u8_load w u) as [e |]; [| discriminate].
  destruct (Scraper.caught e); [exact IH | reflexivity].
Qed.

(** Candidates that all fail their validation: none loads, and no
    exception leaves the scan. *)
Lemma all_invalid_none_loading (w : World) (urls : list json) :
  (forall u, In u urls -> Scraper.invalid w u = true) ->
  Scraper.first_loading w urls = None
  /\ Scraper.first_uncaught w urls = None.
Proof.
  induction urls as [| u urls IH]; intros Hinv; [now split |].
  pose proof (Hinv u (or_introl eq_refl)) as Hu.
  unfold Scraper.invalid in Hu. simpl.
  destruct (m3u8_load w u) as [e |]; [| discriminate Hu].
  rewrite Hu. apply IH. intros v Hv. apply Hinv. now right.
Qed.

(** A scan of candidates of which none loads ends with no result, or
    with the first exception that the validation does not catch. *)
Lemma itunes_json_assets_none_loading (w : World) (title : json) (year : Z)
    (id : json) (assets : list json) :
  forallb Scraper.has_url assets = true ->
  Scraper.first_loading w (Scraper.hls_urls assets) = None ->
  outcome (Scraper.itunes_json_assets w title year id assets)
  = match Scraper.first_uncaught w (Scraper.hls_urls assets) with
    | Some e => inl e
    | None => inr None
    end.
Proof.
  induction assets as [| asset rest IH]; intros Hwf Hnone; [reflexivity |].
  rewrite itunes_json_assets_cons.
  simpl in Hwf, Hnone |- *. apply andb_prop in Hwf as [Hurl Hwf].
  unfold Scraper.has_url in Hurl.
  destruct (outcome (Scraper.item asset "hlsUrl")) as [e | u];
    [discriminate Hurl |].
  simpl in Hnone |- *.
  destruct (m3u8_load w u) as [e |]; [| discriminate Hnone].
  destruct (Scraper.caught e); [| reflexivity].
  simpl. now apply IH.
Qed.

Lemma appletv_offers_none_loading (w : World) (id : json)
    (offers : list json) :
  forallb Scraper.has_url offers = true ->
  Scraper.first_loading w (Scraper.hls_urls offers) = None ->
  outcome (Scraper.appletv_offers w id offers)
  = match Scraper.first_uncaught w (Scraper.hls_urls offers) with
    | Some e => inl e
    | None => inr None
    end.
Proof.
  induction offers as [| offer rest IH]; intros Hwf Hnone; [reflexivity |].
  rewrite appletv_offers_cons.
  simpl in Hwf, Hnone |- *. apply andb_prop in Hwf as [Hurl Hwf].
  unfold Scraper.has_url in Hurl.
  destruct (outcome (Scraper.item offer "hlsUrl")) as [e | u];
    [discriminate Hurl |].
  simpl in Hnone |- *.
  destruct (m3u8_load w u) as [e |]; [| discriminate Hnone].
  destruct (Scraper.caught e); [| reflexivity].
  simpl. now apply IH.
Qed.

Lemma itunes_json_offer_none_loading (w : World) (title : json) (year : Z)
    (id offer : json) :
  Scraper.itunes_offer_well_formed offer = true ->
  Scraper.first_loading w (Scraper.itunes_offer_candidates offer) = None ->
  outcome (Scraper.itunes_json_offer w title year id offer)
  = match Scraper.first_uncaught w (Scraper.itunes_offer_candidates offer)
    with
    | Some e => inl e
    | None => inr None
    end.
Proof.
  intros Hwf Hnone.
  destruct offer as [| | | | | kv]; try discriminate Hwf.
  unfold Scraper.itunes_json_offer, Scraper.itunes_json_offer_type_ok,
    Scraper.itunes_json_offer_assets_ok, Scraper.item.
  simpl in *.
  destruct (Dyn.assoc "type" kv) as [[| | | t | |] |]; simpl;
    rewrite ?bind_ret_l; try reflexivity.
  unfold Dyn.eq_str.
  destruct (String.eqb t "buy" || String.eqb t "rent").
  - destruct (Dyn.assoc "assets" kv) as [[| | | | l |] |]; simpl;
      rewrite ?bind_ret_l; try reflexivity.
    destruct l as [| a l]; [reflexivity |].
    cbn [Dyn.len Dyn.iter]. rewrite !bind_ret_l.
    change (0 <? Z.of_nat (length (a :: l))) with true. cbv iota.
    rewrite ?bind_ret_l.
    now apply itunes_json_assets_none_loading.
  - destruct (Dyn.assoc "assets" kv) as [[| | | | l |] |]; reflexivity.
Qed.

Lemma itunes_json_offers_none_loading (w : World) (title : json) (year : Z)
    (id : json) (offers : list json) :
  forallb Scraper.itunes_offer_well_formed offers = true ->
  Scraper.first_loading w (flat_map Scraper.itunes_offer_candidates offers)
  = None ->
  outcome (Scraper.itunes_json_offers w title year id offers)
  = match Scraper.first_uncaught w
            (flat_map Scraper.itunes_offer_candidates offers) with
    | Some e => inl e
    | None => inr None
    end.
Proof.
  induction offers as [| offer rest IH]; intros Hwf Hnone; [reflexivity |].
  simpl in Hwf, Hnone. apply andb_prop in Hwf as [Hwf1 Hwf2].
  apply first_loading_none_app in Hnone as [Hnone1 Hnone2].
  cbn [Scraper.itunes_json_offers flat_map].
  rewrite outcome_bind, first_uncaught_app by assumption.
  rewrite itunes_json_offer_none_loading by assumption.
  destruct (Scraper.first_uncaught w
              (Scraper.itunes_offer_candidates offer)); [reflexivity |].
  now apply IH.
Qed.

Lemma appletv_playables_none_loading (w : World) (playables : list json)
    (playlists : list PlaylistData) :
  forallb Scraper.appletv_playable_well_formed playables = true ->
  Scraper.first_loading w
    (flat_map Scraper.appletv_playable_candidates playables) = None ->
  outcome (Scraper.appletv_playables w playables playlists [])
  = match Scraper.first_uncaught w
            (flat_map Scraper.appletv_playable_candidates playables) with
    | Some e => inl e
    | None => inr playlists
    end.
Proof.
  induction playables as [| playable rest IH]; intros Hwf Hnone;
    [reflexivity |].
  simpl in Hwf, Hnone. apply andb_prop in Hwf as [Hwf1 Hwf2].
  apply first_loading_none_app in Hnone as [Hnone1 Hnone2].
  specialize (IH Hwf2 Hnone2).
  cbn [flat_map]. rewrite first_uncaught_app by assumption.
  cbn [Scraper.appletv_playables].
  unfold Scraper.appletv_playable_well_formed in Hwf1.
  unfold Scraper.appletv_playable_candidates in Hnone1 |- *.
  rewrite bind_pure by auto with pure.
  destruct (outcome (Scraper.item playable "isItunes")) as [e | b];
    [discriminate Hwf1 |].
  destruct (Dyn.truthy b); [| exact IH].
  rewrite bind_pure by auto with pure.
  destruct (outcome (Scraper.item playable "externalId")) as [e | pid];
    [discriminate Hwf1 |].
  rewrite (bind_pure (Scraper.item playable "itunesMediaApiData"))
    by auto with pure.
  destruct (outcome (Scraper.item playable "itunesMediaApiData"))
    as [e | api]; [discriminate Hwf1 |].
  apply andb_prop in Hwf1 as [Hhash Hoffers].
  unfold Scraper.not_in_set. rewrite Hhash, bind_ret_l.
  cbn [existsb negb].
  rewrite bind_pure by auto with pure.
  destruct (outcome (Scraper.item api "offers")) as [e | [| | | | offers |]];
    try discriminate Hoffers.
  cbn [Dyn.iter]. rewrite bind_ret_l, outcome_bind.
  rewrite (appletv_offers_none_loading w pid offers Hoffers Hnone1).
  destruct (Scraper.first_uncaught w (Scraper.hls_urls offers));
    [reflexivity | exact IH].
Qed.

(** C9, as the code has it. For a response of which the fields parse and
    of which no candidate playlist loads, the two JSON strategies go
    through the candidates in order. When every load raises an exception
    that the validation catches, a [ValueError] or an [HTTPError], the
    result is a record with the title and the year of the response and
    no playlist, and no exception. When a load raises another exception,
    the first such exception leaves the strategy and there is no
    record. *)
Theorem no_valid_asset_gives_empty_record_or_raises (w : World) :
  (forall (json_data id title : json) (year : Z) (offers : list json),
      Scraper.itunes_json_header json_data = ret (id, title, year, offers) ->
      forallb Scraper.itunes_offer_well_formed offers = true ->
      Scraper.first_loading w
        (flat_map Scraper.itunes_offer_candidates offers) = None ->
      outcome (Scraper._find_playlist_data_itunes_json_ w json_data)
      = match Scraper.first_uncaught w
                (flat_map Scraper.itunes_offer_candidates offers) with
        | Some e => inl e
        | None => inr (mkMovieData ITUNES title year [])
        end)
  /\ (forall (json_data title : json) (year : Z) (playables : list json),
         Scraper.appletv_json_header w json_data
         = ret (title, year, playables) ->
         forallb Scraper.appletv_playable_well_formed playables = true ->
         Scraper.first_loading w
           (flat_map Scraper.appletv_playable_candidates playables) = None ->
         outcome (Scraper._find_playlist_data_appletv_json_ w json_data)
         = match Scraper.first_uncaught w
                   (flat_map Scraper.appletv_playable_candidates playables)
           with
           | Some e => inl e
           | None => inr (mkMovieData APPLETV title year [])
           end)
  /\ (forall urls : list json,
         (forall u, In u urls -> Scraper.invalid w u = true) ->
         Scraper.first_loading w urls = None
         /\ Scraper.first_uncaught w urls = None)
  /\ (forall (before after : list json) (u : json) (e : exc),
         (forall v, In v before -> Scraper.invalid w v = true) ->
         m3u8_load w u = Some e ->
         Scraper.caught e = false ->
         Scraper.first_uncaught w (before ++ u :: after) = Some e).
Proof.
  split; [| split; [| split]].
  - intros json_data id title year offers Hhead Hwf Hnone.
    unfold Scraper._find_playlist_data_itunes_json_.
    rewrite Hhead, bind_ret_l, outcome_bind.
    rewrite itunes_json_offers_none_loading by assumption.
    now destruct (Scraper.first_uncaught w _).
  - intros json_data title year playables Hhead Hwf Hnone.
    unfold Scraper._find_playlist_data_appletv_json_.
    rewrite Hhead, bind_ret_l, outcome_bind.
    rewrite appletv_playables_none_loading by assumption.
    now destruct (Scraper.first_uncaught w _).
  - apply all_invalid_none_loading.
  - intros before after u e Hinv Hu He.
    destruct (all_invalid_none_loading w before Hinv) as [Hnone Hcaught].
    rewrite first_uncaught_app, Hcaught by assumption.
    simpl. now rewrite Hu, He.
Qed.

Lemma no_valid_asset_gives_empty_record_or_raises_witness :
  outcome
    (Scraper._find_playlist_data_itunes_json_
       (Examples.world Examples.all_not_found Examples.json_response
       Examples.no_json [])
       (Examples.itunes_page
          [Examples.buy_offer ["https://play.example/a.m3u8";
                               "https://play.example/b.m3u8"]]))
  = inr (mkMovieData ITUNES (JStr "Example Movie") 2021 [])
  /\ outcome
       (Scraper._find_playlist_data_appletv_json_
          (Examples.world Examples.all_malformed Examples.json_response
             Examples.no_json [])
          Examples.appletv_same_id_twice)
     = inr (mkMovieData APPLETV (JStr "Example Movie") 2021 []).
Proof.
  split.
  - apply (proj1 (no_valid_asset_gives_empty_record_or_raises
                    (Examples.world Examples.all_not_found
                       Examples.json_response Examples.no_json []))
             _ (JStr "123")
             _ _ [Examples.buy_offer ["https://play.example/a.m3u8";
                                      "https://play.example/b.m3u8"]]);
      reflexivity.
  - apply (proj1 (proj2 (no_valid_asset_gives_empty_record_or_raises
                    (Examples.world Examples.all_malformed
                       Examples.json_response Examples.no_json [])))
             _ _ _
             [Examples.playable "123" "https://play.example/a.m3u8";
              Examples.playable "123" "https://play.example/b.m3u8"]);
      reflexivity.
Defined.

(** A response of which the fields parse and of which no playlist loads,
    because the host cannot be reached: [m3u8.load] raises [URLError],
    which the validation does not catch, and the strategy raises instead
    of giving a record with no playlist. *)
Lemma no_valid_asset_raises_when_host_is_unreachable :
  Scraper.appletv_json_header
    (Examples.world Examples.unreachable Examples.json_response
       Examples.no_json [])
    Examples.appletv_same_id_twice
  = ret (JStr "Example Movie", 2021,
         [Examples.playable "123" "https://play.example/a.m3u8";
          Examples.playable "123" "https://play.example/b.m3u8"])
  /\ forallb Scraper.appletv_playable_well_formed
       [Examples.playable "123" "https://play.example/a.m3u8";
        Examples.playable "123" "https://play.example/b.m3u8"] = true
  /\ Scraper.first_loading
       (Examples.world Examples.unreachable Examples.json_response
          Examples.no_json [])
       (flat_map Scraper.appletv_playable_candidates
          [Examples.playable "123" "https://play.example/a.m3u8";
           Examples.playable "123" "https://play.example/b.m3u8"])
     = None
  /\ Scraper._find_playlist_data_appletv_json_
       (Examples.world Examples.unreachable Examples.json_response
          Examples.no_json [])
       Examples.appletv_same_id_twice
     = ([Load (JStr "https://play.example/a.m3u8")], inl URLError)
  /\ Scraper._find_playlist_data_itunes_json_
       (Examples.world Examples.unreachable Examples.json_response
          Examples.no_json [])
       (Examples.itunes_page
          [Examples.buy_offer ["https://play.example/a.m3u8";
                               "https://play.example/b.m3u8"]])
     = ([Load (JStr "https://play.example/a.m3u8")], inl URLError).
Proof. repeat split. Qed.

(* ===================================================================== *)
(** ** The release year *)
(* ===================================================================== *)

(** A year has 366 days when it is a leap year, and 365 otherwise. *)
Lemma days_before_next_year (y : Z) :
  Datetime.days_before_year (y + 1)
  = Datetime.days_before_year y + (if Datetime.is_leap y then 366 else 365).
Proof.
  unfold Datetime.days_before_year, Datetime.is_leap. cbv zeta.
  destruct (y mod 4 =? 0) eqn:E4; destruct (y mod 100 =? 0) eqn:E100;
    destruct (y mod 400 =? 0) eqn:E400; simpl;
    rewrite ?Z.eqb_eq, ?Z.eqb_neq in *;
    Z.div_mod_to_equations; lia.
Qed.

(** The year of an ordinal is the year in which the day falls. *)
Lemma ord2year_spec (n : Z) :
  Datetime.days_before_year (Datetime.ord2year n) < n
  <= Datetime.days_before_year (Datetime.ord2year n + 1).
Proof.
  unfold Datetime.ord2year, Datetime.days_before_year. cbv zeta.
  destruct ((_ =? 4) || (_ =? 4)) eqn:E.
  - apply orb_true_iff in E. rewrite !Z.eqb_eq in E.
    Z.div_mod_to_equations. lia.
  - apply orb_false_iff in E. rewrite !Z.eqb_neq in E.
    Z.div_mod_to_equations. lia.
Qed.

Lemma ord2year_range (n : Z) :
  0 < n <= Datetime.MAXORDINAL -> 1 <= Datetime.ord2year n <= 9999.
Proof.
  intros Hn. pose proof (ord2year_spec n) as H.
  unfold Datetime.MAXORDINAL in Hn.
  unfold Datetime.days_before_year in H. cbv zeta in H.
  Z.div_mod_to_equations. lia.
Qed.

(** The days before a year grow with the year. *)
Lemma days_before_year_mono (y y' : Z) :
  y <= y' -> Datetime.days_before_year y <= Datetime.days_before_year y'.
Proof.
  unfold Datetime.days_before_year. cbv zeta. intros H.
  Z.div_mod_to_equations. lia.
Qed.

(** The year of an ordinal is the only year in which the day falls. *)
Lemma ord2year_unique (n y : Z) :
  Datetime.days_before_year y < n <= Datetime.days_before_year (y + 1) ->
  Datetime.ord2year n = y.
Proof.
  intros Hy. pose proof (ord2year_spec n) as Hn.
  destruct (Z.lt_trichotomy (Datetime.ord2year n) y) as [Hlt | [Heq | Hgt]];
    [| assumption |].
  - pose proof (days_before_year_mono (Datetime.ord2year n + 1) y). lia.
  - pose proof (days_before_year_mono (y + 1) (Datetime.ord2year n)). lia.
Qed.

(** The days of the years 1 to 9999 are the ordinals that [datetime]
    represents. *)
Lemma ordinal_of_year_in_range (n y : Z) :
  1 <= y <= 9999 ->
  Datetime.days_before_year y < n <= Datetime.days_before_year (y + 1) ->
  0 < n <= Datetime.MAXORDINAL.
Proof.
  intros Hy Hn.
  pose proof (days_before_year_mono 1 y).
  pose proof (days_before_year_mono (y + 1) 10000).
  change (Datetime.days_before_year 1) with 0 in *.
  change (Datetime.days_before_year 10000) with 3652059 in *.
  unfold Datetime.MAXORDINAL. lia.
Qed.

(** A day of a month of a year is a day of that year. *)
Lemma ymd2ord_in_year (y m d : Z) :
  1 <= m <= 12 ->
  1 <= d <= Datetime.days_in_month y m ->
  Datetime.days_before_year y < Datetime.ymd2ord y m d
  <= Datetime.days_before_year (y + 1).
Proof.
  intros Hm Hd. rewrite days_before_next_year.
  unfold Datetime.ymd2ord, Datetime.days_before_month.
  unfold Datetime.days_in_month in Hd.
  assert (m = 1 \/ m = 2 \/ m = 3 \/ m = 4 \/ m = 5 \/ m = 6 \/ m = 7
          \/ m = 8 \/ m = 9 \/ m = 10 \/ m = 11 \/ m = 12) as Hc by lia.
  destruct (Datetime.is_leap y);
    repeat (destruct Hc as [-> | Hc]; [simpl in Hd |- *; lia |]);
    subst m; simpl in Hd |- *; lia.
Qed.

(** The day of an instant that is given as a second of a day. *)
Lemma day_of_timegm (y m d second : Z) :
  0 <= second < 86400 ->
  Datetime.EPOCH_ORDINAL + Datetime.timegm y m d second / 86400
  = Datetime.ymd2ord y m d.
Proof.
  intros Hs. unfold Datetime.timegm.
  rewrite Z.div_add_l, (Z.div_small second) by lia. lia.
Qed.

(** The year of a date before 1970, or of 1970-01-01 at 00:00, that is
    given in seconds. *)
Lemma year_of_epoch_delta_eq (s : Z) :
  s <= 0 ->
  Datetime.year_of_epoch_delta s
  = if 0 <? Datetime.EPOCH_ORDINAL + s / 86400
    then ret (Datetime.ord2year (Datetime.EPOCH_ORDINAL + s / 86400))
    else raise OverflowError.
Proof.
  intros Hs. unfold Datetime.year_of_epoch_delta. cbv zeta.
  assert ((Datetime.EPOCH_ORDINAL + s / 86400 <=? Datetime.MAXORDINAL)
          = true) as ->.
  { apply Z.leb_le. unfold Datetime.EPOCH_ORDINAL, Datetime.MAXORDINAL.
    Z.div_mod_to_equations. lia. }
  rewrite andb_true_r.
  destruct (999999999 <? Z.abs (s / 86400)) eqn:Habs; [| reflexivity].
  apply Z.ltb_lt in Habs.
  assert ((0 <? Datetime.EPOCH_ORDINAL + s / 86400) = false) as ->;
    [| reflexivity].
  apply Z.ltb_ge. unfold Datetime.EPOCH_ORDINAL.
  Z.div_mod_to_equations. lia.
Qed.

(** The release year of an instant of which the day, in UTC when the
    instant is not after 1970-01-01 at 00:00 and in the local time
    otherwise, is a day of the year [y]. *)
Lemma appletv_release_year_of_day (w : World) (ms y : Z) :
  1 <= y <= 9999 ->
  (ms / 1000 <= 0 ->
   Datetime.days_before_year y
   < Datetime.EPOCH_ORDINAL + ms / 1000 / 86400
   <= Datetime.days_before_year (y + 1)) ->
  (0 < ms / 1000 ->
   exists offset,
     localtime w (ms / 1000) = inr offset
     /\ Datetime.days_before_year y
        < Datetime.EPOCH_ORDINAL + (ms / 1000 + offset) / 86400
        <= Datetime.days_before_year (y + 1)) ->
  Scraper.appletv_release_year w (JNum ms) = ret y.
Proof.
  intros Hy Hold Hnew.
  unfold Scraper.appletv_release_year, Scraper.floordiv.
  rewrite bind_ret_l.
  destruct (0 <? ms / 1000) eqn:Hs.
  - apply Z.ltb_lt in Hs. destruct (Hnew Hs) as (offset & Hlocal & Hday).
    unfold Datetime.fromtimestamp_year. rewrite Hlocal. cbv zeta.
    pose proof (ordinal_of_year_in_range _ y Hy Hday) as [H1 H2].
    apply Z.ltb_lt in H1. apply Z.leb_le in H2. rewrite H1, H2.
    cbn [andb]. now rewrite (ord2year_unique _ y Hday).
  - apply Z.ltb_ge in Hs. specialize (Hold Hs).
    rewrite year_of_epoch_delta_eq by assumption.
    pose proof (ordinal_of_year_in_range _ y Hy Hold) as [H1 _].
    apply Z.ltb_lt in H1. rewrite H1.
    now rewrite (ord2year_unique _ y Hold).
Qed.

(** X19. The release year of an AppleTV response is the year of the
    Gregorian calendar in which the day of the release falls, and it is
    between 1 and 9999. For a time stamp that is not positive the day is
    that of the time stamp in UTC, and a day before the year 1 raises
    [OverflowError]. For a positive time stamp the day is that of the
    local time of the platform: a day after the year 9999 raises
    [ValueError], and an exception of the conversion of the platform
    leaves the function as it is. *)
Theorem appletv_release_year_is_calendar_year (w : World) (ms : Z) :
  let seconds := ms / 1000 in
  (seconds <= 0 ->
   let ordinal := Datetime.EPOCH_ORDINAL + seconds / 86400 in
   (0 < ordinal ->
    exists y,
      Scraper.appletv_release_year w (JNum ms) = ret y
      /\ 1 <= y <= 1970
      /\ Datetime.days_before_year y < ordinal
         <= Datetime.days_before_year (y + 1))
   /\ (ordinal <= 0 ->
       Scraper.appletv_release_year w (JNum ms) = raise OverflowError))
  /\ (0 < seconds ->
      (forall e,
          localtime w seconds = inl e ->
          Scraper.appletv_release_year w (JNum ms) = raise e)
      /\ (forall offset,
             localtime w seconds = inr offset ->
             let ordinal :=
               Datetime.EPOCH_ORDINAL + (seconds + offset) / 86400 in
             (0 < ordinal <= Datetime.MAXORDINAL ->
              exists y,
                Scraper.appletv_release_year w (JNum ms) = ret y
                /\ 1 <= y <= 9999
                /\ Datetime.days_before_year y < ordinal
                   <= Datetime.days_before_year (y + 1))
             /\ (~ 0 < ordinal <= Datetime.MAXORDINAL ->
                 Scraper.appletv_release_year w (JNum ms)
                 = raise ValueError))).
Proof.
  intros seconds. split.
  - intros Hs ordinal.
    unfold Scraper.appletv_release_year, Scraper.floordiv.
    rewrite bind_ret_l. fold seconds.
    assert ((0 <? seconds) = false) as -> by (apply Z.ltb_ge; lia).
    rewrite year_of_epoch_delta_eq by assumption. fold ordinal. split.
    + intros Hpos. apply Z.ltb_lt in Hpos as Hpos'. rewrite Hpos'.
      exists (Datetime.ord2year ordinal). split; [reflexivity |].
      pose proof (ord2year_spec ordinal) as Hspec.
      split; [| assumption].
      assert (ordinal <= Datetime.EPOCH_ORDINAL) as Hle.
      { unfold ordinal. Z.div_mod_to_equations. lia. }
      assert (0 < ordinal <= Datetime.MAXORDINAL) as Hin
          by (unfold Datetime.EPOCH_ORDINAL, Datetime.MAXORDINAL in *; lia).
      pose proof (ord2year_range ordinal Hin) as [Hlo _].
      split; [assumption |].
      destruct (Z.le_gt_cases (Datetime.ord2year ordinal) 1970)
        as [Hy | Hy]; [assumption |].
      pose proof (days_before_year_mono 1971 (Datetime.ord2year ordinal)).
      change (Datetime.days_before_year 1971) with 719527 in *.
      unfold Datetime.EPOCH_ORDINAL in Hle. lia.
    + intros Hneg.
      assert ((0 <? ordinal) = false) as -> by (apply Z.ltb_ge; lia).
      reflexivity.
  - intros Hs.
    assert (Scraper.appletv_release_year w (JNum ms)
            = Datetime.fromtimestamp_year (localtime w) seconds) as ->.
    { unfold Scraper.appletv_release_year, Scraper.floordiv.
      rewrite bind_ret_l. fold seconds.
      now assert ((0 <? seconds) = true) as -> by (apply Z.ltb_lt; lia). }
    split.
    + intros e Hlocal. unfold Datetime.fromtimestamp_year.
      now rewrite Hlocal.
    + intros offset Hlocal ordinal. unfold Datetime.fromtimestamp_year.
      rewrite Hlocal. cbv zeta. fold ordinal. split.
      * intros [H1 H2].
        apply Z.ltb_lt in H1 as H1'. apply Z.leb_le in H2 as H2'.
        rewrite H1', H2'. exists (Datetime.ord2year ordinal).
        split; [reflexivity |]. split.
        -- now apply ord2year_range.
        -- apply ord2year_spec.
      * intros Hout.
        destruct ((0 <? ordinal) && (ordinal <=? Datetime.MAXORDINAL))
          eqn:E; [| reflexivity].
        apply andb_prop in E as [E1 E2].
        apply Z.ltb_lt in E1. apply Z.leb_le in E2. destruct Hout. lia.
Qed.

Lemma appletv_release_year_is_calendar_year_witness :
  (exists y,
      Scraper.appletv_release_year
        (Examples.world Examples.all_valid Examples.json_response
           Examples.no_json [])
        (JNum (-86400000))
      = ret y
      /\ 1 <= y <= 1970
      /\ Datetime.days_before_year y < 719162
         <= Datetime.days_before_year (y + 1))
  /\ (exists y,
         Scraper.appletv_release_year
           (Examples.world Examples.all_valid Examples.json_response
              Examples.no_json [])
           (JNum 1625788800000)
         = ret y
         /\ 1 <= y <= 9999
         /\ Datetime.days_before_year y < 737980
            <= Datetime.days_before_year (y + 1))
  /\ Scraper.appletv_release_year
       (Examples.world Examples.all_valid Examples.json_response
          Examples.no_json [])
       (JNum 253402300800000)
     = raise ValueError.
Proof.
  split; [| split].
  - apply (proj1 (proj1 (appletv_release_year_is_calendar_year
                           (Examples.world Examples.all_valid
                              Examples.json_response Examples.no_json [])
                           (-86400000))
                    ltac:(vm_compute; discriminate))).
    reflexivity.
  - apply (proj1 (proj2 (proj2 (appletv_release_year_is_calendar_year
                                  (Examples.world Examples.all_valid
                                     Examples.json_response
                                     Examples.no_json [])
                                  1625788800000)
                           ltac:(reflexivity))
                    0 eq_refl)).
    vm_compute. split; [reflexivity | discriminate].
  - apply (proj2 (proj2 (proj2 (appletv_release_year_is_calendar_year
                                  (Examples.world Examples.all_valid
                                     Examples.json_response
                                     Examples.no_json [])
                                  253402300800000)
                           ltac:(reflexivity))
                    0 eq_refl)).
    vm_compute. intros [_ H]. now apply H.
Defined.

Lemma digit_of_digit_char (k : Z) :
  0 <= k <= 9 -> Datetime.digit (Datetime.digit_char k) = Some k.
Proof.
  intros H.
  assert (k = 0 \/ k = 1 \/ k = 2 \/ k = 3 \/ k = 4 \/ k = 5 \/ k = 6
          \/ k = 7 \/ k = 8 \/ k = 9) as Hk by lia.
  repeat (destruct Hk as [-> | Hk]; [reflexivity |]). now subst.
Qed.

Lemma parse_Y_digits (a b c d : Z) (rest : string) :
  0 <= a <= 9 -> 0 <= b <= 9 -> 0 <= c <= 9 -> 0 <= d <= 9 ->
  Datetime.parse_Y
    (String (Datetime.digit_char a)
       (String (Datetime.digit_char b)
          (String (Datetime.digit_char c)
             (String (Datetime.digit_char d) rest))))
  = Some (a * 1000 + b * 100 + c * 10 + d, rest).
Proof.
  intros Ha Hb Hc Hd. unfold Datetime.parse_Y.
  now rewrite !digit_of_digit_char.
Qed.

Lemma parse_m_two_digits (m : Z) (rest : string) :
  1 <= m <= 12 ->
  Datetime.parse_m (Datetime.two_digits m rest) = Some (m, rest).
Proof.
  intros H.
  assert (m = 1 \/ m = 2 \/ m = 3 \/ m = 4 \/ m = 5 \/ m = 6 \/ m = 7
          \/ m = 8 \/ m = 9 \/ m = 10 \/ m = 11 \/ m = 12) as Hm by lia.
  repeat (destruct Hm as [-> | Hm]; [reflexivity |]). now subst.
Qed.

Lemma parse_d_two_digits (d : Z) :
  1 <= d <= 31 ->
  Datetime.parse_d (Datetime.two_digits d "") = Some (d, "").
Proof.
  intros H.
  assert (d = 1 \/ d = 2 \/ d = 3 \/ d = 4 \/ d = 5 \/ d = 6 \/ d = 7
          \/ d = 8 \/ d = 9 \/ d = 10 \/ d = 11 \/ d = 12 \/ d = 13
          \/ d = 14 \/ d = 15 \/ d = 16 \/ d = 17 \/ d = 18 \/ d = 19
          \/ d = 20 \/ d = 21 \/ d = 22 \/ d = 23 \/ d = 24 \/ d = 25
          \/ d = 26 \/ d = 27 \/ d = 28 \/ d = 29 \/ d = 30 \/ d = 31)
    as Hd by lia.
  repeat (destruct Hd as [-> | Hd]; [reflexivity |]). now subst.
Qed.

Lemma days_in_month_le_31 (y m : Z) : Datetime.days_in_month y m <= 31.
Proof.
  unfold Datetime.days_in_month.
  destruct (m =? 2); [destruct (Datetime.is_leap y); lia |].
  destruct ((m =? 4) || (m =? 6) || (m =? 9) || (m =? 11)); lia.
Qed.

(** X20. The release date of an iTunes response, when it is a date of the
    calendar written as YYYY-MM-DD, gives its year: for every day of
    every month of the years 1 to 9999, the 29th of February of the leap
    years included. *)
Theorem strptime_year_of_isoformat (y m d : Z) :
  1 <= y <= 9999 ->
  1 <= m <= 12 ->
  1 <= d <= Datetime.days_in_month y m ->
  Datetime.strptime_year (JStr (Datetime.isoformat y m d)) = ret y.
Proof.
  intros Hy Hm Hd.
  pose proof (days_in_month_le_31 y m) as H31.
  unfold Datetime.strptime_year, Datetime.isoformat.
  unfold Datetime.two_digits at 1.
  rewrite parse_Y_digits by (Z.div_mod_to_equations; lia).
  replace (y / 1000 * 1000 + y / 100 mod 10 * 100 + y mod 100 / 10 * 10
           + y mod 100 mod 10) with y by (Z.div_mod_to_equations; lia).
  cbn [Datetime.expect]. rewrite Ascii.eqb_refl.
  rewrite parse_m_two_digits by assumption.
  cbn [Datetime.expect]. rewrite Ascii.eqb_refl.
  rewrite parse_d_two_digits by lia.
  assert ((Datetime.MINYEAR <=? y) && (d <=? Datetime.days_in_month y m)
          = true) as ->; [| reflexivity].
  apply andb_true_intro. unfold Datetime.MINYEAR.
  split; [apply Z.leb_le | apply Z.leb_le]; lia.
Qed.

Lemma strptime_year_of_isoformat_witness :
  Datetime.strptime_year (JStr (Datetime.isoformat 2024 2 29)) = ret 2024.
Proof.
  apply strptime_year_of_isoformat; vm_compute; split; discriminate.
Defined.

(** The fields of the iTunes response of the examples, for a release
    date that is read as the year [y]. *)
Lemma itunes_page_released_header (release_date : json) (y : Z) :
  Datetime.strptime_year release_date = ret y ->
  Scraper.itunes_json_header (Examples.itunes_page_released release_date)
  = ret (JStr "123", JStr "Example Movie", y, []).
Proof.
  intros Hy. unfold Scraper.itunes_json_header, Scraper.item.
  cbn [Examples.itunes_page_released Dyn.getitem Dyn.assoc String.eqb
       Ascii.eqb Bool.eqb].
  repeat (rewrite bind_ret_l;
          cbn [Dyn.getitem Dyn.assoc String.eqb Ascii.eqb Bool.eqb]).
  rewrite Hy.
  repeat (rewrite bind_ret_l;
          cbn [Dyn.getitem Dyn.assoc String.eqb Ascii.eqb Bool.eqb
               Dyn.iter]).
  reflexivity.
Qed.

(** The fields of the AppleTV response of the examples. *)
Lemma appletv_page_released_header (w : World) (release_date : json)
    (y : Z) :
  Scraper.appletv_release_year w release_date = ret y ->
  Scraper.appletv_json_header w (Examples.appletv_page_released release_date)
  = ret (JStr "Example Movie", y, []).
Proof.
  intros Hy. unfold Scraper.appletv_json_header, Scraper.item.
  cbn [Examples.appletv_page_released Dyn.getitem Dyn.assoc String.eqb
       Ascii.eqb Bool.eqb].
  repeat (rewrite bind_ret_l;
          cbn [Dyn.getitem Dyn.assoc String.eqb Ascii.eqb Bool.eqb]).
  rewrite Hy.
  repeat (rewrite bind_ret_l;
          cbn [Dyn.getitem Dyn.assoc String.eqb Ascii.eqb Bool.eqb
               Dyn.values map snd]).
  reflexivity.
Qed.

(** The record of a response of the examples that has no offer. *)
Lemma itunes_page_released_record (w : World) (release_date : json)
    (y : Z) :
  Datetime.strptime_year release_date = ret y ->
  Scraper._find_playlist_data_itunes_json_ w
    (Examples.itunes_page_released release_date)
  = ret (mkMovieData ITUNES (JStr "Example Movie") y []).
Proof.
  intros Hy. unfold Scraper._find_playlist_data_itunes_json_.
  rewrite (itunes_page_released_header release_date y Hy), bind_ret_l.
  cbn [Scraper.itunes_json_offers]. now rewrite bind_ret_l.
Qed.

Lemma appletv_page_released_record (w : World) (release_date : json)
    (y : Z) :
  Scraper.appletv_release_year w release_date = ret y ->
  Scraper._find_playlist_data_appletv_json_ w
    (Examples.appletv_page_released release_date)
  = ret (mkMovieData APPLETV (JStr "Example Movie") y []).
Proof.
  intros Hy. unfold Scraper._find_playlist_data_appletv_json_.
  rewrite (appletv_page_released_header w release_date y Hy), bind_ret_l.
  cbn [Scraper.appletv_playables]. now rewrite bind_ret_l.
Qed.



(* ===================================================================== *)
(** ** What the calls of [get_movie_data] share *)
(* ===================================================================== *)

Lemma setitem_setitem (kv : list (string * json)) (k : string) (v v' : json) :
  Scraper.setitem (Scraper.setitem kv k v) k v' = Scraper.setitem kv k v'.
Proof.
  induction kv as [| [k0 v0] kv IH]; simpl.
  - now rewrite String.eqb_refl.
  - destruct (String.eqb k k0) eqn:E; simpl.
    + now rewrite String.eqb_refl.
    + now rewrite E, IH.
Qed.

(** The value that [d[k] = v] writes is the value that [d[k]] reads. *)
Lemma assoc_setitem (kv : list (string * json)) (k : string) (v : json) :
  Dyn.assoc k (Scraper.setitem kv k v) = Some v.
Proof.
  induction kv as [| [k0 v0] kv IH]; simpl.
  - now rewrite String.eqb_refl.
  - destruct (String.eqb k k0) eqn:E; simpl.
    + now rewrite String.eqb_refl.
    + now rewrite E.
Qed.

Lemma shared_step (w : World) (st : Scraper.Shared) (movie_url : string)
    (headers : option (list (string * string))) :
  Scraper.shared_ok w st ->
  snd (Scraper.get_movie_data_shared w st movie_url headers)
  = Scraper.get_movie_data w movie_url headers
  /\ Scraper.shared_ok w
       (fst (Scraper.get_movie_data_shared w st movie_url headers)).
Proof.
  intros Hst. pose proof Hst as [Hcache Hparams].
  unfold Scraper.get_movie_data_shared, Scraper.get_movie_data.
  destruct (itunes_fullmatch w movie_url) as [group1 |];
    [split; [reflexivity | exact Hst] |].
  destruct (appletv_fullmatch w movie_url) as [[group2 group3] |];
    [| split; [reflexivity | exact Hst]].
  assert (Scraper.load_storefronts w st = atv_storefronts w) as ->.
  { unfold Scraper.load_storefronts.
    destruct Hcache as [-> | (table & -> & Hfile)]; [reflexivity |].
    rewrite Hfile. now destruct (Dyn.truthy table). }
  assert (forall v,
             Scraper.setitem (Scraper.api_params st) "sf" v
             = Scraper.setitem (APPLETV_API_BASE_PARAMS w) "sf" v) as Hset.
  { intros v. destruct Hparams as [-> | [v0 ->]]; [reflexivity |].
    apply setitem_setitem. }
  assert (forall table params,
             atv_storefronts w = inr table ->
             (params = APPLETV_API_BASE_PARAMS w
              \/ exists v,
                   params = Scraper.setitem (APPLETV_API_BASE_PARAMS w)
                              "sf" v) ->
             Scraper.shared_ok w (Scraper.mkShared (Some table) params))
    as Hok.
  { intros table params Hfile Hp. split; [right; now exists table |].
    exact Hp. }
  destruct (atv_storefronts w) as [e | storefronts] eqn:Hfile.
  { split; [reflexivity | exact Hst]. }
  rewrite lift_ok, bind_ret_l.
  rewrite (bind_pure (Dyn.getitem storefronts (JStr (Str.upper group2))))
    by auto with pure.
  destruct (outcome (Dyn.getitem storefronts (JStr (Str.upper group2))))
    as [e | sf]; cbn [fst snd Scraper.api_params].
  - split; [reflexivity |]. now apply Hok.
  - rewrite Hset. split; [reflexivity |].
    apply Hok; [reflexivity | right; now exists sf].
Qed.

(** X21. The calls of [get_movie_data] share the cache of the table of
    the storefronts and the dict of the parameters of the request, to
    which each AppleTV call writes its storefront. They do not disturb
    one another: in a sequence of calls, from the first call of the
    program on, each call gives what it gives alone, as long as the file
    of the table is the same. *)
Theorem calls_of_get_movie_data_are_independent (w : World)
    (requests : list (string * option (list (string * string)))) :
  Scraper.calls w (Scraper.initial_shared w) requests
  = map (fun q => Scraper.get_movie_data w (fst q) (snd q)) requests.
Proof.
  assert (forall st,
             Scraper.shared_ok w st ->
             Scraper.calls w st requests
             = map (fun q => Scraper.get_movie_data w (fst q) (snd q))
                   requests) as H.
  { induction requests as [| [movie_url headers] rest IH]; intros st Hst;
      [reflexivity |].
    cbn [Scraper.calls map fst snd].
    destruct (shared_step w st movie_url headers Hst) as [Hr Hst'].
    destruct (Scraper.get_movie_data_shared w st movie_url headers)
      as [st' r].
    simpl in Hr, Hst'. rewrite Hr. f_equal. now apply IH. }
  apply H. split; left; reflexivity.
Qed.

(** After a call for a storefront, the parameters of the next request
    hold the storefront of the next call only. *)
Example second_call_sends_its_own_storefront :
  Scraper.api_params
    (fst (Scraper.get_movie_data_shared Examples.appletv_world
            (fst (Scraper.get_movie_data_shared Examples.appletv_world
                    (Scraper.initial_shared Examples.appletv_world)
                    "https://tv.apple.com/us/movie/example/umc.cmc.example"
                    None))
            "https://tv.apple.com/US/movie/example/umc.cmc.example" None))
  = [("utscf", JStr "OjAAAAAAAAA~"); ("sf", JStr "143441")].
Proof. reflexivity. Qed.

(* ===================================================================== *)
(** ** The assets of an offer item of an iTunes HTML page *)
(* ===================================================================== *)

Lemma itunes_html_asset_ok_eq (asset : json) :
  Scraper.itunes_html_asset_ok asset = ret (Scraper.html_asset_usable asset).
Proof.
  unfold Scraper.itunes_html_asset_ok, Scraper.html_asset_usable.
  destruct asset as [| | | | | kv]; try reflexivity.
  cbn [Dyn.is_dict Dyn.get]. rewrite bind_ret_l.
  destruct (Dyn.assoc "hlsUrl" kv) as [[| | | | |] |]; reflexivity.
Qed.


